(** * Conversational session and structured-data extraction engine

    A shallow embedding of [app/services/adk_travel_planner_service.py]
    and [app/services/response_parser.py].

    Python values are an inductive type [pyval]; dictionaries whose
    insertion order is observable (the wire event, nested payloads) are
    association lists, the session registry and the session state are
    finite maps.  Code that raises returns a [result]; code that mutates
    the event dictionary while it may raise is written in the monad [M]. *)

From Stdlib Require Import ZArith String Ascii List Bool Lia.
From Stdlib.Strings Require Import Byte.
From Stdlib Require Import DecimalString.
From stdpp Require Import gmap strings list fin_maps.

Import ListNotations.
Set Warnings "-register-all".
Local Open Scope string_scope.
Local Open Scope list_scope.

(** ** Python values *)

(** A float is opaque to the service: it is only passed through. *)
Inductive pyfloat : Type :=
| FFinite (m e : Z)
| FInf (neg : bool)
| FNaN.

(** An exception carries its class name and the text [str(e)] yields. *)
Inductive exn : Type := Exn (kind msg : string).

Definition exn_msg (e : exn) : string := let 'Exn _ m := e in m.
Definition exn_kind (e : exn) : string := let 'Exn k _ := e in k.

Inductive result (A : Type) : Type :=
| Ok (a : A)
| Raise (e : exn).
Arguments Ok {A} a.
Arguments Raise {A} e.

(** What the code can observe of an attribute.  For a data attribute of
    an event, read as [hasattr(o, a) and o.a]: it is missing, reading it
    raises, or it yields a value.  For a method of an object
    ([model_dump], [dict]), tested with [hasattr] and then called: the
    object has no such method, the call raises, or the call returns a
    value. *)
Inductive attr (A : Type) : Type :=
| Absent
| Raises (e : exn)
| Has (a : A).
Arguments Absent {A}.
Arguments Raises {A} e.
Arguments Has {A} a.

Inductive pyval : Type :=
| PNone
| PBool (b : bool)
| PInt (z : Z)
| PFloat (f : pyfloat)
| PStr (s : string)
| PBytes (bs : list byte)
| PList (l : list pyval)
| PTuple (l : list pyval)
| PDict (kv : list (pyval * pyval))
| PObj (repr : string)
       (model_dump : attr pyval) (dict_method : attr pyval)
       (dunder_dict : option pyval).

Abbreviation pydict := (list (pyval * pyval)).

(** ** Dictionaries keyed by strings *)

Definition is_key (s : string) (k : pyval) : bool :=
  match k with
  | PStr s' => String.eqb s s'
  | _ => false
  end.

Fixpoint dict_get (s : string) (kv : pydict) : option pyval :=
  match kv with
  | [] => None
  | (k, v) :: rest => if is_key s k then Some v else dict_get s rest
  end.

Definition has_key (s : string) (kv : pydict) : bool :=
  match dict_get s kv with Some _ => true | None => false end.

(** [d[s] = v]: an existing key keeps its position. *)
Fixpoint dict_set (s : string) (v : pyval) (kv : pydict) : pydict :=
  match kv with
  | [] => [(PStr s, v)]
  | (k, v') :: rest =>
      if is_key s k then (k, v) :: rest else (k, v') :: dict_set s v rest
  end.

(** [d.get(s, default)] *)
Definition dict_get_default (s : string) (default : pyval) (kv : pydict) : pyval :=
  match dict_get s kv with Some v => v | None => default end.

(** ** Truthiness *)

Definition float_truthy (f : pyfloat) : bool :=
  match f with
  | FFinite m _ => negb (Z.eqb m 0)
  | _ => true
  end.

Definition truthy (v : pyval) : bool :=
  match v with
  | PNone => false
  | PBool b => b
  | PInt z => negb (Z.eqb z 0)
  | PFloat f => float_truthy f
  | PStr s => negb (String.eqb s "")
  | PBytes bs => match bs with [] => false | _ => true end
  | PList l | PTuple l => match l with [] => false | _ => true end
  | PDict kv => match kv with [] => false | _ => true end
  | PObj _ _ _ _ => true
  end.

(** ** base64 *)

Definition b64_alphabet : string :=
  "ABCDEFGHIJKLMNOPQRSTUVWXYZabcdefghijklmnopqrstuvwxyz0123456789+/".

Definition b64_char (n : N) : ascii :=
  match String.get (N.to_nat n) b64_alphabet with
  | Some c => c
  | None => "="%char
  end.

Fixpoint b64encode (bs : list byte) : string :=
  match bs with
  | [] => ""
  | [a] =>
      let x := Byte.to_N a in
      String (b64_char (x / 4))
        (String (b64_char ((x mod 4) * 16)) "==")
  | [a; b] =>
      let x := Byte.to_N a in
      let y := Byte.to_N b in
      String (b64_char (x / 4))
        (String (b64_char ((x mod 4) * 16 + y / 16))
           (String (b64_char ((y mod 16) * 4)) "="))
  | a :: b :: c :: rest =>
      let x := Byte.to_N a in
      let y := Byte.to_N b in
      let z := Byte.to_N c in
      String (b64_char (x / 4))
        (String (b64_char ((x mod 4) * 16 + y / 16))
           (String (b64_char ((y mod 16) * 4 + z / 64))
              (String (b64_char (z mod 64)) (b64encode rest))))
  end.

(** ** Strings *)

(** [needle in hay] on [str]. *)
Fixpoint contains (needle hay : string) : bool :=
  String.prefix needle hay ||
  match hay with
  | EmptyString => false
  | String _ rest => contains needle rest
  end.

(** What [str.lower()] does to text made of ASCII characters: the
    letters A to Z are lowered, every other character is kept. *)
Definition lower_ascii (c : ascii) : ascii :=
  let n := nat_of_ascii c in
  if (65 <=? n)%nat && (n <=? 90)%nat then ascii_of_nat (n + 32) else c.

Fixpoint ascii_lower (s : string) : string :=
  match s with
  | EmptyString => EmptyString
  | String c rest => String (lower_ascii c) (ascii_lower rest)
  end.

(** The text holds ASCII characters only. *)
Fixpoint ascii_text (s : string) : bool :=
  match s with
  | EmptyString => true
  | String c rest => (nat_of_ascii c <? 128)%nat && ascii_text rest
  end.

(** [str(int)] for an integer. *)
Definition str_of_Z (z : Z) : string := NilZero.string_of_int (Z.to_int z).

(** ** JSON-safety conversion: [_make_json_serializable] *)

(** The [try] body raises only when [model_dump()] or [dict()] raises;
    the handler then returns [str(obj)], which for an object is its
    [repr] field.  Dictionary keys are copied as they are. *)
Fixpoint _make_json_serializable (obj : pyval) : pyval :=
  match obj with
  | PNone => PNone
  | PStr _ | PInt _ | PFloat _ | PBool _ => obj
  | PBytes bs => PStr (b64encode bs)
  | PList l | PTuple l => PList (map _make_json_serializable l)
  | PDict kv =>
      PDict (map (fun p => match p with
                           | (key, value) => (key, _make_json_serializable value)
                           end) kv)
  | PObj repr model_dump dict_method dunder_dict =>
      match model_dump with
      | Has dumped => _make_json_serializable dumped
      | Raises _ => PStr repr
      | Absent =>
          match dict_method with
          | Has dumped => _make_json_serializable dumped
          | Raises _ => PStr repr
          | Absent =>
              match dunder_dict with
              | Some attrs => _make_json_serializable attrs
              | None => PStr repr
              end
          end
      end
  end.

(** What [json.dumps] accepts with its default encoder: [None], booleans,
    numbers, strings, lists and tuples of such, and dictionaries whose
    keys are [str], [int], [float], [bool] or [None]. *)
Definition json_key_ok (k : pyval) : bool :=
  match k with
  | PStr _ | PInt _ | PFloat _ | PBool _ | PNone => true
  | _ => false
  end.

Fixpoint json_serializable (v : pyval) : bool :=
  match v with
  | PNone | PBool _ | PInt _ | PFloat _ | PStr _ => true
  | PList l | PTuple l => forallb json_serializable l
  | PDict kv =>
      forallb (fun p => match p with
                        | (k, x) => json_key_ok k && json_serializable x
                        end) kv
  | PBytes _ | PObj _ _ _ _ => false
  end.

(** Every dictionary key inside [v] (also behind a dump method) is one
    that [json.dumps] accepts. *)
Fixpoint keys_ok (v : pyval) : bool :=
  match v with
  | PList l | PTuple l => forallb keys_ok l
  | PDict kv =>
      forallb (fun p => match p with
                        | (k, x) => json_key_ok k && keys_ok x
                        end) kv
  | PObj _ model_dump dict_method dunder_dict =>
      match model_dump with
      | Has dumped => keys_ok dumped
      | Raises _ => true
      | Absent =>
          match dict_method with
          | Has dumped => keys_ok dumped
          | Raises _ => true
          | Absent =>
              match dunder_dict with
              | Some attrs => keys_ok attrs
              | None => true
              end
          end
      end
  | _ => true
  end.

(** ** Built-ins that the embedding takes as given *)

(** [str()] and [==] on arbitrary values, [json.loads] and [str.lower()]
    belong to Python, not to the service; [json_loads] is [None] where
    [json.loads] raises [JSONDecodeError].  Of [==] only its behaviour on
    two strings is relied upon.  [lower] is [str.lower()], which follows
    the Unicode case mapping; of it is relied upon that on text of ASCII
    characters it lowers the letters A to Z and keeps the rest, that
    lowering twice is lowering once, and that only the empty string lowers
    to the empty string. *)
Class Builtins : Type := {
  py_str : pyval -> string;
  json_loads : string -> option pyval;
  py_eq : pyval -> pyval -> bool;
  py_eq_str : forall s t : string, py_eq (PStr s) (PStr t) = String.eqb s t;
  lower : string -> string;
  lower_ascii_text :
    forall s : string, ascii_text s = true -> lower s = ascii_lower s;
  lower_idempotent : forall s : string, lower (lower s) = lower s;
  lower_empty : forall s : string, String.eqb (lower s) "" = String.eqb s ""
}.

(** [for x in v]: lists and tuples give their elements, a dictionary its
    keys, a string its characters; anything else is not iterable. *)
Fixpoint chars (s : string) : list pyval :=
  match s with
  | EmptyString => []
  | String c rest => PStr (String c EmptyString) :: chars rest
  end.

Definition py_iter (v : pyval) : result (list pyval) :=
  match v with
  | PList l | PTuple l => Ok l
  | PDict kv => Ok (map fst kv)
  | PStr s => Ok (chars s)
  | PBytes bs => Ok (map (fun b => PInt (Z.of_N (Byte.to_N b))) bs)
  | _ => Raise (Exn "TypeError" "object is not iterable")
  end.

(** [s in v] for a string [s]. *)
Definition py_contains (s : string) (v : pyval) : result bool :=
  match v with
  | PDict kv => Ok (has_key s kv)
  | PList l | PTuple l => Ok (existsb (is_key s) l)
  | PStr hay => Ok (contains s hay)
  | _ => Raise (Exn "TypeError" "argument is not iterable")
  end.

(** [v.get(s, default)]: only dictionaries have the method. *)
Definition py_get (s : string) (default : pyval) (v : pyval) : result pyval :=
  match v with
  | PDict kv => Ok (dict_get_default s default kv)
  | _ => Raise (Exn "AttributeError" "object has no attribute 'get'")
  end.

(** [hasattr] answers false when reading the attribute raises
    [AttributeError], and lets any other exception through. *)
Definition is_attribute_error (e : exn) : bool :=
  String.eqb (exn_kind e) "AttributeError".

(** [hasattr(o, a) and o.a]: the value when present and truthy. *)
Definition attr_truthy (a : attr pyval) : result (option pyval) :=
  match a with
  | Absent => Ok None
  | Raises e => if is_attribute_error e then Ok None else Raise e
  | Has v => Ok (if truthy v then Some v else None)
  end.

#[global] Instance result_ret : MRet result := fun A a => Ok a.

#[global] Instance result_bind : MBind result := fun A B f r =>
  match r with
  | Ok a => f a
  | Raise e => Raise e
  end.

(** ** The event-dictionary monad *)

Definition M (A : Type) : Type := pydict -> result A * pydict.

#[global] Instance M_ret : MRet M := fun A a d => (Ok a, d).

#[global] Instance M_bind : MBind M := fun A B f m d =>
  match m d with
  | (Ok a, d') => f a d'
  | (Raise e, d') => (Raise e, d')
  end.

Definition lift {A : Type} (r : result A) : M A := fun d => (r, d).

(** [event_dict[k] = v] *)
Definition set_item (k : string) (v : pyval) : M unit :=
  fun d => (Ok tt, dict_set k v d).

(** [try: m  except Exception as e: print(...)] *)
Definition guarded (m : M unit) : M unit :=
  fun d => (Ok tt, snd (m d)).

Fixpoint for_each {A : Type} (body : A -> M unit) (l : list A) : M unit :=
  match l with
  | [] => mret tt
  | x :: rest => body x;; for_each body rest
  end.

(** ** Native events *)

(** The capability surface the translator touches.  Attributes may be
    missing or raise on access; the three methods return or raise. *)
Record native_event : Type := {
  ev_author : attr pyval;
  ev_timestamp : attr pyval;
  ev_content : attr pyval;
  ev_get_function_calls : result pyval;
  ev_get_function_responses : result pyval;
  ev_is_final_response : result pyval;
  ev_error_message : attr pyval;
  ev_partial : attr pyval;
  ev_turn_complete : attr pyval
}.

Definition when_some {A : Type} (o : option A) (f : A -> M unit) : M unit :=
  match o with
  | Some a => f a
  | None => mret tt
  end.

Section Translator.
Context `{Builtins}.

(** *** Shape-based detection: [_check_for_structured_data] *)

(** The record-type test that follows each of the three places where
    [structured_data] is attached (lines 221-228, 244-251, 312-319). *)
Definition detect_data_type (data_items : pyval) : M unit :=
  match data_items with
  | PList (first_item :: _) =>
      match first_item with
      | PDict item =>
          if has_key "flightNumber" item then
            set_item "data_type" (PStr "flights")
          else if has_key "pricePerNight" item then
            set_item "data_type" (PStr "hotels")
          else mret tt
      | _ => mret tt
      end
  | _ => mret tt
  end.

(** One iteration of the loop over [content['parts']]. *)
Definition check_part (part : pyval) : M unit :=
  match part with
  | PDict p =>
      match dict_get "text" p with
      | Some (PStr text_content) =>
          match json_loads text_content with
          | Some structured_data =>
              found ← lift (py_contains "data" structured_data);
              if (found : bool) then
                set_item "structured_data" structured_data;;
                set_item "type" (PStr "structured_response");;
                data_items ← lift (py_get "data" (PList []) structured_data);
                detect_data_type data_items
              else mret tt
          | None => mret tt
          end
      | _ => mret tt
      end
  | _ => mret tt
  end.

Definition _check_for_structured_data (content : pyval) : M unit :=
  match content with
  | PDict c =>
      if has_key "data" c then
        set_item "structured_data" content;;
        set_item "type" (PStr "structured_response");;
        detect_data_type (dict_get_default "data" (PList []) c)
      else if has_key "parts" c then
        parts ← lift (py_iter (dict_get_default "parts" (PList []) c));
        for_each check_part parts
      else mret tt
  | _ => mret tt
  end.

(** *** Event translation: [_convert_adk_event_to_dict] *)

Definition basic_properties (event : native_event) : M unit :=
  author ← lift (attr_truthy (ev_author event));
  when_some author (set_item "author");;
  timestamp ← lift (attr_truthy (ev_timestamp event));
  when_some timestamp (set_item "timestamp");;
  raw ← lift (attr_truthy (ev_content event));
  when_some raw (fun c =>
    let content := _make_json_serializable c in
    set_item "content" content;;
    _check_for_structured_data content).

Definition function_calls_step (event : native_event) : M unit :=
  function_calls ← lift (ev_get_function_calls event);
  if truthy function_calls then
    set_item "function_calls" (_make_json_serializable function_calls);;
    set_item "type" (PStr "function_call")
  else mret tt.

Definition check_response (response : pyval) : M unit :=
  match response with
  | PDict r =>
      match dict_get "response" r with
      | Some (PDict response_data) =>
          if has_key "data" response_data then
            set_item "structured_data" (PDict response_data);;
            set_item "type" (PStr "structured_response");;
            detect_data_type (dict_get_default "data" (PList []) response_data)
          else mret tt
      | _ => mret tt
      end
  | _ => mret tt
  end.

Definition function_responses_step (event : native_event) : M unit :=
  function_responses ← lift (ev_get_function_responses event);
  if truthy function_responses then
    set_item "function_responses" (_make_json_serializable function_responses);;
    set_item "type" (PStr "function_response");;
    responses_serialized ← lift (py_iter (_make_json_serializable function_responses));
    for_each check_response responses_serialized
  else mret tt.

Definition final_step (event : native_event) : M unit :=
  final ← lift (ev_is_final_response event);
  if truthy final then
    set_item "type" (PStr "final_response");;
    set_item "final" (PBool true)
  else mret tt.

Definition error_step (event : native_event) : M unit :=
  error_message ← lift (attr_truthy (ev_error_message event));
  when_some error_message (fun m =>
    set_item "error" (PBool true);;
    set_item "message" m;;
    set_item "type" (PStr "error")).

Definition metadata_step (event : native_event) : M unit :=
  partial ← lift (attr_truthy (ev_partial event));
  when_some partial (fun _ => set_item "partial" (PBool true));;
  turn_complete ← lift (attr_truthy (ev_turn_complete event));
  when_some turn_complete (fun _ => set_item "turn_complete" (PBool true)).

Definition initial_event_dict (now : string) : pydict :=
  [ (PStr "timestamp", PStr now);
    (PStr "author", PStr "system");
    (PStr "type", PStr "agent_message") ].

Definition convert_steps (event : native_event) : M unit :=
  guarded (basic_properties event);;
  guarded (function_calls_step event);;
  guarded (function_responses_step event);;
  guarded (final_step event);;
  guarded (error_step event);;
  guarded (metadata_step event).

(** [now] is [datetime.now().isoformat()] at the call. *)
Definition _convert_adk_event_to_dict (now : string) (event : native_event)
  : result pyval :=
  match convert_steps event (initial_event_dict now) with
  | (Ok _, d) => Ok (_make_json_serializable (PDict d))
  | (Raise e, _) => Raise e
  end.

End Translator.

(** ** Sessions and the service *)

Record Session : Type := {
  session_state : gmap string pyval;
  session_events : list native_event
}.

(** The session service of the agent runtime: creating a session
    returns a handle or raises, and changes the runtime. *)
Class Runtime : Type := {
  runtime_state : Type;
  create_session :
    runtime_state -> string -> string -> string ->
    result Session * runtime_state
}.

(** What one call of [runner.run_async] delivers: the native events in
    arrival order, then either the end of the stream or an exception. *)
Record run : Type := {
  run_events : list native_event;
  run_error : option exn
}.

Section Service.
Context `{Builtins} `{Runtime}.

(** [runtime_calls] counts the [create_session] requests made so far. *)
Record service : Type := {
  sessions : gmap string Session;
  runners : gmap string unit;
  session_service : runtime_state;
  runtime_calls : nat
}.

Record session_info : Type := {
  info_id : string;
  info_status : string;
  info_created_at : string
}.

Definition session_not_found (session_id : string) : exn :=
  Exn "ValueError" ("Session " +:+ session_id +:+ " not found").

(** [now_ts] is [int(datetime.now().timestamp())], [now_iso] is
    [datetime.now().isoformat()]. *)
Definition create_or_get_session (self : service) (user_id : string)
    (session_id : option string) (now_ts : Z) (now_iso : string)
  : result session_info * service :=
  let session_id :=
    match session_id with
    | Some s =>
        if String.eqb s "" then
          "session_" +:+ user_id +:+ "_" +:+ str_of_Z now_ts
        else s
    | None => "session_" +:+ user_id +:+ "_" +:+ str_of_Z now_ts
    end in
  let info := {| info_id := session_id; info_status := "active";
                 info_created_at := now_iso |} in
  match sessions self !! session_id with
  | Some _ => (Ok info, self)
  | None =>
      match create_session (session_service self)
              "travel_planner_agent" user_id session_id with
      | (Ok session, rt) =>
          (Ok info,
           {| sessions := <[session_id := session]> (sessions self);
              runners := runners self;
              session_service := rt;
              runtime_calls := S (runtime_calls self) |})
      | (Raise e, rt) =>
          (Raise e,
           {| sessions := sessions self;
              runners := runners self;
              session_service := rt;
              runtime_calls := S (runtime_calls self) |})
      end
  end.

(** [existing_trips or []] *)
Definition trips_or_empty (existing_trips : option (list pyval)) : pyval :=
  match existing_trips with
  | Some (t :: ts) => PList (t :: ts)
  | _ => PList []
  end.

Definition user_context (user_profile : pydict)
    (existing_trips : option (list pyval)) (now_iso : string) : pydict :=
  [ (PStr "user_profile", PDict
      [ (PStr "email", dict_get_default "email" PNone user_profile);
        (PStr "display_name",
           dict_get_default "display_name"
             (dict_get_default "first_name" (PStr "") user_profile)
             user_profile);
        (PStr "first_name", dict_get_default "first_name" (PStr "") user_profile);
        (PStr "last_name", dict_get_default "last_name" (PStr "") user_profile);
        (PStr "passport_nationality",
           dict_get_default "passport_nationality" (PStr "US") user_profile);
        (PStr "home", PDict
          [ (PStr "address",
               dict_get_default "address" (PStr "Default Address") user_profile);
            (PStr "local_prefer_mode",
               dict_get_default "preferred_transport" (PStr "driving")
                 user_profile) ]);
        (PStr "preferences", PDict
          [ (PStr "previous_trips", trips_or_empty existing_trips);
            (PStr "travel_style",
               dict_get_default "travel_style" (PStr "adventure") user_profile);
            (PStr "budget_range",
               dict_get_default "budget_range" (PStr "moderate") user_profile) ])
      ]);
    (PStr "itinerary", PDict []);
    (PStr "system_time", PStr now_iso) ].

(** [for key, value in user_context.items(): session.state[key] = value];
    the keys of [user_context] are strings. *)
Fixpoint write_state (items : pydict) (state : gmap string pyval)
  : gmap string pyval :=
  match items with
  | [] => state
  | (PStr key, value) :: rest => write_state rest (<[key := value]> state)
  | _ :: rest => write_state rest state
  end.

Definition initialize_session_with_user_data (self : service)
    (user_id session_id : string) (user_profile : pydict)
    (existing_trips : option (list pyval)) (now_iso : string)
  : result pydict * service :=
  match sessions self !! session_id with
  | None => (Raise (session_not_found session_id), self)
  | Some session =>
      let ctx := user_context user_profile existing_trips now_iso in
      let session' :=
        {| session_state := write_state ctx (session_state session);
           session_events := session_events session |} in
      (Ok [ (PStr "status", PStr "initialized");
            (PStr "user_context", PDict ctx) ],
       {| sessions := <[session_id := session']> (sessions self);
          runners := runners self;
          session_service := session_service self;
          runtime_calls := runtime_calls self |})
  end.

Definition cleanup_session (self : service) (session_id : string) : service :=
  {| sessions := delete session_id (sessions self);
     runners := delete session_id (runners self);
     session_service := session_service self;
     runtime_calls := runtime_calls self |}.

(** *** Chat turn: [send_message] *)

(** [event_dict.get(k)] and [k in event_dict] on a translated event. *)
Definition event_get (k : string) (event_dict : pyval) : option pyval :=
  match event_dict with
  | PDict d => dict_get k d
  | _ => None
  end.

Definition is_str (s : string) (v : option pyval) : bool :=
  match v with
  | Some (PStr s') => String.eqb s s'
  | _ => false
  end.

Definition is_structured_response (event_dict : pyval) : bool :=
  is_str "structured_response" (event_get "type" event_dict).

(** The local variables of the generator while it consumes the stream;
    [yielded] is what the caller has received so far. *)
Record loop_state : Type := {
  events : list pyval;
  structured_data_found : option pyval;
  yielded : list pyval
}.

Definition loop_start : loop_state :=
  {| events := []; structured_data_found := None; yielded := [] |}.

Definition loop_body (structured_only : bool) (now : string)
    (event : native_event) (st : loop_state) : result loop_state :=
  event_dict ← _convert_adk_event_to_dict now event;
  Ok {| events := events st ++ [event_dict];
        structured_data_found :=
          if is_structured_response event_dict
             && bool_decide (is_Some (event_get "structured_data" event_dict))
          then Some event_dict
          else structured_data_found st;
        yielded :=
          if structured_only then
            if is_structured_response event_dict
            then yielded st ++ [event_dict]
            else yielded st
          else yielded st ++ [event_dict] |}.

(** The [async for] loop; an exception leaves the loop with the state
    reached so far. *)
Fixpoint consume (structured_only : bool) (clock : nat -> string) (i : nat)
    (stream : list native_event) (st : loop_state) : loop_state * option exn :=
  match stream with
  | [] => (st, None)
  | event :: rest =>
      match loop_body structured_only (clock i) event st with
      | Ok st' => consume structured_only clock (S i) rest st'
      | Raise e => (st, Some e)
      end
  end.

(** The content of the synthesized event (lines 151-157). *)
Definition fallback_content (content : pyval) : result pyval :=
  match content with
  | PObj _ (Has dumped) _ _ => Ok dumped
  | PObj _ (Raises e) _ _ => Raise e
  | PObj _ Absent (Has dumped) _ => Ok dumped
  | PObj _ Absent (Raises e) _ => Raise e
  | _ => Ok (PStr (py_str content))
  end.

Definition response_event (content : pyval) (now : string) : pyval :=
  PDict [ (PStr "type", PStr "agent_message");
          (PStr "author", PStr "root_agent");
          (PStr "content", content);
          (PStr "timestamp", PStr now) ].

(** Lines 146-165: nothing was consumed, so answer from the history. *)
Definition fallback (session : Session) (now : string) : result (list pyval) :=
  match last (session_events session) with
  | None => Ok []
  | Some latest_event =>
      match ev_content latest_event with
      | Absent => Ok []
      | Raises e => if is_attribute_error e then Ok [] else Raise e
      | Has content =>
          content' ← fallback_content content;
          Ok [response_event content' now]
      end
  end.

Definition error_event (e : exn) (now : string) : pyval :=
  PDict [ (PStr "type", PStr "error");
          (PStr "error", PBool true);
          (PStr "message", PStr ("Agent execution error: " +:+ exn_msg e));
          (PStr "author", PStr "system");
          (PStr "timestamp", PStr now) ].

(** [r] is what [self.runner.run_async(user_id, session_id, new_message)]
    delivers; [clock k] is [datetime.now().isoformat()] at its k-th use.
    The result is [Raise] when the generator raises to its caller, and
    otherwise the sequence of events it yields before it ends. *)
Definition send_message (self : service) (user_id session_id message : string)
    (structured_only : bool) (r : run) (clock : nat -> string)
  : result (list pyval) :=
  match sessions self !! session_id with
  | None => Raise (session_not_found session_id)
  | Some session =>
      let '(st, raised) :=
        consume structured_only clock 0 (run_events r) loop_start in
      let now := clock (length (events st)) in
      let raised :=
        match raised with
        | Some e => Some e
        | None => run_error r
        end in
      match raised with
      | Some e => Ok (yielded st ++ [error_event e now])
      | None =>
          let no_events :=
            match events st with
            | [] =>
                match fallback session now with
                | Ok out => Ok (yielded st ++ out)
                | Raise e => Ok (yielded st ++ [error_event e now])
                end
            | _ => Ok (yielded st)
            end in
          match structured_data_found st with
          | Some found =>
              if structured_only && truthy found
              then Ok (yielded st ++ [found])
              else no_events
          | None => no_events
          end
      end
  end.

(** *** Itinerary extraction *)

Record session_snapshot : Type := {
  snap_session_id : string;
  snap_user_id : string;
  snap_state : gmap string pyval;
  snap_status : string;
  snap_message_count : nat
}.

Definition get_session_state (self : service) (user_id session_id : string)
  : result session_snapshot :=
  match sessions self !! session_id with
  | None => Raise (session_not_found session_id)
  | Some session =>
      Ok {| snap_session_id := session_id;
            snap_user_id := user_id;
            snap_state := session_state session;
            snap_status := "active";
            snap_message_count := length (session_events session) |}
  end.

Record trip_data : Type := {
  destination : pyval;
  departure_city : pyval;
  start_date : pyval;
  end_date : pyval;
  total_budget : string;
  currency : string;
  total_adult_travellers : string;
  total_child_travellers : pyval;
  travelling_with_pets : pyval;
  stay_preference : list pyval;
  transportation_preference : list pyval;
  extra_activities : list pyval;
  special_requirements : pyval
}.

(** [x in l] on a list, by [==]. *)
Definition py_elem (x : pyval) (l : list pyval) : bool := existsb (py_eq x) l.

(** [if v and v not in l: l.append(v)] *)
Definition add_distinct (v : pyval) (l : list pyval) : list pyval :=
  if truthy v && negb (py_elem v l) then l ++ [v] else l.

Definition with_stay (f : list pyval -> list pyval) (t : trip_data) : trip_data :=
  {| destination := destination t; departure_city := departure_city t;
     start_date := start_date t; end_date := end_date t;
     total_budget := total_budget t; currency := currency t;
     total_adult_travellers := total_adult_travellers t;
     total_child_travellers := total_child_travellers t;
     travelling_with_pets := travelling_with_pets t;
     stay_preference := f (stay_preference t);
     transportation_preference := transportation_preference t;
     extra_activities := extra_activities t;
     special_requirements := special_requirements t |}.

Definition with_transportation (f : list pyval -> list pyval) (t : trip_data)
  : trip_data :=
  {| destination := destination t; departure_city := departure_city t;
     start_date := start_date t; end_date := end_date t;
     total_budget := total_budget t; currency := currency t;
     total_adult_travellers := total_adult_travellers t;
     total_child_travellers := total_child_travellers t;
     travelling_with_pets := travelling_with_pets t;
     stay_preference := stay_preference t;
     transportation_preference := f (transportation_preference t);
     extra_activities := extra_activities t;
     special_requirements := special_requirements t |}.

Definition with_activities (f : list pyval -> list pyval) (t : trip_data)
  : trip_data :=
  {| destination := destination t; departure_city := departure_city t;
     start_date := start_date t; end_date := end_date t;
     total_budget := total_budget t; currency := currency t;
     total_adult_travellers := total_adult_travellers t;
     total_child_travellers := total_child_travellers t;
     travelling_with_pets := travelling_with_pets t;
     stay_preference := stay_preference t;
     transportation_preference := transportation_preference t;
     extra_activities := f (extra_activities t);
     special_requirements := special_requirements t |}.

(** The body of the inner loop (lines 410-422). *)
Definition scan_event (event : pyval) (t : trip_data) : result trip_data :=
  event_type ← py_get "event_type" (PStr "") event;
  if is_str "hotel" (Some event_type) then
    room_type ← py_get "room_selection" (PStr "") event;
    Ok (with_stay (add_distinct room_type) t)
  else if is_str "visit" (Some event_type) then
    activity ← py_get "description" (PStr "") event;
    Ok (with_activities (add_distinct activity) t)
  else if is_str "transportation" (Some event_type) then
    transport ← py_get "type" (PStr "") event;
    Ok (with_transportation (add_distinct transport) t)
  else Ok t.

Fixpoint scan_events (evs : list pyval) (t : trip_data) : result trip_data :=
  match evs with
  | [] => Ok t
  | event :: rest => t' ← scan_event event t; scan_events rest t'
  end.

Definition scan_day (day : pyval) (t : trip_data) : result trip_data :=
  day_events ← py_get "events" (PList []) day;
  evs ← py_iter day_events;
  scan_events evs t.

Fixpoint scan_days (days : list pyval) (t : trip_data) : result trip_data :=
  match days with
  | [] => Ok t
  | day :: rest => t' ← scan_day day t; scan_days rest t'
  end.

Definition _convert_itinerary_to_trip_data (itinerary : pyval)
  : result trip_data :=
  v_destination ← py_get "destination" (PStr "") itinerary;
  v_origin ← py_get "origin" (PStr "") itinerary;
  v_start ← py_get "start_date" (PStr "") itinerary;
  v_end ← py_get "end_date" (PStr "") itinerary;
  v_budget ← py_get "estimated_budget" (PInt 0) itinerary;
  travelers ← py_get "travelers" (PDict []) itinerary;
  v_adults ← py_get "adults" (PInt 1) travelers;
  v_children ← py_get "children" (PInt 0) travelers;
  v_pets ← py_get "pets" (PBool false) travelers;
  v_notes ← py_get "notes" (PStr "") itinerary;
  let trip :=
    {| destination := v_destination; departure_city := v_origin;
       start_date := v_start; end_date := v_end;
       total_budget := py_str v_budget; currency := "USD";
       total_adult_travellers := py_str v_adults;
       total_child_travellers := v_children;
       travelling_with_pets := v_pets;
       stay_preference := []; transportation_preference := [];
       extra_activities := []; special_requirements := v_notes |} in
  days ← py_get "days" (PList []) itinerary;
  if truthy days then
    ds ← py_iter days;
    scan_days ds trip
  else Ok trip.

Definition extract_itinerary_from_session (self : service)
    (user_id session_id : string) : result (option trip_data) :=
  state_data ← get_session_state self user_id session_id;
  let itinerary := default (PDict []) (snap_state state_data !! "itinerary") in
  if truthy itinerary then
    days ← py_get "days" PNone itinerary;
    if truthy days then
      trip ← _convert_itinerary_to_trip_data itinerary;
      Ok (Some trip)
    else Ok None
  else Ok None.

End Service.

(** ** Intent classification: [StructuredResponseParser] *)

Module Parser.

Definition flight_keywords : list string :=
  [ "flight"; "flights"; "fly"; "flying"; "airline"; "airplane";
    "book flight"; "flight search"; "flight deals"; "airfare";
    "plane ticket" ].

Definition hotel_keywords : list string :=
  [ "hotel"; "hotels"; "accommodation"; "stay"; "room"; "booking";
    "lodge"; "resort" ].

Definition itinerary_keywords : list string :=
  [ "itinerary"; "plan"; "schedule"; "trip plan"; "travel plan";
    "day by day" ].

(** [any(keyword in text for keyword in keywords)] *)
Definition any_keyword (keywords : list string) (text : string) : bool :=
  existsb (fun keyword => contains keyword text) keywords.

Section WithBuiltins.
Context `{Builtins}.

(** The branch on [agent_name] (lines 49-56). *)
Definition agent_hint (agent_name : option string) : option string :=
  match agent_name with
  | None => None
  | Some name =>
      if String.eqb name "" then None
      else
        let agent_lower := lower name in
        if contains "flight" agent_lower then Some "flight"
        else if contains "hotel" agent_lower then Some "hotel"
        else if contains "itinerary" agent_lower then Some "itinerary"
        else None
  end.

Definition should_return_structured_data (message : string)
    (agent_name : option string) : option string :=
  let message_lower := lower message in
  if any_keyword flight_keywords message_lower then Some "flight"
  else if any_keyword hotel_keywords message_lower then Some "hotel"
  else if any_keyword itinerary_keywords message_lower then Some "itinerary"
  else agent_hint agent_name.

End WithBuiltins.

End Parser.

(** * Specification-side definitions and sample data *)

(** ** Concrete built-ins and a concrete runtime for the examples *)

Module Sample.

(** *** A reader for a fragment of JSON

    The fragment is [null], [true], [false], integers, strings without
    escapes, arrays and objects; [loads] answers [None] outside of it and
    what [json.loads] returns on it. *)

Definition is_ws (c : ascii) : bool :=
  let n := nat_of_ascii c in
  (n =? 32)%nat || (n =? 9)%nat || (n =? 10)%nat || (n =? 13)%nat.

Fixpoint skip_ws (s : string) : string :=
  match s with
  | String c rest => if is_ws c then skip_ws rest else s
  | EmptyString => s
  end.

Definition dquote : ascii := ascii_of_nat 34.
Definition backslash : ascii := ascii_of_nat 92.

(** [quoted s] is [s] between two double quotes. *)
Definition quoted (s : string) : string :=
  String dquote (s +:+ String dquote EmptyString).

Fixpoint read_string (s : string) : option (string * string) :=
  match s with
  | EmptyString => None
  | String c rest =>
      if Ascii.eqb c dquote then Some (EmptyString, rest)
      else if Ascii.eqb c backslash then None
      else
        match read_string rest with
        | Some (body, rest') => Some (String c body, rest')
        | None => None
        end
  end.

Definition digit_of (c : ascii) : option Z :=
  let n := nat_of_ascii c in
  if (48 <=? n)%nat && (n <=? 57)%nat then Some (Z.of_nat (n - 48)) else None.

Fixpoint read_digits (acc : Z) (s : string) : Z * string :=
  match s with
  | String c rest =>
      match digit_of c with
      | Some d => read_digits (acc * 10 + d) rest
      | None => (acc, s)
      end
  | EmptyString => (acc, s)
  end.

Definition read_number (s : string) : option (Z * string) :=
  match s with
  | String c rest =>
      match digit_of c with
      | Some 0%Z =>
          match rest with
          | String c' _ =>
              match digit_of c' with
              | Some _ => None
              | None => Some (0%Z, rest)
              end
          | EmptyString => Some (0%Z, rest)
          end
      | Some d => Some (read_digits d rest)
      | None => None
      end
  | EmptyString => None
  end.

Definition expect (word : string) (v : pyval) (s : string)
  : option (pyval * string) :=
  if String.prefix word s
  then Some (v, substring (String.length word)
                          (String.length s - String.length word) s)
  else None.

Inductive mode : Type := Value | Elements | Members.

Fixpoint read (fuel : nat) (m : mode) (s : string) : option (pyval * string) :=
  match fuel with
  | O => None
  | S fuel =>
      match m with
      | Value =>
          match skip_ws s with
          | String "n" _ => expect "null" PNone (skip_ws s)
          | String "t" _ => expect "true" (PBool true) (skip_ws s)
          | String "f" _ => expect "false" (PBool false) (skip_ws s)
          | String "[" rest =>
              match skip_ws rest with
              | String "]" rest' => Some (PList [], rest')
              | _ => read fuel Elements rest
              end
          | String "{" rest =>
              match skip_ws rest with
              | String "}" rest' => Some (PDict [], rest')
              | _ => read fuel Members rest
              end
          | String "-" rest =>
              match read_number rest with
              | Some (z, rest') => Some (PInt (- z), rest')
              | None => None
              end
          | String c rest =>
              if Ascii.eqb c dquote then
                match read_string rest with
                | Some (body, rest') => Some (PStr body, rest')
                | None => None
                end
              else
                match read_number (String c rest) with
                | Some (z, rest') => Some (PInt z, rest')
                | None => None
                end
          | EmptyString => None
          end
      | Elements =>
          match read fuel Value s with
          | Some (v, rest) =>
              match skip_ws rest with
              | String "]" rest' => Some (PList [v], rest')
              | String "," rest' =>
                  match read fuel Elements rest' with
                  | Some (PList vs, rest'') => Some (PList (v :: vs), rest'')
                  | _ => None
                  end
              | _ => None
              end
          | None => None
          end
      | Members =>
          match skip_ws s with
          | String c rest =>
              if negb (Ascii.eqb c dquote) then None else
              match read_string rest with
              | Some (key, rest') =>
                  match skip_ws rest' with
                  | String ":" rest'' =>
                      match read fuel Value rest'' with
                      | Some (v, rest3) =>
                          match skip_ws rest3 with
                          | String "}" rest4 => Some (PDict [(PStr key, v)], rest4)
                          | String "," rest4 =>
                              match read fuel Members rest4 with
                              | Some (PDict kv, rest5) =>
                                  (* a repeated key keeps its first
                                     position and its last value *)
                                  Some (PDict ((PStr key, dict_get_default key v kv)
                                               :: List.filter (fun p => negb (is_key key (fst p))) kv),
                                        rest5)
                              | _ => None
                              end
                          | _ => None
                          end
                      | None => None
                      end
                  | _ => None
                  end
              | None => None
              end
          | _ => None
          end
      end
  end.

Definition loads (s : string) : option pyval :=
  match read (2 * String.length s + 2) Value s with
  | Some (v, rest) =>
      match skip_ws rest with
      | EmptyString => Some v
      | _ => None
      end
  | None => None
  end.

(** [str()] on [None], booleans, integers, strings and objects; the
    remaining cases do not occur in the examples. *)
Definition str (v : pyval) : string :=
  match v with
  | PNone => "None"
  | PBool true => "True"
  | PBool false => "False"
  | PInt z => str_of_Z z
  | PStr s => s
  | PObj repr _ _ _ => repr
  | _ => "<value>"
  end.

(** [==] on [None], booleans, integers and strings. *)
Definition equal (x y : pyval) : bool :=
  match x, y with
  | PNone, PNone => true
  | PBool a, PBool b => Bool.eqb a b
  | PInt a, PInt b => Z.eqb a b
  | PBool a, PInt b | PInt b, PBool a => Z.eqb (if a then 1 else 0) b
  | PStr s, PStr t => String.eqb s t
  | _, _ => false
  end.

(** The sample built-ins; their [lower] is [str.lower()] as it is on text
    of ASCII characters. *)
Definition builtins : Builtins :=
  {| py_str := str; json_loads := loads; py_eq := equal;
     py_eq_str := fun s t => eq_refl;
     lower := ascii_lower;
     lower_ascii_text := fun s _ => eq_refl;
     lower_idempotent :=
       ltac:(intros s; induction s as [ | c rest IH];
             [ reflexivity
             | cbn [ascii_lower]; rewrite IH; f_equal;
               destruct c as [[] [] [] [] [] [] [] []]; reflexivity ]);
     lower_empty := ltac:(intros [ | c rest]; reflexivity) |}.

(** A runtime whose sessions start empty and whose state is the list of
    the session ids it has handed out. *)
Definition runtime : Runtime :=
  {| runtime_state := list string;
     create_session := fun rt _ _ session_id =>
       (Ok {| session_state := ∅; session_events := [] |},
        session_id :: rt) |}.

(** The text [{"data": [{"flightNumber": "AI101", "price": 420}]}]. *)
Definition flights_json : string :=
  "{" +:+ quoted "data" +:+ ": [{" +:+ quoted "flightNumber" +:+ ": "
  +:+ quoted "AI101" +:+ ", " +:+ quoted "price" +:+ ": 420}]}".

End Sample.

(** ** Induction on Python values *)

Definition attr_all (P : pyval -> Prop) (a : attr pyval) : Prop :=
  match a with
  | Has v => P v
  | _ => True
  end.

Definition option_all (P : pyval -> Prop) (o : option pyval) : Prop :=
  match o with
  | Some v => P v
  | None => True
  end.

Section PyvalInduction.
Variable P : pyval -> Prop.
Hypothesis HNone : P PNone.
Hypothesis HBool : forall b, P (PBool b).
Hypothesis HInt : forall z, P (PInt z).
Hypothesis HFloat : forall f, P (PFloat f).
Hypothesis HStr : forall s, P (PStr s).
Hypothesis HBytes : forall bs, P (PBytes bs).
Hypothesis HList : forall l, Forall P l -> P (PList l).
Hypothesis HTuple : forall l, Forall P l -> P (PTuple l).
Hypothesis HDict :
  forall kv, Forall (fun p => P (fst p) /\ P (snd p)) kv -> P (PDict kv).
Hypothesis HObj :
  forall repr md dm dd,
    attr_all P md -> attr_all P dm -> option_all P dd ->
    P (PObj repr md dm dd).

Fixpoint pyval_nested_ind (v : pyval) : P v :=
  match v with
  | PNone => HNone
  | PBool b => HBool b
  | PInt z => HInt z
  | PFloat f => HFloat f
  | PStr s => HStr s
  | PBytes bs => HBytes bs
  | PList l =>
      HList l ((fix go (l : list pyval) : Forall P l :=
                  match l with
                  | [] => @List.Forall_nil _ P
                  | x :: rest => @List.Forall_cons _ P x rest (pyval_nested_ind x) (go rest)
                  end) l)
  | PTuple l =>
      HTuple l ((fix go (l : list pyval) : Forall P l :=
                   match l with
                   | [] => @List.Forall_nil _ P
                   | x :: rest => @List.Forall_cons _ P x rest (pyval_nested_ind x) (go rest)
                   end) l)
  | PDict kv =>
      HDict kv ((fix go (kv : pydict)
                   : Forall (fun p => P (fst p) /\ P (snd p)) kv :=
                   match kv with
                   | [] => @List.Forall_nil _ _
                   | (k, x) :: rest =>
                       @List.Forall_cons _ _ (k, x) rest
                         (conj (pyval_nested_ind k) (pyval_nested_ind x))
                         (go rest)
                   end) kv)
  | PObj repr md dm dd =>
      HObj repr md dm dd
        (match md return attr_all P md with
         | Has x => pyval_nested_ind x
         | _ => I
         end)
        (match dm return attr_all P dm with
         | Has x => pyval_nested_ind x
         | _ => I
         end)
        (match dd return option_all P dd with
         | Some x => pyval_nested_ind x
         | None => I
         end)
  end.

End PyvalInduction.

(** ** The shape-based classifier, as specified *)

(** The record-type inference as the specification words it. *)
Definition inferred_data_type (c : pydict) : option string :=
  match dict_get "data" c with
  | Some (PList (PDict first_record :: _)) =>
      if has_key "flightNumber" first_record then Some "flights"
      else if has_key "pricePerNight" first_record then Some "hotels"
      else None
  | _ => None
  end.

(** The event dictionary once [content] has been marked structured. *)
Definition mark_structured (content : pyval) (data_type : option string)
    (d : pydict) : pydict :=
  let d' := dict_set "type" (PStr "structured_response")
              (dict_set "structured_data" content d) in
  match data_type with
  | Some t => dict_set "data_type" (PStr t) d'
  | None => d'
  end.

Definition is_mapping (v : pyval) : bool :=
  match v with
  | PDict _ => true
  | _ => false
  end.

(** The shape the claim names: a mapping whose [data] value is a
    non-empty sequence of mappings. *)
Definition non_empty_records (content : pyval) : bool :=
  match content with
  | PDict c =>
      match dict_get "data" c with
      | Some (PList (x :: l)) => forallb is_mapping (x :: l)
      | _ => false
      end
  | _ => false
  end.

(** Whether the classifier, run on a fresh event, marks [content]. *)
Definition marks_structured `{Builtins} (content : pyval) : bool :=
  has_key "structured_data" (snd (_check_for_structured_data content [])).

(** ** Invariants of the event dictionary *)

(** [hoare P m Q]: from a dictionary satisfying [P], the dictionary that
    [m] leaves behind satisfies [Q], whether [m] returns or raises. *)
Definition hoare {A : Type} (P : pydict -> Prop) (m : M A)
    (Q : pydict -> Prop) : Prop :=
  forall d, P d -> Q (snd (m d)).

(** A [data_type] entry is one of the two tags and comes with a
    [structured_data] entry. *)
Definition data_type_inv (d : pydict) : Prop :=
  match dict_get "data_type" d with
  | None => True
  | Some v =>
      (v = PStr "flights" \/ v = PStr "hotels")
      /\ has_key "structured_data" d = true
  end.

Definition attached_inv (d : pydict) : Prop :=
  data_type_inv d /\ has_key "structured_data" d = true.

(** The [type] entry is a string, and a dictionary typed
    [structured_response] has a [structured_data] entry. *)
Definition structured_inv (d : pydict) : Prop :=
  match dict_get "type" d with
  | Some (PStr t) =>
      t = "structured_response" -> has_key "structured_data" d = true
  | _ => False
  end.

Definition has_structured_data (d : pydict) : Prop :=
  has_key "structured_data" d = true
  /\ exists t, dict_get "type" d = Some (PStr t).

(** Every value the translator can read from the event has only
    dictionary keys that [json.dumps] accepts. *)
Definition attr_keys_ok (a : attr pyval) : bool :=
  match a with
  | Has v => keys_ok v
  | _ => true
  end.

Definition result_keys_ok (r : result pyval) : bool :=
  match r with
  | Ok v => keys_ok v
  | Raise _ => true
  end.

Definition event_keys_ok (event : native_event) : bool :=
  attr_keys_ok (ev_author event)
  && attr_keys_ok (ev_timestamp event)
  && attr_keys_ok (ev_content event)
  && result_keys_ok (ev_get_function_calls event)
  && result_keys_ok (ev_get_function_responses event)
  && attr_keys_ok (ev_error_message event).

Definition dict_keys_ok (d : pydict) : Prop := keys_ok (PDict d) = true.

(** ** Sample events *)

Module Examples.

Definition plain_event : native_event :=
  {| ev_author := Has (PStr "root_agent");
     ev_timestamp := Absent;
     ev_content := Has PNone;
     ev_get_function_calls := Ok (PList []);
     ev_get_function_responses := Ok (PList []);
     ev_is_final_response := Ok (PBool false);
     ev_error_message := Has PNone;
     ev_partial := Has PNone;
     ev_turn_complete := Has PNone |}.

Definition with_content (content : pyval) : native_event :=
  {| ev_author := Has (PStr "root_agent");
     ev_timestamp := Absent;
     ev_content := Has content;
     ev_get_function_calls := Ok (PList []);
     ev_get_function_responses := Ok (PList []);
     ev_is_final_response := Ok (PBool false);
     ev_error_message := Has PNone;
     ev_partial := Has PNone;
     ev_turn_complete := Has PNone |}.

Definition with_function_responses (responses : pyval) : native_event :=
  {| ev_author := Has (PStr "root_agent");
     ev_timestamp := Absent;
     ev_content := Has PNone;
     ev_get_function_calls := Ok (PList []);
     ev_get_function_responses := Ok responses;
     ev_is_final_response := Ok (PBool false);
     ev_error_message := Has PNone;
     ev_partial := Has PNone;
     ev_turn_complete := Has PNone |}.

(** A [Content] object holding one text part. *)
Definition text_content (text : string) : pyval :=
  PObj "Content" 
    (Has (PDict [ (PStr "parts", PList [PDict [(PStr "text", PStr text)]]);
                  (PStr "role", PStr "model") ]))
    Absent None.

(** A [FunctionResponse] object whose payload is [response]. *)
Definition function_response (response : pyval) : pyval :=
  PObj "FunctionResponse"
    (Has (PDict [ (PStr "name", PStr "search");
                  (PStr "response", response) ]))
    Absent None.

Definition flights_payload : pyval :=
  PDict [(PStr "data",
          PList [PDict [ (PStr "flightNumber", PStr "AI101");
                         (PStr "price", PInt 420) ]])].

(** The tool result [{"result": {b"k": 1}}]: a dictionary keyed by bytes. *)
Definition bytes_key_event : native_event :=
  with_function_responses
    (PList [function_response
              (PDict [(PStr "result",
                       PDict [(PBytes [x6b%byte], PInt 1)])])]).

(** A message with two text parts: the JSON text of a flights payload,
    then the JSON text of the string [data]. *)
Definition two_part_event : native_event :=
  with_content
    (PObj "Content"
       (Has (PDict [ (PStr "parts",
                      PList [ PDict [(PStr "text", PStr Sample.flights_json)];
                              PDict [(PStr "text", PStr (Sample.quoted "data"))] ]);
                     (PStr "role", PStr "model") ]))
       Absent None).

(** The stream [agent_message, structured_response(flights), agent_message]. *)
Definition example_stream : list native_event :=
  [ with_content (text_content "Searching for flights");
    with_function_responses (PList [function_response flights_payload]);
    with_content (text_content "Anything else?") ].

Definition example_run : run :=
  {| run_events := example_stream; run_error := None |}.

Definition failing_run : run :=
  {| run_events := [with_content (text_content "Searching for flights")];
     run_error := Some (Exn "RuntimeError" "model overloaded") |}.


Definition clock (k : nat) : string := "2025-01-01T00:00:0" +:+ str_of_Z (Z.of_nat k).

Definition fresh_session : Session :=
  {| session_state := ∅; session_events := [] |}.

Definition session_with_history : Session :=
  {| session_state := ∅;
     session_events := [with_content (text_content "Welcome back")] |}.

Definition service_with (session : Session) : @service Sample.runtime :=
  {| sessions := {["s1" := session]};
     runners := ∅;
     session_service := (@nil string : @runtime_state Sample.runtime);
     runtime_calls := 0 |}.

Definition empty_service : @service Sample.runtime :=
  {| sessions := ∅; runners := ∅;
     session_service := (@nil string : @runtime_state Sample.runtime);
     runtime_calls := 0 |}.

End Examples.

(** ** The events of one turn, as specified *)

Section StreamDefinitions.
Context `{Builtins} `{Runtime}.

Definition translate (now : string) (event : native_event) : pyval :=
  match _convert_adk_event_to_dict now event with
  | Ok event_dict => event_dict
  | Raise _ => PNone
  end.

Fixpoint translate_stream (clock : nat -> string) (i : nat)
    (stream : list native_event) : list pyval :=
  match stream with
  | [] => []
  | event :: rest =>
      translate (clock i) event :: translate_stream clock (S i) rest
  end.

(** The value of [structured_data_found] after the events [l]. *)
Definition last_structured (init : option pyval) (l : list pyval)
  : option pyval :=
  fold_left
    (fun found event_dict =>
       if is_structured_response event_dict
          && bool_decide (is_Some (event_get "structured_data" event_dict))
       then Some event_dict else found)
    l init.

(** The specification's reading of a structured-only turn: one event,
    the first structured one, or nothing. *)
Definition structured_only_claim (self : service)
    (user_id session_id message : string) (r : run) (clock : nat -> string)
  : Prop :=
  match List.filter is_structured_response
          (translate_stream clock 0 (run_events r)) with
  | first :: _ =>
      send_message self user_id session_id message true r clock = Ok [first]
  | [] =>
      send_message self user_id session_id message true r clock = Ok []
  end.

End StreamDefinitions.

(** ** Itinerary preferences, as specified *)

(** What [for x in v] visits; nothing when [v] cannot be iterated. *)
Definition iterated (v : pyval) : list pyval :=
  match py_iter v with
  | Ok l => l
  | Raise _ => []
  end.

(** [v] can be iterated and every element visited is a mapping. *)
Definition iterates_mappings (v : pyval) : bool :=
  match py_iter v with
  | Ok l => forallb is_mapping l
  | Raise _ => false
  end.

(** The events of a day, and of a list of days, in order. *)
Definition day_events (day : pyval) : list pyval :=
  match day with
  | PDict d => iterated (dict_get_default "events" (PList []) d)
  | _ => []
  end.

Definition itinerary_events (days : list pyval) : list pyval :=
  concat (map day_events days).

Definition has_event_type (event_type : string) (event : pyval) : bool :=
  match event with
  | PDict e => is_str event_type (Some (dict_get_default "event_type" (PStr "") e))
  | _ => false
  end.

Definition event_field (field : string) (event : pyval) : pyval :=
  match event with
  | PDict e => dict_get_default field (PStr "") e
  | _ => PStr ""
  end.

(** The non-empty [field] values of the events typed [event_type]. *)
Definition field_values (event_type field : string) (evs : list pyval)
  : list pyval :=
  List.filter truthy
    (map (event_field field) (List.filter (has_event_type event_type) evs)).

(** Each value once, at its first occurrence; [seen] holds the values
    already kept. *)
Fixpoint first_seen `{Builtins} (seen values : list pyval) : list pyval :=
  match values with
  | [] => []
  | v :: rest =>
      if py_elem v seen then first_seen seen rest
      else v :: first_seen (seen ++ [v]) rest
  end.

(** The shape the extractor expects of an itinerary: [travelers], when
    given, is a mapping; [days], when given, can be iterated and every day
    is a mapping; the [events] of a day, when given, can be iterated and
    every event is a mapping. *)
Definition well_formed_day (day : pyval) : bool :=
  match day with
  | PDict d => iterates_mappings (dict_get_default "events" (PList []) d)
  | _ => false
  end.

Definition well_formed_itinerary (itinerary : pydict) : bool :=
  match dict_get "travelers" itinerary with
  | None | Some (PDict _) => true
  | Some _ => false
  end
  && match py_iter (dict_get_default "days" (PList []) itinerary) with
     | Ok days => forallb well_formed_day days
     | Raise _ => false
     end.

(** No entry of [l] is [in] the entries before it. *)
Definition no_repeats `{Builtins} (l : list pyval) : Prop :=
  forall (i : nat) (y : pyval),
    l !! i = Some y -> py_elem y (take i l) = false.

Definition is_string (v : pyval) : bool :=
  match v with
  | PStr _ => true
  | _ => false
  end.

(** The three harvested fields of an event, when given, are strings. *)
Definition string_or_absent (field : string) (e : pydict) : bool :=
  match dict_get field e with
  | None | Some (PStr _) => true
  | Some _ => false
  end.

Definition string_valued (event : pyval) : bool :=
  match event with
  | PDict e =>
      string_or_absent "room_selection" e
      && string_or_absent "description" e
      && string_or_absent "type" e
  | _ => false
  end.

Module Itinerary.

(** The specification's example: two days, the first with a hotel event
    ([room_selection] Suite) and a visit event ([description] Museum). *)
Definition two_days : pydict :=
  [ (PStr "destination", PStr "Paris");
    (PStr "days",
     PList [ PDict [ (PStr "day_number", PInt 1);
                     (PStr "events",
                      PList [ PDict [ (PStr "event_type", PStr "hotel");
                                      (PStr "room_selection", PStr "Suite") ];
                              PDict [ (PStr "event_type", PStr "visit");
                                      (PStr "description", PStr "Museum") ] ]) ];
             PDict [ (PStr "day_number", PInt 2);
                     (PStr "events",
                      PList [ PDict [ (PStr "event_type", PStr "hotel");
                                      (PStr "room_selection", PStr "Suite") ];
                              PDict [ (PStr "event_type", PStr "transportation");
                                      (PStr "type", PStr "train") ] ]) ] ]) ].

Definition planned_session : Session :=
  {| session_state := {["itinerary" := PDict two_days]};
     session_events := [] |}.

(** A day list whose second day is a string, not a mapping. *)
Definition with_free_day : pydict :=
  [ (PStr "destination", PStr "Paris");
    (PStr "days",
     PList [ PDict [ (PStr "day_number", PInt 1);
                     (PStr "events",
                      PList [ PDict [ (PStr "event_type", PStr "hotel");
                                      (PStr "room_selection", PStr "Suite") ] ]) ];
             PStr "free day" ]) ].

Definition free_day_session : Session :=
  {| session_state := {["itinerary" := PDict with_free_day]};
     session_events := [] |}.

End Itinerary.

(** What one event adds to a preference list. *)
Definition harvest `{Builtins} (event_type field : string) (event : pyval)
    (l : list pyval) : list pyval :=
  if has_event_type event_type event
  then add_distinct (event_field field event) l
  else l.

(** The three preference lists of [t'] are those of [t] after the events
    [evs]. *)
Definition scanned `{Builtins} (evs : list pyval) (t t' : trip_data) : Prop :=
  stay_preference t'
  = fold_left (fun l e => harvest "hotel" "room_selection" e l) evs
      (stay_preference t)
  /\ extra_activities t'
     = fold_left (fun l e => harvest "visit" "description" e l) evs
         (extra_activities t)
  /\ transportation_preference t'
     = fold_left (fun l e => harvest "transportation" "type" e l) evs
         (transportation_preference t).

(** * Further definitions *)

(** ** The translated event, field by field *)

(** The values that [type] can take on a translated event. *)
Definition event_types : list string :=
  [ "agent_message"; "structured_response"; "function_call";
    "function_response"; "final_response"; "error" ].

(** The keys, other than [type], [structured_data] and [data_type], that
    the translator writes. *)
Definition plain_keys : list string :=
  [ "author"; "timestamp"; "content"; "function_calls";
    "function_responses"; "final"; "error"; "message"; "partial";
    "turn_complete" ].

(** The event dictionary has its three standing entries, and its [type]
    is one of [event_types]. *)
Definition framed (d : pydict) : Prop :=
  has_key "timestamp" d = true
  /\ has_key "author" d = true
  /\ exists t, dict_get "type" d = Some (PStr t) /\ In t event_types.

(** A [structured_data] entry is truthy once converted. *)
Definition structured_data_truthy (d : pydict) : Prop :=
  match dict_get "structured_data" d with
  | Some v => truthy (_make_json_serializable v) = true
  | None => True
  end.

(** An event with one accessor replaced. *)
Definition with_get_function_calls (r : result pyval) (event : native_event)
  : native_event :=
  {| ev_author := ev_author event;
     ev_timestamp := ev_timestamp event;
     ev_content := ev_content event;
     ev_get_function_calls := r;
     ev_get_function_responses := ev_get_function_responses event;
     ev_is_final_response := ev_is_final_response event;
     ev_error_message := ev_error_message event;
     ev_partial := ev_partial event;
     ev_turn_complete := ev_turn_complete event |}.

Definition with_get_function_responses (r : result pyval)
    (event : native_event) : native_event :=
  {| ev_author := ev_author event;
     ev_timestamp := ev_timestamp event;
     ev_content := ev_content event;
     ev_get_function_calls := ev_get_function_calls event;
     ev_get_function_responses := r;
     ev_is_final_response := ev_is_final_response event;
     ev_error_message := ev_error_message event;
     ev_partial := ev_partial event;
     ev_turn_complete := ev_turn_complete event |}.

Definition with_is_final_response (r : result pyval) (event : native_event)
  : native_event :=
  {| ev_author := ev_author event;
     ev_timestamp := ev_timestamp event;
     ev_content := ev_content event;
     ev_get_function_calls := ev_get_function_calls event;
     ev_get_function_responses := ev_get_function_responses event;
     ev_is_final_response := r;
     ev_error_message := ev_error_message event;
     ev_partial := ev_partial event;
     ev_turn_complete := ev_turn_complete event |}.

Definition with_error_message (a : attr pyval) (event : native_event)
  : native_event :=
  {| ev_author := ev_author event;
     ev_timestamp := ev_timestamp event;
     ev_content := ev_content event;
     ev_get_function_calls := ev_get_function_calls event;
     ev_get_function_responses := ev_get_function_responses event;
     ev_is_final_response := ev_is_final_response event;
     ev_error_message := a;
     ev_partial := ev_partial event;
     ev_turn_complete := ev_turn_complete event |}.

(** ** The flight service: [FlightService] *)

Module FlightService.

(** The data used when [flights.json] does not exist (lines 26-48). *)
Definition default_flight : pydict :=
  [ (PStr "id", PStr "economy1");
    (PStr "airline", PStr "Budget Wings");
    (PStr "flightNumber", PStr "BW-5432");
    (PStr "price", PInt 8500);
    (PStr "duration", PStr "4h 30m");
    (PStr "departure", PStr "08:15");
    (PStr "arrival", PStr "13:45");
    (PStr "departureDate", PStr "2024-01-15");
    (PStr "arrivalDate", PStr "2024-01-15");
    (PStr "stops", PInt 1);
    (PStr "aircraft", PStr "Boeing 737");
    (PStr "class", PStr "economy");
    (PStr "amenities", PList [PStr "Snacks"]);
    (PStr "baggage", PStr "15kg checked + 7kg cabin");
    (PStr "departureAirport", PStr "DEL");
    (PStr "arrivalAirport", PStr "GOI");
    (PStr "layovers",
       PList [PDict [ (PStr "city", PStr "Mumbai");
                      (PStr "duration", PStr "1h 20m") ]]) ].

Definition default_flights_data : pyval :=
  PDict [(PStr "data", PList [PDict default_flight])].

(** [file] is [None] when [flights.json] does not exist, [Some (Ok v)]
    when [json.load] returns [v], and [Some (Raise e)] when opening or
    reading it raises.  The result is [self.flights_data]. *)
Definition _load_flight_data (file : option (result pyval)) : pyval :=
  match file with
  | Some (Ok v) => v
  | None => default_flights_data
  | Some (Raise _) => PDict [(PStr "data", PList [])]
  end.

(** [v.copy()]: dictionaries and lists have the method. *)
Definition py_copy (v : pyval) : result pyval :=
  match v with
  | PDict _ | PList _ => Ok v
  | _ => Raise (Exn "AttributeError" "object has no attribute 'copy'")
  end.

(** [target[k] = v] for a string [k]. *)
Definition py_setitem (k : string) (v : pyval) (target : pyval) : result pyval :=
  match target with
  | PDict kv => Ok (PDict (dict_set k v kv))
  | PList _ =>
      Raise (Exn "TypeError" "list indices must be integers or slices, not str")
  | _ => Raise (Exn "TypeError" "object does not support item assignment")
  end.

(** The body of the loop of [search_flights] (lines 67-80). *)
Definition customize (origin destination departure_date flight_class : pyval)
    (flight_data : pyval) : result pyval :=
  customized_flight ← py_copy flight_data;
  customized_flight ←
    (if truthy origin
     then py_setitem "departureAirport" origin customized_flight
     else Ok customized_flight);
  customized_flight ←
    (if truthy destination
     then py_setitem "arrivalAirport" destination customized_flight
     else Ok customized_flight);
  customized_flight ←
    (if truthy departure_date
     then c ← py_setitem "departureDate" departure_date customized_flight;
          py_setitem "arrivalDate" departure_date c
     else Ok customized_flight);
  if truthy flight_class
  then py_setitem "class" flight_class customized_flight
  else Ok customized_flight.

Fixpoint customize_all (origin destination departure_date flight_class : pyval)
    (data : list pyval) : result (list pyval) :=
  match data with
  | [] => Ok []
  | flight_data :: rest =>
      flight ← customize origin destination departure_date flight_class
                 flight_data;
      flights ← customize_all origin destination departure_date flight_class
                  rest;
      Ok (flight :: flights)
  end.

Definition search_flights (flights_data : pyval)
    (origin destination departure_date passenger_count flight_class : pyval)
    (now : string) : result pydict :=
  data ← py_get "data" (PList []) flights_data;
  items ← py_iter data;
  flights ← customize_all origin destination departure_date flight_class items;
  Ok [ (PStr "type", PStr "flight_search_results");
       (PStr "data", PList flights);
       (PStr "search_criteria", PDict
          [ (PStr "origin", origin);
            (PStr "destination", destination);
            (PStr "departure_date", departure_date);
            (PStr "passenger_count", passenger_count);
            (PStr "class", flight_class) ]);
       (PStr "timestamp", PStr now) ].

Fixpoint find_flight (flight_id : string) (data : list pyval)
  : result (option pyval) :=
  match data with
  | [] => Ok None
  | flight :: rest =>
      id ← py_get "id" PNone flight;
      if is_str flight_id (Some id) then Ok (Some flight)
      else find_flight flight_id rest
  end.

Definition get_flight_by_id (flights_data : pyval) (flight_id : string)
  : result (option pyval) :=
  data ← py_get "data" (PList []) flights_data;
  items ← py_iter data;
  find_flight flight_id items.

End FlightService.

(** ** Parsing agent content: [StructuredResponseParser], continued *)

Module ParserContent.
Section WithBuiltins.
Context `{Builtins}.

Definition flight_indicators : list string :=
  [ "flights"; "flight_number"; "departure"; "arrival"; "airline";
    "price_in_usd" ].

Definition hotel_indicators : list string :=
  [ "hotels"; "hotel"; "check_in"; "check_out"; "room_type"; "rooms" ].

Definition itinerary_indicators : list string :=
  [ "itinerary"; "days"; "day_number"; "trip_name"; "start_date";
    "end_date" ].

(** [any(indicator in str(data).lower() for indicator in indicators)] *)
Definition mentions (indicators : list string) (data : pyval) : bool :=
  existsb (fun indicator => contains indicator (lower (py_str data)))
    indicators.

Definition _contains_flight_data (data : pyval) : bool :=
  mentions flight_indicators data.

Definition _contains_hotel_data (data : pyval) : bool :=
  mentions hotel_indicators data.

Definition _contains_itinerary_data (data : pyval) : bool :=
  mentions itinerary_indicators data.

Definition format_response (type : string) (data : pyval) (now : string)
  : pydict :=
  [ (PStr "type", PStr type);
    (PStr "data", data);
    (PStr "timestamp", PStr now) ].

Definition _format_flight_response := format_response "flight_search_results".
Definition _format_hotel_response := format_response "hotel_search_results".
Definition _format_itinerary_response := format_response "itinerary_results".

(** [expected_type == s] *)
Definition expects (s : string) (expected_type : option string) : bool :=
  match expected_type with
  | Some t => String.eqb t s
  | None => false
  end.

(** [depth] is the number of nested calls the interpreter still allows;
    the function calls itself once for every layer of JSON text. *)
Fixpoint parse_adk_content_for_structured_data (depth : nat)
    (content : pyval) (expected_type : option string) (now : string)
  : result (option pydict) :=
  match depth with
  | O => Raise (Exn "RecursionError" "maximum recursion depth exceeded")
  | S depth =>
      if negb (truthy content) then Ok None
      else
        match content with
        | PDict _ =>
            if expects "flight" expected_type || _contains_flight_data content
            then Ok (Some (_format_flight_response content now))
            else if expects "hotel" expected_type
                    || _contains_hotel_data content
            then Ok (Some (_format_hotel_response content now))
            else if expects "itinerary" expected_type
                    || _contains_itinerary_data content
            then Ok (Some (_format_itinerary_response content now))
            else Ok None
        | PStr text =>
            match json_loads text with
            | Some parsed_content =>
                parse_adk_content_for_structured_data depth parsed_content
                  expected_type now
            | None => Ok None
            end
        | _ => Ok None
        end
  end.

(** What is left of [content] after [layers] rounds of [json.loads]:
    each round needs non-empty text that is JSON. *)
Fixpoint unwrap (layers : nat) (content : pyval) : option pyval :=
  match layers with
  | O => Some content
  | S layers =>
      match content with
      | PStr text =>
          if String.eqb text "" then None
          else
            match json_loads text with
            | Some parsed_content => unwrap layers parsed_content
            | None => None
            end
      | _ => None
      end
  end.

(** [flights_data] is the data of the parser's flight service. *)
Definition generate_mock_flight_response (flights_data : pyval)
    (search_criteria : option pydict) (now : string) : result pydict :=
  let search_criteria :=
    match search_criteria with
    | Some (c :: cs) => c :: cs
    | _ => []
    end in
  FlightService.search_flights flights_data
    (dict_get_default "origin" PNone search_criteria)
    (dict_get_default "destination" PNone search_criteria)
    (dict_get_default "departure_date" PNone search_criteria)
    (dict_get_default "passenger_count" (PInt 1) search_criteria)
    (dict_get_default "class" (PStr "economy") search_criteria)
    now.

End WithBuiltins.
End ParserContent.

(** ** Sample events with one attribute replaced *)


(** ** The entries of a trip that the day scan leaves alone *)

Definition same_basics (t t' : trip_data) : Prop :=
  destination t' = destination t
  /\ departure_city t' = departure_city t
  /\ start_date t' = start_date t
  /\ end_date t' = end_date t
  /\ total_budget t' = total_budget t
  /\ currency t' = currency t
  /\ total_adult_travellers t' = total_adult_travellers t
  /\ total_child_travellers t' = total_child_travellers t
  /\ travelling_with_pets t' = travelling_with_pets t
  /\ special_requirements t' = special_requirements t.

(** ** The routes of the travel planner *)

(** [json.dumps] with its default encoder: it returns the text of a value
    that [json_serializable] accepts and raises [TypeError] on any
    other. *)
Class Json : Type := {
  json_dumps : pyval -> result string;
  json_dumps_returns :
    forall v, json_serializable v = true -> exists text, json_dumps v = Ok text;
  json_dumps_raises :
    forall v, json_serializable v = false ->
      exists e, json_dumps v = Raise e /\ exn_kind e = "TypeError"
}.

(** What a route handler does: it returns a body or raises
    [HTTPException]. *)
Inductive http (A : Type) : Type :=
| Respond (body : A)
| HTTPException (status_code : nat) (detail : string).
Arguments Respond {A} body.
Arguments HTTPException {A} status_code detail.

Record ChatResponse : Type := {
  success : bool;
  message : string;
  response_session_id : string;
  data : option pydict
}.

Module Routes.
Section WithServices.
Context `{Builtins} `{Runtime} `{Json}.

(** *** [POST /travel-planner/session] *)

(** [stored_profile] is what [get_user_profile(uid)] returns and
    [recent_trips] what [get_user_trips(uid, limit=10)] returns; both
    catch their own exceptions.  [email] is the e-mail of the token. *)
Definition create_travel_planner_session (self : service) (uid : string)
    (email : pyval) (session_id : option string)
    (stored_profile : option pydict) (recent_trips : list pyval)
    (now_ts : Z) (now_iso init_iso : string)
  : http ChatResponse * service :=
  match create_or_get_session self uid session_id now_ts now_iso with
  | (Raise _, self) =>
      (HTTPException 500 "Failed to create travel planner session", self)
  | (Ok session_data, self) =>
      let session_id := info_id session_data in
      let user_profile :=
        dict_set "uid" (PStr uid)
          (dict_set "email" email (default [] stored_profile)) in
      match initialize_session_with_user_data self uid session_id
              user_profile (Some recent_trips) init_iso with
      | (Raise _, self) =>
          (HTTPException 500 "Failed to create travel planner session", self)
      | (Ok _, self) =>
          (Respond
             {| success := true;
                message := "Travel planner session created and initialized";
                response_session_id := session_id;
                data := Some [ (PStr "user_trips_count",
                                PInt (Z.of_nat (length recent_trips))) ] |},
           self)
      end
  end.

(** *** [POST /travel-planner/chat] *)

Definition nl : string := String (ascii_of_nat 10) EmptyString.

(** One server-sent event: [f"data: {payload}\n\n"]. *)
Definition sse (payload : string) : string :=
  "data: " +:+ payload +:+ nl +:+ nl.

Definition initial_event (session_id : string) : pyval :=
  PDict [ (PStr "type", PStr "connection_established");
          (PStr "message", PStr "Connected to travel planner");
          (PStr "session_id", PStr session_id) ].

Definition completion_event : pyval :=
  PDict [ (PStr "type", PStr "stream_complete");
          (PStr "message", PStr "Response completed") ].

Definition stream_error_event (e : exn) : pyval :=
  PDict [ (PStr "error", PBool true);
          (PStr "type", PStr "error");
          (PStr "message", PStr (exn_msg e));
          (PStr "author", PStr "system") ].

(** A generator that has run to its end: the frames it yielded, and the
    exception it raised to its consumer, if any. *)
Definition frames : Type := list string * option exn.

(** The loop of lines 118-125 over the events the service yields. *)
Fixpoint forward (events : list pyval) : frames :=
  match events with
  | [] => ([], None)
  | event :: rest =>
      match json_dumps event with
      | Ok text =>
          let '(more, raised) := forward rest in (sse text :: more, raised)
      | Raise e => ([], Some e)
      end
  end.

(** The [try] block of [generate_events] (lines 108-132). *)
Definition stream_body (self : service) (uid session_id message : string)
    (r : run) (clock : nat -> string) : frames :=
  match json_dumps (initial_event session_id) with
  | Raise e => ([], Some e)
  | Ok connected =>
      match send_message self uid session_id message false r clock with
      | Raise e => ([sse connected], Some e)
      | Ok events =>
          let '(forwarded, raised) := forward events in
          match raised with
          | Some e => (sse connected :: forwarded, Some e)
          | None =>
              match json_dumps completion_event with
              | Ok completed =>
                  (sse connected :: forwarded ++ [sse completed], None)
              | Raise e => (sse connected :: forwarded, Some e)
              end
          end
      end
  end.

Definition generate_events (self : service) (uid session_id message : string)
    (r : run) (clock : nat -> string) : frames :=
  match stream_body self uid session_id message r clock with
  | (yielded, None) => (yielded, None)
  | (yielded, Some e) =>
      match json_dumps (stream_error_event e) with
      | Ok text => (yielded ++ [sse text], None)
      | Raise e' => (yielded, Some e')
      end
  end.

(** The handler returns the streaming response without running the
    generator; the body is what the generator then delivers. *)
Definition chat_with_travel_planner (self : service) (uid : string)
    (session_id : option string) (message : string) (r : run)
    (clock : nat -> string) : http frames :=
  match session_id with
  | None => HTTPException 400 "Session ID is required. Create a session first."
  | Some session_id =>
      if String.eqb session_id "" then
        HTTPException 400 "Session ID is required. Create a session first."
      else Respond (generate_events self uid session_id message r clock)
  end.

(** *** [POST /travel-planner/chat-structured] *)

(** The event at which the loop of lines 188-197 breaks. *)
Definition first_structured (events : list pyval) : option pyval :=
  List.find
    (fun event =>
       is_structured_response event
       && bool_decide (is_Some (event_get "structured_data" event)))
    events.

(** Lines 185-212: the loop over the events, and the body returned. *)
Definition structured_reply (session_id : string) (events : list pyval)
  : pydict :=
  let '(structured_data, data_type) :=
    match first_structured events with
    | Some event =>
        (default PNone (event_get "structured_data" event),
         default (PStr "unknown") (event_get "data_type" event))
    | None => (PNone, PStr "unknown")
    end in
  if truthy structured_data then
    [ (PStr "success", PBool true);
      (PStr "session_id", PStr session_id);
      (PStr "data_type", data_type);
      (PStr "data", structured_data) ]
  else
    [ (PStr "success", PBool false);
      (PStr "message", PStr "No structured data found");
      (PStr "session_id", PStr session_id);
      (PStr "data", PNone) ].

Definition chat_with_travel_planner_structured (self : service)
    (uid : string) (session_id : option string) (message : string) (r : run)
    (clock : nat -> string) : http pydict :=
  match session_id with
  | None => HTTPException 400 "Session ID is required. Create a session first."
  | Some session_id =>
      if String.eqb session_id "" then
        HTTPException 400 "Session ID is required. Create a session first."
      else
        match send_message self uid session_id message true r clock with
        | Raise _ =>
            HTTPException 500
              "Failed to get structured data from travel planner"
        | Ok events => Respond (structured_reply session_id events)
        end
  end.

(** *** [POST /travel-planner/save-itinerary] *)

(** [save_trip] is the store's [save_trip], which returns the new trip id
    or [None]. *)
Definition save_itinerary_to_trip (self : service) (uid session_id : string)
    (save_trip : string -> trip_data -> option string) : http ChatResponse :=
  match extract_itinerary_from_session self uid session_id with
  | Raise _ => HTTPException 500 "Failed to save itinerary"
  | Ok None => HTTPException 400 "No completed itinerary found in session"
  | Ok (Some trip) =>
      match save_trip uid trip with
      | Some trip_id =>
          if String.eqb trip_id "" then HTTPException 500 "Failed to save trip"
          else
            Respond
              {| success := true;
                 message := "Itinerary saved as trip successfully";
                 response_session_id := session_id;
                 data := Some [(PStr "trip_id", PStr trip_id)] |}
      | None => HTTPException 500 "Failed to save trip"
      end
  end.

End WithServices.
End Routes.

(** ** A sample [json.dumps] *)

Module Printer.

Definition key_text (k : pyval) : string :=
  match k with
  | PStr s => Sample.quoted s
  | PInt z => Sample.quoted (str_of_Z z)
  | PBool true => Sample.quoted "true"
  | PBool false => Sample.quoted "false"
  | _ => Sample.quoted "null"
  end.

(** The text of a value built from [None], booleans, integers, strings
    that need no escape, lists and dictionaries. *)
Fixpoint text (v : pyval) : string :=
  match v with
  | PBool true => "true"
  | PBool false => "false"
  | PInt z => str_of_Z z
  | PStr s => Sample.quoted s
  | PList l | PTuple l =>
      "[" +:+
      (fix items (l : list pyval) : string :=
         match l with
         | [] => ""
         | x :: rest =>
             text x +:+
             match rest with
             | [] => ""
             | _ => ", " +:+ items rest
             end
         end) l
      +:+ "]"
  | PDict kv =>
      "{" +:+
      (fix members (kv : pydict) : string :=
         match kv with
         | [] => ""
         | (k, x) :: rest =>
             key_text k +:+ ": " +:+ text x +:+
             match rest with
             | [] => ""
             | _ => ", " +:+ members rest
             end
         end) kv
      +:+ "}"
  | _ => "null"
  end.

Definition dumps (v : pyval) : result string :=
  if json_serializable v then Ok (text v)
  else Raise (Exn "TypeError" "Object is not JSON serializable").

Definition json : Json :=
  {| json_dumps := dumps;
     json_dumps_returns :=
       ltac:(intros v Hv; unfold dumps; rewrite Hv; eauto);
     json_dumps_raises :=
       ltac:(intros v Hv; unfold dumps; rewrite Hv; eauto) |}.

(** [repr()] on the same values: strings between single quotes. *)
Definition squoted (s : string) : string := "'" +:+ s +:+ "'".

Fixpoint repr (v : pyval) : string :=
  match v with
  | PNone => "None"
  | PBool true => "True"
  | PBool false => "False"
  | PInt z => str_of_Z z
  | PStr s => squoted s
  | PList l =>
      "[" +:+
      (fix items (l : list pyval) : string :=
         match l with
         | [] => ""
         | x :: rest =>
             repr x +:+
             match rest with
             | [] => ""
             | _ => ", " +:+ items rest
             end
         end) l
      +:+ "]"
  | PDict kv =>
      "{" +:+
      (fix members (kv : pydict) : string :=
         match kv with
         | [] => ""
         | (k, x) :: rest =>
             repr k +:+ ": " +:+ repr x +:+
             match rest with
             | [] => ""
             | _ => ", " +:+ members rest
             end
         end) kv
      +:+ "}"
  | PObj name _ _ _ => name
  | _ => "<value>"
  end.

(** [str()]: a string is itself, any other value prints as its [repr]. *)
Definition str (v : pyval) : string :=
  match v with
  | PStr s => s
  | _ => repr v
  end.

Definition builtins : Builtins :=
  {| py_str := str; json_loads := Sample.loads; py_eq := Sample.equal;
     py_eq_str := fun s t => eq_refl;
     lower := ascii_lower;
     lower_ascii_text := fun s _ => eq_refl;
     lower_idempotent := @lower_idempotent Sample.builtins;
     lower_empty := @lower_empty Sample.builtins |}.

End Printer.

(** * Properties *)

(** ** base64 and the sample reader *)

Example b64_Man : b64encode [x4d; x61; x6e]%byte = "TWFu".
Proof. reflexivity. Qed.

Example b64_Ma : b64encode [x4d; x61]%byte = "TWE=".
Proof. reflexivity. Qed.

Example b64_M : b64encode [x4d]%byte = "TQ==".
Proof. reflexivity. Qed.

Module SampleFacts.
Import Sample.

Example loads_object :
  loads flights_json
  = Some (PDict [(PStr "data",
            PList [PDict [(PStr "flightNumber", PStr "AI101");
                          (PStr "price", PInt 420)]])]).
Proof. vm_compute. reflexivity. Qed.

Example loads_string : loads (quoted "data") = Some (PStr "data").
Proof. vm_compute. reflexivity. Qed.

Example loads_text : loads "Here are your flights" = None.
Proof. vm_compute. reflexivity. Qed.

End SampleFacts.

(** ** The JSON-safety conversion *)

Lemma mjs_keys_ok_serializable (v : pyval) :
  keys_ok v = true -> json_serializable (_make_json_serializable v) = true.
Proof.
  induction v using pyval_nested_ind; simpl; intros Hk; try reflexivity.
  - rewrite forallb_forall in *. intros y Hy.
    apply in_map_iff in Hy as (x & <- & Hx).
    rewrite Forall_forall in H. apply H; [now apply list_elem_of_In | auto].
  - rewrite forallb_forall in *. intros y Hy.
    apply in_map_iff in Hy as (x & <- & Hx).
    rewrite Forall_forall in H. apply H; [now apply list_elem_of_In | auto].
  - rewrite forallb_forall in *. intros y Hy.
    apply in_map_iff in Hy as ([k x] & <- & Hx).
    specialize (Hk _ Hx). simpl in Hk.
    apply andb_true_iff in Hk as [Hk1 Hk2]. rewrite Hk1. simpl.
    rewrite Forall_forall in H.
    apply (H (k, x)); [now apply list_elem_of_In | assumption].
  - destruct md as [ | e | x]; simpl in *; auto.
    destruct dm as [ | e | x]; simpl in *; auto.
    destruct dd as [x | ]; simpl in *; auto.
Qed.

(** Values keep their shape class: the conversion of a dictionary is a
    dictionary with the same keys. *)
Lemma mjs_dict_get (k : string) (d : pydict) :
  dict_get k (map (fun p => match p with
                            | (key, value) => (key, _make_json_serializable value)
                            end) d)
  = _make_json_serializable <$> dict_get k d.
Proof.
  induction d as [ | [key value] rest IH]; simpl; [reflexivity | ].
  destruct (is_key k key); [reflexivity | exact IH].
Qed.

(** ** Dictionary reads after writes *)

Lemma dict_get_set_same (k : string) (v : pyval) (d : pydict) :
  dict_get k (dict_set k v d) = Some v.
Proof.
  induction d as [ | [key value] rest IH]; simpl.
  - now rewrite String.eqb_refl.
  - destruct (is_key k key) eqn:E; simpl; rewrite E; [reflexivity | exact IH].
Qed.

Lemma dict_get_set_other (k k' : string) (v : pyval) (d : pydict) :
  k <> k' -> dict_get k' (dict_set k v d) = dict_get k' d.
Proof.
  intros Hne. induction d as [ | [key value] rest IH]; simpl.
  - destruct (String.eqb_spec k' k); [congruence | reflexivity].
  - destruct (is_key k key) eqn:E; simpl.
    + destruct key; simpl in *; try discriminate.
      apply String.eqb_eq in E. subst.
      destruct (String.eqb_spec k' s); [congruence | reflexivity].
    + destruct (is_key k' key); [reflexivity | exact IH].
Qed.

(** ** The translator never raises *)

Section TranslatorFacts.
Context `{Builtins}.

Lemma convert_steps_ok (event : native_event) (d : pydict) :
  fst (convert_steps event d) = Ok tt.
Proof. reflexivity. Qed.

Lemma convert_total (now : string) (event : native_event) :
  exists d, _convert_adk_event_to_dict now event = Ok (PDict d).
Proof.
  unfold _convert_adk_event_to_dict.
  pose proof (convert_steps_ok event (initial_event_dict now)) as Hok.
  destruct (convert_steps event (initial_event_dict now)) as [r d].
  simpl in Hok. subst r. simpl. eauto.
Qed.

End TranslatorFacts.

(** ** The shape-based classifier *)

Section ClassifierFacts.
Context `{Builtins}.

Lemma detect_data_type_spec (c : pydict) (d : pydict) :
  detect_data_type (dict_get_default "data" (PList []) c) d
  = (Ok tt, match inferred_data_type c with
            | Some t => dict_set "data_type" (PStr t) d
            | None => d
            end).
Proof.
  unfold inferred_data_type, dict_get_default, detect_data_type.
  destruct (dict_get "data" c) as [v | ]; [ | reflexivity].
  destruct v; try reflexivity.
  destruct l as [ | first rest]; [reflexivity | ].
  destruct first; try reflexivity.
  destruct (has_key "flightNumber" kv); [reflexivity | ].
  destruct (has_key "pricePerNight" kv); reflexivity.
Qed.

(** C4 (as amended): a mapping with a [data] key is marked structured
    whatever that key holds, and its [data_type] is flights when the
    [data] value is a non-empty list whose first element is a mapping with
    a [flightNumber] key, else hotels when that mapping has a
    [pricePerNight] key, and is otherwise not set; a value that is not a
    mapping, or a mapping with neither a [data] nor a [parts] key, is left
    unmarked. *)
Theorem check_structured_data_shape (content : pyval) (d : pydict) :
  (forall c, content = PDict c -> has_key "data" c = true ->
     _check_for_structured_data content d
     = (Ok tt, mark_structured content (inferred_data_type c) d))
  /\ (is_mapping content = false ->
      _check_for_structured_data content d = (Ok tt, d))
  /\ (forall c, content = PDict c ->
      has_key "data" c = false -> has_key "parts" c = false ->
      _check_for_structured_data content d = (Ok tt, d)).
Proof.
  split; [ | split].
  - intros c -> Hdata. unfold _check_for_structured_data. rewrite Hdata.
    unfold mbind, M_bind, set_item. simpl.
    rewrite detect_data_type_spec. unfold mark_structured.
    destruct (inferred_data_type c); reflexivity.
  - intros Hm. destruct content; try reflexivity. discriminate.
  - intros c -> Hdata Hparts. unfold _check_for_structured_data.
    rewrite Hdata, Hparts. reflexivity.
Qed.

End ClassifierFacts.

Lemma check_structured_data_shape_witness :
  @_check_for_structured_data Sample.builtins
    (PDict [(PStr "data", PList [PDict [(PStr "pricePerNight", PInt 90)]])])
    (initial_event_dict "t0")
  = (Ok tt,
     [ (PStr "timestamp", PStr "t0");
       (PStr "author", PStr "system");
       (PStr "type", PStr "structured_response");
       (PStr "structured_data",
          PDict [(PStr "data", PList [PDict [(PStr "pricePerNight", PInt 90)]])]);
       (PStr "data_type", PStr "hotels") ]).
Proof.
  destruct (@check_structured_data_shape Sample.builtins
              (PDict [(PStr "data", PList [PDict [(PStr "pricePerNight", PInt 90)]])])
              (initial_event_dict "t0")) as [Hmark _].
  rewrite (Hmark _ eq_refl eq_refl). reflexivity.
Defined.

(** C4 (as stated) fails: a mapping whose [data] value is the empty list
    is marked structured although it holds no record. *)
Lemma empty_data_is_marked_structured :
  ~ (forall (B : Builtins) (content : pyval),
       marks_structured content = non_empty_records content).
Proof.
  intros Hclaim.
  specialize (Hclaim Sample.builtins (PDict [(PStr "data", PList [])])).
  vm_compute in Hclaim. discriminate.
Qed.

(** ** What every translated event satisfies *)

Lemma hoare_ret {A : Type} (P : pydict -> Prop) (a : A) : hoare P (mret a) P.
Proof. intros d Hd. exact Hd. Qed.

Lemma hoare_lift {A : Type} (P : pydict -> Prop) (r : result A) :
  hoare P (lift r) P.
Proof. intros d Hd. exact Hd. Qed.

Lemma hoare_bind {A B : Type} (P Q R : pydict -> Prop) (m : M A) (f : A -> M B) :
  hoare P m Q -> (forall a, hoare Q (f a) R) -> (forall d, Q d -> R d) ->
  hoare P (m ≫= f) R.
Proof.
  intros Hm Hf Hqr d Hd. unfold mbind, M_bind.
  specialize (Hm d Hd). destruct (m d) as [[a | e] d']; simpl in *.
  - apply Hf, Hm.
  - apply Hqr, Hm.
Qed.

Lemma hoare_seq {A B : Type} (P : pydict -> Prop) (m : M A) (f : A -> M B) :
  hoare P m P -> (forall a, hoare P (f a) P) -> hoare P (m ≫= f) P.
Proof. intros Hm Hf. apply (hoare_bind P P P); auto. Qed.

Lemma hoare_guarded (P Q : pydict -> Prop) (m : M unit) :
  hoare P m Q -> hoare P (guarded m) Q.
Proof. intros Hm d Hd. apply Hm, Hd. Qed.

Lemma hoare_for_each {A : Type} (P : pydict -> Prop) (body : A -> M unit)
    (l : list A) :
  (forall x, hoare P (body x) P) -> hoare P (for_each body l) P.
Proof.
  intros Hbody. induction l as [ | x rest IH]; simpl.
  - apply hoare_ret.
  - apply hoare_seq; [apply Hbody | intros _; exact IH].
Qed.

Lemma hoare_when_some {A : Type} (P : pydict -> Prop) (o : option A)
    (f : A -> M unit) :
  (forall a, hoare P (f a) P) -> hoare P (when_some o f) P.
Proof. intros Hf. destruct o; simpl; [apply Hf | apply hoare_ret]. Qed.

Lemma has_key_set_same (k : string) (v : pyval) (d : pydict) :
  has_key k (dict_set k v d) = true.
Proof. unfold has_key. now rewrite dict_get_set_same. Qed.

Lemma has_key_set_other (k k' : string) (v : pyval) (d : pydict) :
  k <> k' -> has_key k' (dict_set k v d) = has_key k' d.
Proof. intros Hne. unfold has_key. now rewrite dict_get_set_other. Qed.

Lemma set_item_data_type_inv (k : string) (v : pyval) :
  k <> "data_type" -> k <> "structured_data" ->
  hoare data_type_inv (set_item k v) data_type_inv.
Proof.
  intros H1 H2 d Hd. unfold set_item, data_type_inv in *. simpl.
  rewrite dict_get_set_other by assumption.
  rewrite has_key_set_other by assumption. exact Hd.
Qed.

Lemma set_structured_data_attached (v : pyval) :
  hoare data_type_inv (set_item "structured_data" v) attached_inv.
Proof.
  intros d Hd. unfold set_item, attached_inv, data_type_inv in *. simpl.
  rewrite dict_get_set_other by discriminate.
  rewrite has_key_set_same. split; [ | reflexivity].
  destruct (dict_get "data_type" d); [ | exact I].
  split; [apply Hd | reflexivity].
Qed.

Lemma set_item_attached (k : string) (v : pyval) :
  k <> "data_type" -> hoare attached_inv (set_item k v) attached_inv.
Proof.
  intros H1 d [Hd Hs]. unfold set_item, attached_inv, data_type_inv in *. simpl.
  rewrite dict_get_set_other by assumption.
  assert (Hk : has_key "structured_data" (dict_set k v d) = true).
  { destruct (String.eqb_spec k "structured_data") as [-> | Hne].
    - apply has_key_set_same.
    - now rewrite has_key_set_other. }
  rewrite Hk. split; [ | reflexivity].
  destruct (dict_get "data_type" d); [ | exact I].
  split; [apply Hd | reflexivity].
Qed.

Lemma set_data_type_attached (t : string) :
  t = "flights" \/ t = "hotels" ->
  hoare attached_inv (set_item "data_type" (PStr t)) attached_inv.
Proof.
  intros Ht d [Hd Hs]. unfold set_item, attached_inv, data_type_inv in *. simpl.
  rewrite dict_get_set_same.
  rewrite has_key_set_other by discriminate. rewrite Hs.
  repeat split. destruct Ht as [-> | ->]; auto.
Qed.

Lemma attached_data_type_inv (d : pydict) : attached_inv d -> data_type_inv d.
Proof. intros [Hd _]. exact Hd. Qed.

Lemma is_str_some_eq (s t : string) :
  is_str s (_make_json_serializable <$> Some (PStr t)) = true -> s = t.
Proof. cbn [fmap option_fmap option_map _make_json_serializable is_str].
  apply String.eqb_eq. Qed.

(** The translator keeps any invariant [Inv] that survives writes to the
    plain keys and retyping to anything but [structured_response], as long
    as attaching [structured_data] establishes a condition [Att] that
    implies [Inv] and that the tagging steps keep. *)
Section StepInvariant.
Context `{Builtins}.
Variables Inv Att : pydict -> Prop.
Hypothesis Att_Inv : forall d, Att d -> Inv d.
Hypothesis attach : forall v, hoare Inv (set_item "structured_data" v) Att.
Hypothesis retype :
  hoare Att (set_item "type" (PStr "structured_response")) Att.
Hypothesis detect : forall x, hoare Att (detect_data_type x) Att.
Hypothesis other_key :
  forall k v,
    k <> "data_type" -> k <> "structured_data" -> k <> "type" ->
    hoare Inv (set_item k v) Inv.
Hypothesis other_type :
  forall t, t <> "structured_response" ->
    hoare Inv (set_item "type" (PStr t)) Inv.

Lemma attach_keeps (v data_items : pyval) :
  hoare Inv
    (set_item "structured_data" v;;
     set_item "type" (PStr "structured_response");;
     detect_data_type data_items)
    Inv.
Proof.
  apply (hoare_bind _ Att); [apply attach | | apply Att_Inv].
  intros _.
  apply (hoare_bind _ Att); [apply retype | | apply Att_Inv].
  intros _ d Hd. apply Att_Inv. now apply detect.
Qed.

Lemma check_part_keeps (part : pyval) : hoare Inv (check_part part) Inv.
Proof.
  unfold check_part.
  destruct part; try apply hoare_ret.
  destruct (dict_get "text" kv) as [text | ]; [ | apply hoare_ret].
  destruct text; try apply hoare_ret.
  destruct (json_loads s) as [structured_data | ]; [ | apply hoare_ret].
  apply hoare_seq; [apply hoare_lift | ].
  intros [ | ]; [ | apply hoare_ret].
  apply (hoare_bind _ Att); [apply attach | | apply Att_Inv].
  intros _.
  apply (hoare_bind _ Att); [apply retype | | apply Att_Inv].
  intros _.
  apply (hoare_bind _ Att); [apply hoare_lift | | apply Att_Inv].
  intros data_items d Hd. apply Att_Inv. now apply detect.
Qed.

Lemma check_for_structured_data_keeps (content : pyval) :
  hoare Inv (_check_for_structured_data content) Inv.
Proof.
  unfold _check_for_structured_data.
  destruct content; try apply hoare_ret.
  destruct (has_key "data" kv); [apply attach_keeps | ].
  destruct (has_key "parts" kv); [ | apply hoare_ret].
  apply hoare_seq; [apply hoare_lift | ].
  intros parts. apply hoare_for_each. apply check_part_keeps.
Qed.

Lemma check_response_keeps (response : pyval) :
  hoare Inv (check_response response) Inv.
Proof.
  unfold check_response.
  destruct response; try apply hoare_ret.
  destruct (dict_get "response" kv) as [r | ]; [ | apply hoare_ret].
  destruct r; try apply hoare_ret.
  destruct (has_key "data" kv0); [apply attach_keeps | apply hoare_ret].
Qed.

Ltac plain_item :=
  first [ apply other_key; discriminate | apply other_type; discriminate ].

Lemma convert_steps_keeps (event : native_event) :
  hoare Inv (convert_steps event) Inv.
Proof.
  unfold convert_steps.
  repeat (apply hoare_seq; [apply hoare_guarded | intros _]);
    try apply hoare_guarded.
  - unfold basic_properties.
    apply hoare_seq; [apply hoare_lift | intros author].
    apply hoare_seq; [apply hoare_when_some; intros; plain_item | intros _].
    apply hoare_seq; [apply hoare_lift | intros timestamp].
    apply hoare_seq; [apply hoare_when_some; intros; plain_item | intros _].
    apply hoare_seq; [apply hoare_lift | intros raw].
    apply hoare_when_some. intros c.
    apply hoare_seq; [plain_item | intros _].
    apply check_for_structured_data_keeps.
  - unfold function_calls_step.
    apply hoare_seq; [apply hoare_lift | intros calls].
    destruct (truthy calls); [ | apply hoare_ret].
    apply hoare_seq; [plain_item | intros _; plain_item].
  - unfold function_responses_step.
    apply hoare_seq; [apply hoare_lift | intros responses].
    destruct (truthy responses); [ | apply hoare_ret].
    apply hoare_seq; [plain_item | intros _].
    apply hoare_seq; [plain_item | intros _].
    apply hoare_seq; [apply hoare_lift | intros serialized].
    apply hoare_for_each. apply check_response_keeps.
  - unfold final_step.
    apply hoare_seq; [apply hoare_lift | intros final].
    destruct (truthy final); [ | apply hoare_ret].
    apply hoare_seq; [plain_item | intros _; plain_item].
  - unfold error_step.
    apply hoare_seq; [apply hoare_lift | intros message].
    apply hoare_when_some. intros m.
    apply hoare_seq; [plain_item | intros _].
    apply hoare_seq; [plain_item | intros _; plain_item].
  - unfold metadata_step.
    apply hoare_seq; [apply hoare_lift | intros partial].
    apply hoare_seq; [apply hoare_when_some; intros; plain_item | intros _].
    apply hoare_seq; [apply hoare_lift | intros turn_complete].
    apply hoare_when_some; intros; plain_item.
Qed.

End StepInvariant.

Section InvariantFacts.
Context `{Builtins}.

Lemma detect_attached (data_items : pyval) :
  hoare attached_inv (detect_data_type data_items) attached_inv.
Proof.
  unfold detect_data_type.
  destruct data_items; try apply hoare_ret.
  destruct l as [ | first rest]; [apply hoare_ret | ].
  destruct first; try apply hoare_ret.
  destruct (has_key "flightNumber" kv).
  - apply set_data_type_attached. now left.
  - destruct (has_key "pricePerNight" kv); [ | apply hoare_ret].
    apply set_data_type_attached. now right.
Qed.

Lemma convert_steps_inv (event : native_event) :
  hoare data_type_inv (convert_steps event) data_type_inv.
Proof.
  apply (convert_steps_keeps data_type_inv attached_inv).
  - apply attached_data_type_inv.
  - apply set_structured_data_attached.
  - apply set_item_attached. discriminate.
  - apply detect_attached.
  - intros k v H1 H2 _. now apply set_item_data_type_inv.
  - intros t _. apply set_item_data_type_inv; discriminate.
Qed.

(** A [data_type] on a translated event is [flights] or [hotels], and the
    event then carries a [structured_data] entry as well. *)
Lemma data_type_comes_with_structured_data (now : string)
    (event : native_event) (out v : pyval) :
  _convert_adk_event_to_dict now event = Ok out ->
  event_get "data_type" out = Some v ->
  (v = PStr "flights" \/ v = PStr "hotels")
  /\ is_Some (event_get "structured_data" out).
Proof.
  unfold _convert_adk_event_to_dict.
  pose proof (convert_steps_inv event (initial_event_dict now) I) as Hinv.
  pose proof (convert_steps_ok event (initial_event_dict now)) as Hok.
  destruct (convert_steps event (initial_event_dict now)) as [r d].
  simpl in *. subst r. intros [= <-]. simpl.
  rewrite !mjs_dict_get. unfold data_type_inv, has_key in Hinv.
  destruct (dict_get "data_type" d) as [v0 | ]; simpl; [ | discriminate].
  intros [= <-]. destruct Hinv as [Hv Hs].
  split.
  - destruct Hv as [-> | ->]; simpl; auto.
  - destruct (dict_get "structured_data" d); [simpl; eauto | discriminate].
Qed.

(** An event typed [structured_response] carries [structured_data]. *)
Lemma has_structured_data_inv (d : pydict) :
  has_structured_data d -> structured_inv d.
Proof.
  intros [Hd [t Ht]]. unfold structured_inv. rewrite Ht. auto.
Qed.

Lemma set_item_has_structured_data (k : string) (v : pyval) :
  k <> "type" ->
  hoare has_structured_data (set_item k v) has_structured_data.
Proof.
  intros Hk d [Hd Ht]. unfold set_item, has_structured_data in *. cbn [snd].
  rewrite dict_get_set_other by assumption. split; [ | exact Ht].
  destruct (String.eqb_spec k "structured_data") as [-> | Hne].
  - apply has_key_set_same.
  - now rewrite has_key_set_other.
Qed.

Lemma detect_has_structured_data (data_items : pyval) :
  hoare has_structured_data (detect_data_type data_items) has_structured_data.
Proof.
  unfold detect_data_type.
  destruct data_items; try apply hoare_ret.
  destruct l as [ | first rest]; [apply hoare_ret | ].
  destruct first; try apply hoare_ret.
  destruct (has_key "flightNumber" kv);
    [apply set_item_has_structured_data; discriminate | ].
  destruct (has_key "pricePerNight" kv);
    [apply set_item_has_structured_data; discriminate | apply hoare_ret].
Qed.

Lemma convert_steps_structured_inv (event : native_event) :
  hoare structured_inv (convert_steps event) structured_inv.
Proof.
  apply (convert_steps_keeps structured_inv has_structured_data).
  - apply has_structured_data_inv.
  - intros v d Hd. unfold set_item, has_structured_data, structured_inv in *.
    cbn [snd]. rewrite dict_get_set_other by discriminate.
    split; [apply has_key_set_same | ].
    destruct (dict_get "type" d) as [t | ]; [ | contradiction].
    destruct t; try contradiction. eauto.
  - intros d [Hd Ht]. unfold set_item, has_structured_data in *. cbn [snd].
    rewrite dict_get_set_same.
    rewrite has_key_set_other by discriminate. eauto.
  - apply detect_has_structured_data.
  - intros k v _ H2 H3 d Hd. unfold set_item, structured_inv in *. cbn [snd].
    rewrite dict_get_set_other by assumption.
    rewrite has_key_set_other by assumption. exact Hd.
  - intros t Ht d _. unfold set_item, structured_inv. cbn [snd].
    rewrite dict_get_set_same. congruence.
Qed.

Lemma structured_response_has_data (now : string) (event : native_event) :
  is_structured_response (translate now event) = true ->
  exists d v, translate now event = PDict d
              /\ dict_get "structured_data" d = Some v.
Proof.
  unfold translate, _convert_adk_event_to_dict.
  pose proof (convert_steps_structured_inv event (initial_event_dict now))
    as Hinv.
  pose proof (convert_steps_ok event (initial_event_dict now)) as Hok.
  destruct (convert_steps event (initial_event_dict now)) as [r d].
  simpl in Hok, Hinv. subst r.
  unfold is_structured_response, event_get.
  cbn [_make_json_serializable]. rewrite mjs_dict_get.
  intros Hsr.
  assert (Hd : has_key "structured_data" d = true).
  { assert (Hstart : structured_inv (initial_event_dict now))
      by (intros Hc; discriminate Hc).
    specialize (Hinv Hstart). unfold structured_inv in Hinv.
    destruct (dict_get "type" d) as [t | ]; [ | contradiction].
    destruct t; try contradiction.
    apply Hinv. symmetry. apply (is_str_some_eq _ _ Hsr). }
  unfold has_key in Hd.
  destruct (dict_get "structured_data" d) as [v | ] eqn:Hv; [ | discriminate].
  eexists _, (_make_json_serializable v). split; [reflexivity | ].
  now rewrite mjs_dict_get, Hv.
Qed.

End InvariantFacts.

(** ** When the translated event is JSON-serializable *)

Lemma hoare_lift_bind {A B : Type} (P Q : pydict -> Prop) (r : result A)
    (f : A -> M B) :
  (forall a, r = Ok a -> hoare P (f a) Q) -> (forall d, P d -> Q d) ->
  hoare P (lift r ≫= f) Q.
Proof.
  intros Hf Hpq d Hd. unfold mbind, M_bind, lift.
  destruct r as [a | e]; simpl; [now apply Hf | now apply Hpq].
Qed.

Lemma json_key_keys_ok (k : pyval) : json_key_ok k = true -> keys_ok k = true.
Proof. now destruct k. Qed.

Lemma mjs_keeps_keys_ok (v : pyval) :
  keys_ok v = true -> keys_ok (_make_json_serializable v) = true.
Proof.
  induction v using pyval_nested_ind; simpl; intros Hk; try reflexivity.
  - rewrite forallb_forall in *. intros y Hy.
    apply in_map_iff in Hy as (x & <- & Hx).
    rewrite Forall_forall in H. apply H; [now apply list_elem_of_In | auto].
  - rewrite forallb_forall in *. intros y Hy.
    apply in_map_iff in Hy as (x & <- & Hx).
    rewrite Forall_forall in H. apply H; [now apply list_elem_of_In | auto].
  - rewrite forallb_forall in *. intros y Hy.
    apply in_map_iff in Hy as ([k x] & <- & Hx).
    specialize (Hk _ Hx). simpl in Hk.
    apply andb_true_iff in Hk as [Hk1 Hk2]. rewrite Hk1. simpl.
    rewrite Forall_forall in H.
    apply (H (k, x)); [now apply list_elem_of_In | assumption].
  - destruct md as [ | e | x]; simpl in *; auto.
    destruct dm as [ | e | x]; simpl in *; auto.
    destruct dd as [x | ]; simpl in *; auto.
Qed.

Lemma dict_set_keys_ok (k : string) (v : pyval) (d : pydict) :
  keys_ok v = true -> dict_keys_ok d -> dict_keys_ok (dict_set k v d).
Proof.
  unfold dict_keys_ok. intros Hv. induction d as [ | [key x] rest IH]; simpl.
  - now rewrite Hv.
  - intros Hd. apply andb_true_iff in Hd as [Hx Hrest].
    apply andb_true_iff in Hx as [Hkey Hx].
    destruct (is_key k key); simpl.
    + now rewrite Hkey, Hv, Hrest.
    + rewrite Hkey, Hx. simpl. apply IH, Hrest.
Qed.

Lemma dict_get_keys_ok (k : string) (d : pydict) (v : pyval) :
  keys_ok (PDict d) = true -> dict_get k d = Some v -> keys_ok v = true.
Proof.
  induction d as [ | [key x] rest IH]; simpl; [discriminate | ].
  intros Hd. apply andb_true_iff in Hd as [Hx Hrest].
  apply andb_true_iff in Hx as [Hkey Hx].
  destruct (is_key k key); [now intros [= <-] | now apply IH].
Qed.

Lemma py_iter_keys_ok (v : pyval) (l : list pyval) :
  keys_ok v = true -> py_iter v = Ok l -> forallb keys_ok l = true.
Proof.
  destruct v; simpl; try discriminate; intros Hv [= <-]; try exact Hv.
  - clear. induction s; simpl; auto.
  - clear. induction bs; simpl; auto.
  - rewrite forallb_forall in *. intros k Hk.
    apply in_map_iff in Hk as ([key x] & <- & Hx).
    specialize (Hv _ Hx). simpl in *.
    apply andb_true_iff in Hv as [Hkey _]. now apply json_key_keys_ok.
Qed.

Lemma set_item_keys_ok (k : string) (v : pyval) :
  keys_ok v = true -> hoare dict_keys_ok (set_item k v) dict_keys_ok.
Proof. intros Hv d Hd. now apply dict_set_keys_ok. Qed.

Section SerializableFacts.
Context `{Builtins}.
Hypothesis loads_keys_ok :
  forall s v, json_loads s = Some v -> keys_ok v = true.

Lemma detect_keys_ok (data_items : pyval) :
  hoare dict_keys_ok (detect_data_type data_items) dict_keys_ok.
Proof.
  unfold detect_data_type.
  destruct data_items; try apply hoare_ret.
  destruct l as [ | first rest]; [apply hoare_ret | ].
  destruct first; try apply hoare_ret.
  destruct (has_key "flightNumber" kv); [now apply set_item_keys_ok | ].
  destruct (has_key "pricePerNight" kv);
    [now apply set_item_keys_ok | apply hoare_ret].
Qed.

Lemma attach_keys_ok (v data_items : pyval) :
  keys_ok v = true ->
  hoare dict_keys_ok
    (set_item "structured_data" v;;
     set_item "type" (PStr "structured_response");;
     detect_data_type data_items)
    dict_keys_ok.
Proof.
  intros Hv.
  apply hoare_seq; [now apply set_item_keys_ok | intros _].
  apply hoare_seq; [now apply set_item_keys_ok | intros _].
  apply detect_keys_ok.
Qed.

Lemma check_part_keys_ok (part : pyval) :
  hoare dict_keys_ok (check_part part) dict_keys_ok.
Proof.
  unfold check_part.
  destruct part; try apply hoare_ret.
  destruct (dict_get "text" kv) as [text | ]; [ | apply hoare_ret].
  destruct text; try apply hoare_ret.
  destruct (json_loads s) as [structured_data | ] eqn:Hloads;
    [ | apply hoare_ret].
  apply loads_keys_ok in Hloads.
  apply hoare_seq; [apply hoare_lift | ].
  intros [ | ]; [ | apply hoare_ret].
  apply hoare_seq; [now apply set_item_keys_ok | intros _].
  apply hoare_seq; [now apply set_item_keys_ok | intros _].
  apply hoare_seq; [apply hoare_lift | intros data_items].
  apply detect_keys_ok.
Qed.

Lemma check_for_structured_data_keys_ok (content : pyval) :
  keys_ok content = true ->
  hoare dict_keys_ok (_check_for_structured_data content) dict_keys_ok.
Proof.
  intros Hc. unfold _check_for_structured_data.
  destruct content; try apply hoare_ret.
  destruct (has_key "data" kv); [now apply attach_keys_ok | ].
  destruct (has_key "parts" kv); [ | apply hoare_ret].
  apply hoare_seq; [apply hoare_lift | ].
  intros parts. apply hoare_for_each. apply check_part_keys_ok.
Qed.

Lemma check_response_keys_ok (response : pyval) :
  keys_ok response = true ->
  hoare dict_keys_ok (check_response response) dict_keys_ok.
Proof.
  intros Hr. unfold check_response.
  destruct response; try apply hoare_ret.
  destruct (dict_get "response" kv) as [r | ] eqn:Hget; [ | apply hoare_ret].
  destruct r; try apply hoare_ret.
  destruct (has_key "data" kv0); [ | apply hoare_ret].
  apply attach_keys_ok. exact (dict_get_keys_ok _ _ _ Hr Hget).
Qed.

Lemma for_each_keys_ok {A : Type} (body : A -> M unit) (l : list A)
    (good : A -> Prop) :
  (forall x, good x -> hoare dict_keys_ok (body x) dict_keys_ok) ->
  Forall good l ->
  hoare dict_keys_ok (for_each body l) dict_keys_ok.
Proof.
  intros Hbody Hl. induction Hl as [ | x rest Hx Hrest IH]; simpl.
  - apply hoare_ret.
  - apply hoare_seq; [now apply Hbody | intros _; exact IH].
Qed.

Lemma attr_truthy_keys_ok (a : attr pyval) (v : pyval) :
  attr_keys_ok a = true -> attr_truthy a = Ok (Some v) -> keys_ok v = true.
Proof.
  destruct a as [ | e | x]; simpl; try discriminate.
  - intros _. destruct (is_attribute_error e); discriminate.
  - intros Hx. destruct (truthy x); [now intros [= <-] | discriminate].
Qed.

Lemma convert_steps_keys_ok (event : native_event) :
  event_keys_ok event = true ->
  hoare dict_keys_ok (convert_steps event) dict_keys_ok.
Proof.
  intros Hev. unfold event_keys_ok in Hev.
  apply andb_true_iff in Hev as [Hev Herror].
  apply andb_true_iff in Hev as [Hev Hresponses].
  apply andb_true_iff in Hev as [Hev Hcalls].
  apply andb_true_iff in Hev as [Hev Hcontent].
  apply andb_true_iff in Hev as [Hauthor Htimestamp].
  unfold convert_steps.
  repeat (apply hoare_seq; [apply hoare_guarded | intros _]);
    try apply hoare_guarded.
  - unfold basic_properties.
    apply hoare_lift_bind; [intros author Ha | auto].
    apply hoare_seq.
    { destruct author as [v | ]; [ | apply hoare_ret]. simpl.
      apply set_item_keys_ok. exact (attr_truthy_keys_ok _ _ Hauthor Ha). }
    intros _. apply hoare_lift_bind; [intros timestamp Ht | auto].
    apply hoare_seq.
    { destruct timestamp as [v | ]; [ | apply hoare_ret]. simpl.
      apply set_item_keys_ok. exact (attr_truthy_keys_ok _ _ Htimestamp Ht). }
    intros _. apply hoare_lift_bind; [intros raw Hc | auto].
    destruct raw as [c | ]; [ | apply hoare_ret]. simpl.
    assert (Hok : keys_ok (_make_json_serializable c) = true).
    { apply mjs_keeps_keys_ok. exact (attr_truthy_keys_ok _ _ Hcontent Hc). }
    apply hoare_seq; [now apply set_item_keys_ok | intros _].
    now apply check_for_structured_data_keys_ok.
  - unfold function_calls_step.
    apply hoare_lift_bind; [intros calls Hc | auto].
    destruct (truthy calls); [ | apply hoare_ret].
    apply hoare_seq; [ | intros _; now apply set_item_keys_ok].
    apply set_item_keys_ok, mjs_keeps_keys_ok.
    destruct (ev_get_function_calls event); [ | discriminate].
    injection Hc as <-. exact Hcalls.
  - unfold function_responses_step.
    apply hoare_lift_bind; [intros responses Hr | auto].
    destruct (truthy responses); [ | apply hoare_ret].
    assert (Hok : keys_ok (_make_json_serializable responses) = true).
    { apply mjs_keeps_keys_ok.
      destruct (ev_get_function_responses event); [ | discriminate].
      injection Hr as <-. exact Hresponses. }
    apply hoare_seq; [now apply set_item_keys_ok | intros _].
    apply hoare_seq; [now apply set_item_keys_ok | intros _].
    apply hoare_lift_bind; [intros serialized Hs | auto].
    apply (for_each_keys_ok _ _ (fun x => keys_ok x = true)).
    + intros x Hx. now apply check_response_keys_ok.
    + apply List.Forall_forall. intros x Hx.
      pose proof (py_iter_keys_ok _ _ Hok Hs) as Hall.
      rewrite forallb_forall in Hall. now apply Hall.
  - unfold final_step.
    apply hoare_seq; [apply hoare_lift | intros final].
    destruct (truthy final); [ | apply hoare_ret].
    apply hoare_seq; [now apply set_item_keys_ok | intros _].
    now apply set_item_keys_ok.
  - unfold error_step.
    apply hoare_lift_bind; [intros message Hm | auto].
    destruct message as [m | ]; [ | apply hoare_ret]. simpl.
    apply hoare_seq; [now apply set_item_keys_ok | intros _].
    apply hoare_seq; [ | intros _; now apply set_item_keys_ok].
    apply set_item_keys_ok. exact (attr_truthy_keys_ok _ _ Herror Hm).
  - unfold metadata_step.
    apply hoare_seq; [apply hoare_lift | intros partial].
    apply hoare_seq;
      [apply hoare_when_some; intros; now apply set_item_keys_ok | intros _].
    apply hoare_seq; [apply hoare_lift | intros turn_complete].
    apply hoare_when_some; intros; now apply set_item_keys_ok.
Qed.

(** Apart from dictionary keys, the claim of JSON-serializability holds:
    when no value of the event, and no parsed text part, holds a
    dictionary key that [json.dumps] rejects, the translated event is
    JSON-serializable. *)
Lemma translated_event_serializable (now : string) (event : native_event) :
  event_keys_ok event = true ->
  exists out,
    _convert_adk_event_to_dict now event = Ok out
    /\ json_serializable out = true.
Proof.
  intros Hev. unfold _convert_adk_event_to_dict.
  pose proof (convert_steps_keys_ok event Hev (initial_event_dict now) eq_refl)
    as Hkeys.
  pose proof (convert_steps_ok event (initial_event_dict now)) as Hok.
  destruct (convert_steps event (initial_event_dict now)) as [r d].
  simpl in Hok, Hkeys. subst r.
  eexists. split; [reflexivity | ].
  now apply mjs_keys_ok_serializable.
Qed.

End SerializableFacts.

(** ** The event stream of one turn *)

Section StreamFacts.
Context `{Builtins} `{Runtime}.

Lemma convert_translate (now : string) (event : native_event) :
  _convert_adk_event_to_dict now event = Ok (translate now event).
Proof.
  unfold translate.
  destruct (convert_total now event) as [d ->]. reflexivity.
Qed.

Lemma translate_stream_length (clock : nat -> string) (stream : list native_event) :
  forall i, length (translate_stream clock i stream) = length stream.
Proof. induction stream as [ | e rest IH]; intros i; simpl; auto. Qed.

Lemma consume_spec (structured_only : bool) (clock : nat -> string)
    (stream : list native_event) :
  forall (i : nat) (st : loop_state),
    consume structured_only clock i stream st
    = ({| events := events st ++ translate_stream clock i stream;
          structured_data_found :=
            last_structured (structured_data_found st)
              (translate_stream clock i stream);
          yielded :=
            yielded st ++
            (if structured_only
             then List.filter is_structured_response
                    (translate_stream clock i stream)
             else translate_stream clock i stream) |}, None).
Proof.
  induction stream as [ | event rest IH]; intros i st.
  - simpl. rewrite !app_nil_r.
    destruct structured_only; rewrite ?app_nil_r; destruct st; reflexivity.
  - cbn [consume translate_stream]. unfold loop_body.
    rewrite convert_translate. cbn [mbind result_bind].
    rewrite IH. cbn [events structured_data_found yielded].
    f_equal. f_equal; try (rewrite <- app_assoc; reflexivity).
    destruct structured_only.
    + cbn [List.filter].
      destruct (is_structured_response (translate (clock i) event));
        rewrite <- ?app_assoc; reflexivity.
    + rewrite <- app_assoc. reflexivity.
Qed.

Lemma last_structured_from (l : list pyval) :
  forall init found,
    last_structured init l = Some found ->
    init = Some found \/ (In found l /\ is_structured_response found = true).
Proof.
  induction l as [ | x rest IH]; intros init found; simpl.
  - intros ->. now left.
  - unfold last_structured. simpl. intros Hf. apply IH in Hf.
    destruct Hf as [Hf | [Hin Hsr]]; [ | right; auto].
    destruct (is_structured_response x) eqn:Ex; simpl in Hf; [ | now left].
    case_bool_decide; [ | now left].
    injection Hf as <-. right. auto.
Qed.

(** What a turn yields, for a registered session. *)
Lemma send_message_registered (self : service)
    (user_id session_id message : string) (structured_only : bool)
    (r : run) (clock : nat -> string) (session : Session) :
  sessions self !! session_id = Some session ->
  let tr := translate_stream clock 0 (run_events r) in
  let out := if structured_only
             then List.filter is_structured_response tr else tr in
  let now := clock (length tr) in
  send_message self user_id session_id message structured_only r clock
  = match run_error r with
    | Some e => Ok (out ++ [error_event e now])
    | None =>
        let no_events :=
          match tr with
          | [] =>
              match fallback session now with
              | Ok more => Ok (out ++ more)
              | Raise e => Ok (out ++ [error_event e now])
              end
          | _ => Ok out
          end in
        match last_structured None tr with
        | Some found =>
            if structured_only && truthy found
            then Ok (out ++ [found]) else no_events
        | None => no_events
        end
    end.
Proof.
  intros Hs. unfold send_message. rewrite Hs, consume_spec. simpl.
  destruct (run_error r); reflexivity.
Qed.

Lemma translate_stream_forall (P : pyval -> Prop) (clock : nat -> string)
    (stream : list native_event) :
  (forall now event, P (translate now event)) ->
  forall i, Forall P (translate_stream clock i stream).
Proof.
  intros HP. induction stream as [ | e rest IH]; intros i; simpl;
    constructor; auto.
Qed.

Lemma last_structured_is_last (l : list pyval) :
  Forall (fun e => is_structured_response e = true ->
                   is_Some (event_get "structured_data" e)) l ->
  forall init,
    last_structured init l
    = match last (List.filter is_structured_response l) with
      | Some e => Some e
      | None => init
      end.
Proof.
  induction l as [ | x rest IH]; intros Hl init; [reflexivity | ].
  apply List.Forall_cons_iff in Hl as [Hx Hrest].
  unfold last_structured. cbn [fold_left List.filter].
  fold (last_structured
          (if is_structured_response x
              && bool_decide (is_Some (event_get "structured_data" x))
           then Some x else init) rest).
  rewrite (IH Hrest).
  destruct (is_structured_response x) eqn:Ex; cbn [andb]; [ | reflexivity].
  rewrite bool_decide_eq_true_2 by auto.
  rewrite last_cons.
  destruct (last (List.filter is_structured_response rest)); reflexivity.
Qed.

(** X9: what a structured-only turn over a non-empty stream yields in
    full: the structured events as they arrive, then the last of them
    once more. *)
Lemma structured_only_output (self : service)
    (user_id session_id message : string) (r : run) (clock : nat -> string)
    (session : Session) :
  sessions self !! session_id = Some session ->
  run_error r = None ->
  run_events r <> [] ->
  send_message self user_id session_id message true r clock
  = Ok (List.filter is_structured_response
          (translate_stream clock 0 (run_events r))
        ++ match last (List.filter is_structured_response
                         (translate_stream clock 0 (run_events r))) with
           | Some found => [found]
           | None => []
           end).
Proof.
  intros Hs He Hne.
  rewrite (send_message_registered _ _ _ _ _ _ _ _ Hs). cbv zeta. rewrite He.
  set (tr := translate_stream clock 0 (run_events r)).
  assert (Hdata : Forall (fun e => is_structured_response e = true ->
                    exists d v, e = PDict d
                                /\ dict_get "structured_data" d = Some v) tr).
  { apply translate_stream_forall. intros now event.
    apply structured_response_has_data. }
  rewrite last_structured_is_last.
  2:{ eapply List.Forall_impl; [ | exact Hdata].
      intros e Hd Hsr. destruct (Hd Hsr) as (d & v & -> & Hv).
      simpl. rewrite Hv. eauto. }
  destruct (last (List.filter is_structured_response tr)) as [found | ] eqn:Hl.
  - assert (Hin : In found (List.filter is_structured_response tr)).
    { apply list_elem_of_In. apply last_Some_elem_of. exact Hl. }
    apply filter_In in Hin as [Hin Hsr].
    rewrite List.Forall_forall in Hdata.
    destruct (Hdata found Hin Hsr) as (d & v & -> & Hv).
    assert (Htruthy : truthy (PDict d) = true)
      by (destruct d; [discriminate | reflexivity]).
    rewrite Htruthy. reflexivity.
  - rewrite app_nil_r.
    assert (Htr : tr <> []).
    { intros Htr. apply Hne. apply (f_equal (@length pyval)) in Htr.
      unfold tr in Htr. rewrite translate_stream_length in Htr.
      now destruct (run_events r). }
    destruct tr; [congruence | reflexivity].
Qed.

End StreamFacts.

(** ** Substrings *)

Lemma prefix_append (s t : string) : String.prefix s (s +:+ t) = true.
Proof.
  induction s as [ | c s IH]; simpl; [now destruct t | ].
  destruct (ascii_dec c c) as [_ | Hne]; [exact IH | congruence].
Qed.

Lemma contains_of_prefix (needle hay : string) :
  String.prefix needle hay = true -> contains needle hay = true.
Proof. intros Hp. destruct hay; cbn [contains]; rewrite Hp; reflexivity. Qed.

Lemma contains_cons (needle : string) (c : ascii) (hay : string) :
  contains needle hay = true -> contains needle (String c hay) = true.
Proof. intros Hc. cbn [contains]. rewrite Hc. apply orb_true_r. Qed.

Lemma contains_append (before needle after : string) :
  contains needle (before +:+ needle +:+ after) = true.
Proof.
  induction before as [ | c before IH].
  - change (contains needle (needle +:+ after) = true).
    apply contains_of_prefix, prefix_append.
  - change (contains needle (String c (before +:+ needle +:+ after)) = true).
    apply contains_cons, IH.
Qed.

Lemma contains_suffix (before needle : string) :
  contains needle (before +:+ needle) = true.
Proof.
  pose proof (contains_append before needle EmptyString) as Hc.
  replace (needle +:+ EmptyString) with needle in Hc; [exact Hc | ].
  clear. induction needle as [ | c needle IH]; [reflexivity | ].
  change (String c needle = String c (needle +:+ EmptyString)).
  now rewrite <- IH.
Qed.

(** ** Chat turns *)

Section TurnFacts.
Context `{Builtins} `{Runtime}.

(** C3: when the runtime raises while the stream of a registered session
    is consumed, the generator does not raise; it ends its output with one
    error event, whose [error] is true and whose message contains the
    exception text, after the events translated before the exception. *)
Theorem runtime_exception_becomes_error_event (self : service)
    (user_id session_id message : string) (structured_only : bool)
    (r : run) (clock : nat -> string) (session : Session) (e : exn) :
  sessions self !! session_id = Some session ->
  run_error r = Some e ->
  exists (before : list pyval) (err : pyval) (text : string),
    send_message self user_id session_id message structured_only r clock
    = Ok (before ++ [err])
    /\ before = (if structured_only
                 then List.filter is_structured_response
                        (translate_stream clock 0 (run_events r))
                 else translate_stream clock 0 (run_events r))
    /\ event_get "type" err = Some (PStr "error")
    /\ event_get "error" err = Some (PBool true)
    /\ event_get "message" err = Some (PStr text)
    /\ contains (exn_msg e) text = true.
Proof.
  intros Hs He.
  rewrite (send_message_registered _ _ _ _ _ _ _ _ Hs). cbv zeta. rewrite He.
  eexists _, _, _. split; [reflexivity | ].
  split; [reflexivity | ].
  repeat split. apply contains_suffix.
Qed.


(** C1: the code does not do what the claim says.  In structured-only
    mode a turn of a registered session whose stream ends normally yields
    every event the translator classified [structured_response], in
    arrival order, and then the last of them a second time: lines 141-143
    yield [structured_data_found] although the loop has yielded it
    already.  A stream with exactly one structured event thus yields two
    events, both that event, where the claim promises one. *)
Theorem structured_only_yields_last_event_twice (self : service)
    (user_id session_id message : string) (r : run) (clock : nat -> string)
    (session : Session) (first : pyval) (rest : list pyval) :
  sessions self !! session_id = Some session ->
  run_error r = None ->
  List.filter is_structured_response
    (translate_stream clock 0 (run_events r)) = first :: rest ->
  exists found : pyval,
    last (first :: rest) = Some found
    /\ send_message self user_id session_id message true r clock
       = Ok ((first :: rest) ++ [found])
    /\ (rest = [] ->
        send_message self user_id session_id message true r clock
        = Ok [first; first]).
Proof.
  intros Hs He Hf.
  rewrite (send_message_registered _ _ _ _ _ _ _ _ Hs). cbv zeta. rewrite He.
  remember (translate_stream clock 0 (run_events r)) as tr eqn:Htr.
  assert (Hdata : Forall (fun e => is_structured_response e = true ->
                    exists d v, e = PDict d
                                /\ dict_get "structured_data" d = Some v) tr).
  { subst tr. apply translate_stream_forall. intros now event.
    apply structured_response_has_data. }
  rewrite last_structured_is_last.
  2:{ eapply List.Forall_impl; [ | exact Hdata].
      intros e Hd Hsr. destruct (Hd Hsr) as (d & v & -> & Hv).
      simpl. rewrite Hv. eauto. }
  rewrite Hf.
  destruct (last (first :: rest)) as [found | ] eqn:Hl;
    [ | now apply last_None in Hl].
  exists found. split; [reflexivity | ].
  assert (Hin : In found (List.filter is_structured_response tr)).
  { rewrite Hf. apply list_elem_of_In. apply last_Some_elem_of. exact Hl. }
  apply filter_In in Hin as [Hin Hsr].
  rewrite List.Forall_forall in Hdata.
  destruct (Hdata found Hin Hsr) as (d & v & -> & Hv).
  assert (Htruthy : truthy (PDict d) = true)
    by (destruct d; [discriminate | reflexivity]).
  rewrite Htruthy. cbn [andb]. split; [reflexivity | ].
  intros ->. cbn in Hl. injection Hl as <-. reflexivity.
Qed.

End TurnFacts.

(** ** The theorems at the sample inputs *)

Lemma runtime_exception_becomes_error_event_witness :
  exists (before : list pyval) (err : pyval) (text : string),
    @send_message Sample.builtins Sample.runtime
      (Examples.service_with Examples.fresh_session) "u1" "s1" "find flights"
      false Examples.failing_run Examples.clock
    = Ok (before ++ [err])
    /\ before = @translate_stream Sample.builtins Examples.clock 0
                  (run_events Examples.failing_run)
    /\ event_get "type" err = Some (PStr "error")
    /\ event_get "error" err = Some (PBool true)
    /\ event_get "message" err = Some (PStr text)
    /\ contains "model overloaded" text = true.
Proof.
  apply (@runtime_exception_becomes_error_event Sample.builtins Sample.runtime
           (Examples.service_with Examples.fresh_session) "u1" "s1"
           "find flights" false Examples.failing_run Examples.clock
           Examples.fresh_session (Exn "RuntimeError" "model overloaded")).
  - reflexivity.
  - reflexivity.
Defined.


Lemma structured_only_yields_last_event_twice_witness :
  exists flights : pyval,
    @send_message Sample.builtins Sample.runtime
      (Examples.service_with Examples.fresh_session) "u1" "s1" "find flights"
      true Examples.example_run Examples.clock = Ok [flights; flights]
    /\ event_get "type" flights = Some (PStr "structured_response")
    /\ event_get "data_type" flights = Some (PStr "flights").
Proof.
  destruct (@structured_only_yields_last_event_twice Sample.builtins
              Sample.runtime (Examples.service_with Examples.fresh_session)
              "u1" "s1" "find flights" Examples.example_run Examples.clock
              Examples.fresh_session
              (@translate Sample.builtins (Examples.clock 1)
                 (Examples.with_function_responses
                    (PList [Examples.function_response
                              Examples.flights_payload])))
              [] eq_refl eq_refl eq_refl) as (found & _ & _ & Htwice).
  eexists. split; [exact (Htwice eq_refl) | ]. split; reflexivity.
Defined.

(** The specification's reading of a structured-only turn fails on its
    own example: the stream
    [agent_message, structured_response(flights), agent_message] does not
    yield the flights event once. *)
Lemma structured_event_is_yielded_twice :
  ~ @structured_only_claim Sample.builtins Sample.runtime
      (Examples.service_with Examples.fresh_session) "u1" "s1" "find flights"
      Examples.example_run Examples.clock.
Proof.
  intros Hclaim. vm_compute in Hclaim. discriminate Hclaim.
Qed.

(** The same example, evaluated: two copies of the flights event. *)
Lemma example_turn_output :
  exists (flights : pyval),
    @send_message Sample.builtins Sample.runtime
      (Examples.service_with Examples.fresh_session) "u1" "s1" "find flights"
      true Examples.example_run Examples.clock = Ok [flights; flights]
    /\ event_get "type" flights = Some (PStr "structured_response")
    /\ event_get "data_type" flights = Some (PStr "flights").
Proof. eexists. vm_compute. repeat split. Qed.

(** C2: the function response [{"result": {b"k": 1}}] translates without
    raising, and the translated event is not JSON-serializable: the
    conversion leaves the bytes key of the nested dictionary as it is. *)
Theorem bytes_key_survives_conversion (B : Builtins) (now : string) :
  exists (out : pyval),
    _convert_adk_event_to_dict now Examples.bytes_key_event = Ok out
    /\ json_serializable out = false
    /\ event_get "function_responses" out
       = Some (PList [PDict [ (PStr "name", PStr "search");
                              (PStr "response",
                                 PDict [(PStr "result",
                                         PDict [(PBytes [x6b%byte], PInt 1)])]) ]]).
Proof. eexists. split; [reflexivity | ]. split; reflexivity. Qed.

(** C10: a message whose first text part is the JSON of a flights payload
    and whose second text part is the JSON string [data] translates to an
    event tagged [flights] whose [structured_data] is that string, not a
    mapping. *)
Theorem text_part_replaces_structured_data (now : string) :
  exists (out : pyval),
    @_convert_adk_event_to_dict Sample.builtins now Examples.two_part_event
    = Ok out
    /\ event_get "data_type" out = Some (PStr "flights")
    /\ event_get "structured_data" out = Some (PStr "data").
Proof. eexists. split; [vm_compute; reflexivity | ]. split; reflexivity. Qed.

(** ** Intent classification *)

Module ParserFacts.
Import Parser.

Section WithBuiltins.
Context `{Builtins}.

(** C5: the flight keywords are tried first, then the hotel keywords,
    then the itinerary keywords, on the lowercased message, and the first
    set with a keyword in the message decides; the agent name is looked at
    only when no keyword of any set occurs, and without an agent name such
    a message is classified as nothing.  In particular
    [find me flights and hotels] is a flight request although it contains
    hotel keywords. *)
Theorem keyword_sets_are_tried_in_order (message : string)
    (agent_name : option string) :
  let text := lower message in
  (any_keyword flight_keywords text = true ->
   should_return_structured_data message agent_name = Some "flight")
  /\ (any_keyword flight_keywords text = false ->
      any_keyword hotel_keywords text = true ->
      should_return_structured_data message agent_name = Some "hotel")
  /\ (any_keyword flight_keywords text = false ->
      any_keyword hotel_keywords text = false ->
      any_keyword itinerary_keywords text = true ->
      should_return_structured_data message agent_name = Some "itinerary")
  /\ (any_keyword flight_keywords text
      || any_keyword hotel_keywords text
      || any_keyword itinerary_keywords text = true ->
      forall other : option string,
        should_return_structured_data message agent_name
        = should_return_structured_data message other)
  /\ (any_keyword flight_keywords text = false ->
      any_keyword hotel_keywords text = false ->
      any_keyword itinerary_keywords text = false ->
      should_return_structured_data message agent_name = agent_hint agent_name
      /\ should_return_structured_data message None = None)
  /\ (any_keyword hotel_keywords (lower "find me flights and hotels") = true
      /\ should_return_structured_data "find me flights and hotels" agent_name
         = Some "flight").
Proof.
  cbv zeta. unfold should_return_structured_data.
  repeat apply conj.
  - intros ->. reflexivity.
  - intros -> ->. reflexivity.
  - intros -> -> ->. reflexivity.
  - intros Hany other.
    destruct (any_keyword flight_keywords (lower message)); [reflexivity | ].
    destruct (any_keyword hotel_keywords (lower message)); [reflexivity | ].
    destruct (any_keyword itinerary_keywords (lower message));
      [reflexivity | discriminate].
  - intros -> -> ->. split; reflexivity.
  - now rewrite (lower_ascii_text "find me flights and hotels" eq_refl).
  - now rewrite (lower_ascii_text "find me flights and hotels" eq_refl).
Qed.

End WithBuiltins.

Lemma keyword_sets_are_tried_in_order_witness :
  @should_return_structured_data Sample.builtins "Book a FLIGHT and a hotel"
    (Some "hotel_agent")
  = Some "flight".
Proof.
  destruct (@keyword_sets_are_tried_in_order Sample.builtins
              "Book a FLIGHT and a hotel" (Some "hotel_agent"))
    as [Hflight _].
  apply Hflight. reflexivity.
Defined.

End ParserFacts.

(** ** The session registry *)

Section RegistryFacts.
Context `{Builtins} `{Runtime}.

(** C8: once create-or-get has succeeded for an explicit session id, a
    second call with that id returns the same id and leaves the service as
    it is: the registry still maps the id to the handle of the first call,
    and no request is made to the runtime.  The first call makes at most
    one request. *)
Theorem create_or_get_session_twice (self self1 : service)
    (user_id user_id' session_id : string) (now_ts now_ts' : Z)
    (now_iso now_iso' : string) (info : session_info) :
  session_id <> "" ->
  create_or_get_session self user_id (Some session_id) now_ts now_iso
  = (Ok info, self1) ->
  info_id info = session_id
  /\ is_Some (sessions self1 !! session_id)
  /\ runtime_calls self1 <= S (runtime_calls self)
  /\ exists info' self2,
       create_or_get_session self1 user_id' (Some session_id) now_ts' now_iso'
       = (Ok info', self2)
       /\ info_id info' = info_id info
       /\ self2 = self1
       /\ sessions self2 !! session_id = sessions self1 !! session_id
       /\ runtime_calls self2 = runtime_calls self1.
Proof.
  intros Hne Hfirst.
  assert (Hid : String.eqb session_id "" = false)
    by (now apply String.eqb_neq).
  unfold create_or_get_session in *. rewrite Hid in *.
  assert (Hreg : info_id info = session_id
                 /\ is_Some (sessions self1 !! session_id)
                 /\ runtime_calls self1 <= S (runtime_calls self)).
  { destruct (sessions self !! session_id) as [session | ] eqn:Hs.
    - injection Hfirst as <- <-. rewrite Hs. simpl. eauto with lia.
    - destruct (create_session (session_service self) "travel_planner_agent"
                  user_id session_id) as [[session | e] rt];
        [ | discriminate].
      injection Hfirst as <- <-. simpl.
      rewrite lookup_insert_eq. eauto with lia. }
  destruct Hreg as (Hinfo & [session Hs] & Hcalls).
  repeat split; eauto.
  rewrite Hs. eexists _, _. split; [reflexivity | ]. simpl. auto.
Qed.

(** C9: for a registered session, whatever the profile mapping holds,
    initialization writes a [user_profile] in which display name,
    nationality, home address, preferred local transport, prior trips,
    travel style and budget range are all present, each with the value
    given in the profile or else its default, together with an empty
    [itinerary] and the current [system_time]; for an unregistered key it
    fails with the session-not-found error and changes nothing. *)
Theorem initialize_applies_defaults (self : service)
    (user_id session_id : string) (user_profile : pydict)
    (existing_trips : option (list pyval)) (now_iso : string) :
  (sessions self !! session_id = None ->
   initialize_session_with_user_data self user_id session_id user_profile
     existing_trips now_iso
   = (Raise (Exn "ValueError" ("Session " +:+ session_id +:+ " not found")),
      self))
  /\ (forall session : Session,
      sessions self !! session_id = Some session ->
      exists (answer profile home preferences : pydict) (self' : service)
             (session' : Session),
        initialize_session_with_user_data self user_id session_id user_profile
          existing_trips now_iso = (Ok answer, self')
        /\ sessions self' !! session_id = Some session'
        /\ session_state session' !! "user_profile" = Some (PDict profile)
        /\ session_state session' !! "itinerary" = Some (PDict [])
        /\ session_state session' !! "system_time" = Some (PStr now_iso)
        /\ dict_get "display_name" profile
           = Some (default (default (PStr "")
                              (dict_get "first_name" user_profile))
                     (dict_get "display_name" user_profile))
        /\ dict_get "passport_nationality" profile
           = Some (default (PStr "US")
                     (dict_get "passport_nationality" user_profile))
        /\ dict_get "home" profile = Some (PDict home)
        /\ dict_get "address" home
           = Some (default (PStr "Default Address")
                     (dict_get "address" user_profile))
        /\ dict_get "local_prefer_mode" home
           = Some (default (PStr "driving")
                     (dict_get "preferred_transport" user_profile))
        /\ dict_get "preferences" profile = Some (PDict preferences)
        /\ dict_get "previous_trips" preferences
           = Some (PList (default [] existing_trips))
        /\ dict_get "travel_style" preferences
           = Some (default (PStr "adventure")
                     (dict_get "travel_style" user_profile))
        /\ dict_get "budget_range" preferences
           = Some (default (PStr "moderate")
                     (dict_get "budget_range" user_profile))).
Proof.
  unfold initialize_session_with_user_data. split.
  - intros ->. reflexivity.
  - intros session ->.
    eexists _, _, _, _, _, _. split; [reflexivity | ].
    cbn [sessions]. rewrite lookup_insert_eq. split; [reflexivity | ].
    cbn [session_state user_context write_state].
    split; [now rewrite lookup_insert_ne, lookup_insert_ne, lookup_insert_eq | ].
    split; [now rewrite lookup_insert_ne, lookup_insert_eq | ].
    split; [now rewrite lookup_insert_eq | ].
    unfold dict_get_default.
    repeat split; try reflexivity.
    simpl. now destruct existing_trips as [[ | t ts] | ].
Qed.

End RegistryFacts.

Lemma create_or_get_session_twice_witness :
  exists (info' : session_info) (self2 : @service Sample.runtime),
    @create_or_get_session Sample.runtime
      (snd (@create_or_get_session Sample.runtime Examples.empty_service
              "u1" (Some "s1") 100 "t1"))
      "u2" (Some "s1") 200 "t2" = (Ok info', self2)
    /\ info_id info' = "s1"
    /\ self2 = snd (@create_or_get_session Sample.runtime Examples.empty_service
                      "u1" (Some "s1") 100 "t1")
    /\ runtime_calls self2 = 1.
Proof.
  destruct (@create_or_get_session_twice Sample.runtime
              Examples.empty_service
              (snd (@create_or_get_session Sample.runtime Examples.empty_service
                      "u1" (Some "s1") 100 "t1"))
              "u1" "u2" "s1" 100 200 "t1" "t2"
              {| info_id := "s1"; info_status := "active";
                 info_created_at := "t1" |})
    as (_ & _ & _ & info' & self2 & Hsecond & Hid & Hsame & _ & Hcalls).
  - discriminate.
  - reflexivity.
  - exists info', self2. repeat split; assumption.
Defined.

Lemma initialize_applies_defaults_witness :
  exists (answer profile : pydict) (self' : @service Sample.runtime)
         (session' : Session),
    @initialize_session_with_user_data Sample.runtime
      (Examples.service_with Examples.fresh_session) "u1" "s1" [] None "t1"
    = (Ok answer, self')
    /\ sessions self' !! "s1" = Some session'
    /\ session_state session' !! "user_profile" = Some (PDict profile)
    /\ dict_get "display_name" profile = Some (PStr "")
    /\ dict_get "passport_nationality" profile = Some (PStr "US").
Proof.
  destruct (@initialize_applies_defaults Sample.runtime
              (Examples.service_with Examples.fresh_session) "u1" "s1"
              [] None "t1") as [_ Hregistered].
  destruct (Hregistered Examples.fresh_session eq_refl)
    as (answer & profile & home & preferences & self' & session'
        & Hrun & Hs & Hp & _ & _ & Hname & Hnat & _).
  exists answer, profile, self', session'. repeat split; assumption.
Defined.

(** ** Itinerary extraction *)

Section ExtractionFacts.
Context `{Builtins} `{Runtime}.

Lemma fold_add_distinct (values : list pyval) :
  forall acc,
    fold_left (fun l v => add_distinct v l) values acc
    = acc ++ first_seen acc (List.filter truthy values).
Proof.
  induction values as [ | v rest IH]; intros acc; simpl.
  - now rewrite app_nil_r.
  - rewrite IH. unfold add_distinct.
    destruct (truthy v); simpl; [ | reflexivity].
    destruct (py_elem v acc); simpl; [reflexivity | ].
    now rewrite <- app_assoc.
Qed.

Lemma py_elem_strings (s : string) (l : list pyval) :
  Forall (fun v => is_string v = true) l ->
  py_elem (PStr s) l = true <-> In (PStr s) l.
Proof.
  intros Hl. unfold py_elem. rewrite existsb_exists. split.
  - intros (x & Hx & Heq). rewrite List.Forall_forall in Hl.
    specialize (Hl x Hx). destruct x; try discriminate.
    rewrite py_eq_str in Heq. apply String.eqb_eq in Heq. now subst.
  - intros Hin. exists (PStr s). split; [exact Hin | ].
    rewrite py_eq_str. apply String.eqb_refl.
Qed.

Lemma first_seen_strings (values : list pyval) :
  forall seen,
    Forall (fun v => is_string v = true) seen ->
    Forall (fun v => is_string v = true) values ->
    NoDup (first_seen seen values)
    /\ (forall x, In x (first_seen seen values) -> In x values /\ ~ In x seen).
Proof.
  induction values as [ | v rest IH]; intros seen Hseen Hvalues; simpl.
  - split; [constructor | intros x []].
  - apply List.Forall_cons_iff in Hvalues as [Hv Hrest].
    destruct v; try discriminate.
    destruct (py_elem (PStr s) seen) eqn:He.
    + destruct (IH seen Hseen Hrest) as [Hnd Hin].
      split; [exact Hnd | ]. intros x Hx. destruct (Hin x Hx). auto.
    + assert (Hseen' : Forall (fun v => is_string v = true) (seen ++ [PStr s])).
      { apply Forall_app. split; [exact Hseen | now repeat constructor]. }
      destruct (IH _ Hseen' Hrest) as [Hnd Hin].
      assert (Hnotin : ~ In (PStr s) seen).
      { intros Hc. apply (py_elem_strings s seen Hseen) in Hc. congruence. }
      split.
      * apply NoDup_cons. split; [ | exact Hnd].
        rewrite list_elem_of_In.
        intros Hc. destruct (Hin _ Hc) as [_ Hn]. apply Hn.
        apply in_or_app. right. now left.
      * intros x [<- | Hx]; [split; [now left | exact Hnotin] | ].
        destruct (Hin x Hx) as [Hr Hn]. split; [now right | ].
        intros Hc. apply Hn. apply in_or_app. now left.
Qed.

End ExtractionFacts.

Section ScanFacts.
Context `{Builtins} `{Runtime}.

Lemma is_str_eq (s : string) (v : pyval) :
  is_str s (Some v) = true -> v = PStr s.
Proof.
  destruct v; simpl; try discriminate.
  intros Heq. apply String.eqb_eq in Heq. now subst.
Qed.

Lemma scan_event_ok (event : pyval) (t : trip_data) :
  is_mapping event = true ->
  exists t', scan_event event t = Ok t' /\ scanned [event] t t'.
Proof.
  destruct event; try discriminate. intros _.
  unfold scan_event, scanned, harvest, has_event_type, event_field.
  cbn [py_get mbind result_bind fold_left].
  remember (dict_get_default "event_type" (PStr "") kv) as ty eqn:Hty.
  clear Hty.
  destruct (is_str "hotel" (Some ty)) eqn:Hh.
  { apply is_str_eq in Hh. subst ty. eexists. split; [reflexivity | ].
    repeat split. }
  destruct (is_str "visit" (Some ty)) eqn:Hv.
  { apply is_str_eq in Hv. subst ty. eexists. split; [reflexivity | ].
    repeat split. }
  destruct (is_str "transportation" (Some ty)) eqn:Ht.
  { apply is_str_eq in Ht. subst ty. eexists. split; [reflexivity | ].
    repeat split. }
  eexists. split; [reflexivity | ]. repeat split.
Qed.

Lemma scanned_trans (evs1 evs2 : list pyval) (t1 t2 t3 : trip_data) :
  scanned evs1 t1 t2 -> scanned evs2 t2 t3 -> scanned (evs1 ++ evs2) t1 t3.
Proof.
  intros (Ha & Hb & Hc) (Ha' & Hb' & Hc'). unfold scanned.
  rewrite !fold_left_app, <- Ha, <- Hb, <- Hc. auto.
Qed.

Lemma scan_events_ok (evs : list pyval) :
  forallb is_mapping evs = true ->
  forall t, exists t', scan_events evs t = Ok t' /\ scanned evs t t'.
Proof.
  induction evs as [ | event rest IH]; intros Hwf t.
  - exists t. split; [reflexivity | repeat split].
  - cbn [forallb] in Hwf. apply andb_true_iff in Hwf as [He Hrest].
    destruct (scan_event_ok event t He) as (t1 & Hrun & Hscan).
    destruct (IH Hrest t1) as (t2 & Hrun2 & Hscan2).
    exists t2. split.
    + cbn [scan_events mbind result_bind]. rewrite Hrun. exact Hrun2.
    + exact (scanned_trans [event] rest t t1 t2 Hscan Hscan2).
Qed.

Lemma well_formed_day_events (day : pyval) :
  well_formed_day day = true ->
  forallb is_mapping (day_events day) = true.
Proof.
  destruct day; try discriminate.
  unfold well_formed_day, day_events, iterates_mappings, iterated.
  now destruct (py_iter (dict_get_default "events" (PList []) kv)).
Qed.

Lemma scan_day_ok (day : pyval) (t : trip_data) :
  well_formed_day day = true ->
  exists t', scan_day day t = Ok t' /\ scanned (day_events day) t t'.
Proof.
  destruct day; try discriminate.
  unfold well_formed_day, scan_day, day_events, iterates_mappings, iterated.
  cbn [py_get mbind result_bind].
  destruct (py_iter (dict_get_default "events" (PList []) kv)) as [evs | e];
    [ | discriminate].
  cbn [mbind result_bind]. intros Hmaps. now apply scan_events_ok.
Qed.

Lemma scan_days_ok (days : list pyval) :
  forallb well_formed_day days = true ->
  forall t,
    exists t', scan_days days t = Ok t' /\ scanned (itinerary_events days) t t'.
Proof.
  induction days as [ | day rest IH]; intros Hwf t.
  - exists t. split; [reflexivity | repeat split].
  - cbn [forallb] in Hwf. apply andb_true_iff in Hwf as [Hd Hrest].
    destruct (scan_day_ok day t Hd) as (t1 & Hrun & Hscan).
    destruct (IH Hrest t1) as (t2 & Hrun2 & Hscan2).
    exists t2. split.
    + cbn [scan_days mbind result_bind]. rewrite Hrun. exact Hrun2.
    + exact (scanned_trans _ _ t t1 t2 Hscan Hscan2).
Qed.

Lemma fold_harvest (event_type field : string) (evs : list pyval) :
  forall acc,
    fold_left (fun l e => harvest event_type field e l) evs acc
    = fold_left (fun l v => add_distinct v l)
        (map (event_field field)
           (List.filter (has_event_type event_type) evs)) acc.
Proof.
  induction evs as [ | e rest IH]; intros acc; [reflexivity | ].
  cbn [fold_left List.filter]. rewrite IH. unfold harvest.
  destruct (has_event_type event_type e); reflexivity.
Qed.

Lemma harvested_from_empty (event_type field : string) (evs : list pyval) :
  fold_left (fun l e => harvest event_type field e l) evs []
  = first_seen [] (field_values event_type field evs).
Proof. now rewrite fold_harvest, fold_add_distinct. Qed.

Lemma field_values_strings (event_type field : string) (evs : list pyval) :
  Forall (fun e => exists kv, e = PDict kv /\ string_or_absent field kv = true)
    evs ->
  Forall (fun v => is_string v = true) (field_values event_type field evs).
Proof.
  intros Hwf. apply List.Forall_forall. intros v Hv.
  unfold field_values in Hv.
  apply filter_In in Hv as [Hv _].
  apply in_map_iff in Hv as (e & <- & He).
  apply filter_In in He as [He _].
  rewrite List.Forall_forall in Hwf.
  destruct (Hwf e He) as (kv & -> & Hs).
  unfold event_field, dict_get_default, string_or_absent in *.
  destruct (dict_get field kv) as [x | ]; [ | reflexivity].
  now destruct x.
Qed.

Lemma well_formed_days_events (days : list pyval) :
  forallb well_formed_day days = true ->
  forallb is_mapping (itinerary_events days) = true.
Proof.
  induction days as [ | day rest IH]; [reflexivity | ].
  cbn [forallb]. intros Hwf. apply andb_true_iff in Hwf as [Hd Hrest].
  unfold itinerary_events. cbn [map concat].
  rewrite forallb_app. rewrite (well_formed_day_events _ Hd).
  apply IH, Hrest.
Qed.

End ScanFacts.

Section ExtractionTheorem.
Context `{Builtins} `{Runtime}.

Lemma string_valued_field (field : string) (evs : list pyval) :
  forallb string_valued evs = true ->
  field = "room_selection" \/ field = "description" \/ field = "type" ->
  Forall (fun e => exists kv, e = PDict kv /\ string_or_absent field kv = true)
    evs.
Proof.
  intros Hwf Hfield. apply List.Forall_forall. intros e He.
  rewrite forallb_forall in Hwf. specialize (Hwf e He).
  destruct e; try discriminate. exists kv. split; [reflexivity | ].
  unfold string_valued in Hwf.
  apply andb_true_iff in Hwf as [Hwf Ht].
  apply andb_true_iff in Hwf as [Hr Hd].
  destruct Hfield as [-> | [-> | ->]]; assumption.
Qed.

Lemma convert_itinerary_iterated (it : pydict) (days : pyval) :
  well_formed_itinerary it = true ->
  dict_get "days" it = Some days ->
  truthy days = true ->
  exists trip,
    _convert_itinerary_to_trip_data (PDict it) = Ok trip
    /\ stay_preference trip
       = first_seen [] (field_values "hotel" "room_selection"
                          (itinerary_events (iterated days)))
    /\ extra_activities trip
       = first_seen [] (field_values "visit" "description"
                          (itinerary_events (iterated days)))
    /\ transportation_preference trip
       = first_seen [] (field_values "transportation" "type"
                          (itinerary_events (iterated days))).
Proof.
  intros Hwf Hdays Htruthy. unfold well_formed_itinerary in Hwf.
  apply andb_true_iff in Hwf as [Htravelers Hwf].
  unfold _convert_itinerary_to_trip_data.
  cbn [py_get mbind result_bind].
  assert (Htr : exists tr,
             dict_get_default "travelers" (PDict []) it = PDict tr).
  { unfold dict_get_default.
    destruct (dict_get "travelers" it) as [v | ]; [ | eauto].
    destruct v; try discriminate. eauto. }
  assert (Hd : dict_get_default "days" (PList []) it = days)
    by (unfold dict_get_default; now rewrite Hdays).
  destruct Htr as [tr ->]. cbn [py_get mbind result_bind].
  rewrite Hd in *. rewrite Htruthy. unfold iterated.
  destruct (py_iter days) as [ds | e]; [ | discriminate].
  cbn [mbind result_bind].
  match goal with
  | |- exists trip, scan_days _ ?t0 = _ /\ _ =>
      destruct (scan_days_ok ds Hwf t0) as (trip & Hrun & Ha & Hb & Hc)
  end.
  exists trip. split; [exact Hrun | ].
  cbn [stay_preference extra_activities transportation_preference] in Ha, Hb, Hc.
  rewrite Ha, Hb, Hc, !harvested_from_empty. auto.
Qed.

Lemma convert_itinerary_ok (it : pydict) (day : pyval) (days : list pyval) :
  well_formed_itinerary it = true ->
  dict_get "days" it = Some (PList (day :: days)) ->
  exists trip,
    _convert_itinerary_to_trip_data (PDict it) = Ok trip
    /\ stay_preference trip
       = first_seen [] (field_values "hotel" "room_selection"
                          (itinerary_events (day :: days)))
    /\ extra_activities trip
       = first_seen [] (field_values "visit" "description"
                          (itinerary_events (day :: days)))
    /\ transportation_preference trip
       = first_seen [] (field_values "transportation" "type"
                          (itinerary_events (day :: days))).
Proof.
  intros Hwf Hdays.
  exact (convert_itinerary_iterated it (PList (day :: days)) Hwf Hdays eq_refl).
Qed.

(** *** Itineraries of another shape *)

(** The exceptions that reading a value of the wrong shape raises. *)
Lemma scan_event_raises (event : pyval) (t : trip_data) :
  is_mapping event = false ->
  exists e, scan_event event t = Raise e /\ exn_kind e = "AttributeError".
Proof.
  intros Hm. unfold scan_event.
  destruct event; try discriminate Hm; cbn [py_get mbind result_bind]; eauto.
Qed.

Lemma scan_events_raises (evs : list pyval) :
  forallb is_mapping evs = false ->
  forall t, exists e,
    scan_events evs t = Raise e /\ exn_kind e = "AttributeError".
Proof.
  induction evs as [ | event rest IH]; intros Hm t; [discriminate | ].
  cbn [forallb] in Hm. cbn [scan_events].
  destruct (is_mapping event) eqn:He.
  - destruct (scan_event_ok event t He) as (t1 & Hrun & _).
    rewrite Hrun. cbn [mbind result_bind]. now apply IH.
  - destruct (scan_event_raises event t He) as (e & Hrun & Hk).
    rewrite Hrun. cbn [mbind result_bind]. eauto.
Qed.

Lemma py_iter_raises (v : pyval) (e : exn) :
  py_iter v = Raise e -> exn_kind e = "TypeError".
Proof. destruct v; cbn [py_iter]; intros [= <-] || discriminate; reflexivity. Qed.

Lemma scan_day_raises (day : pyval) (t : trip_data) :
  well_formed_day day = false ->
  exists e,
    scan_day day t = Raise e
    /\ (exn_kind e = "AttributeError" \/ exn_kind e = "TypeError").
Proof.
  intros Hwf. unfold scan_day.
  destruct day; try (cbn [py_get mbind result_bind]; eauto; fail).
  unfold well_formed_day, iterates_mappings in Hwf.
  cbn [py_get mbind result_bind].
  destruct (py_iter (dict_get_default "events" (PList []) kv)) as [evs | e]
    eqn:Hiter; cbn [mbind result_bind].
  - destruct (scan_events_raises evs Hwf t) as (e & Hrun & Hk). eauto.
  - apply py_iter_raises in Hiter. eauto.
Qed.

Lemma scan_days_raises (days : list pyval) :
  forallb well_formed_day days = false ->
  forall t, exists e,
    scan_days days t = Raise e
    /\ (exn_kind e = "AttributeError" \/ exn_kind e = "TypeError").
Proof.
  induction days as [ | day rest IH]; intros Hwf t; [discriminate | ].
  cbn [forallb] in Hwf. cbn [scan_days].
  destruct (well_formed_day day) eqn:Hd.
  - destruct (scan_day_ok day t Hd) as (t1 & Hrun & _).
    rewrite Hrun. cbn [mbind result_bind]. now apply IH.
  - destruct (scan_day_raises day t Hd) as (e & Hrun & Hk).
    rewrite Hrun. cbn [mbind result_bind]. eauto.
Qed.

Lemma convert_itinerary_raises (it : pydict) (days : pyval) :
  well_formed_itinerary it = false ->
  dict_get "days" it = Some days ->
  truthy days = true ->
  exists e,
    _convert_itinerary_to_trip_data (PDict it) = Raise e
    /\ (exn_kind e = "AttributeError" \/ exn_kind e = "TypeError").
Proof.
  intros Hwf Hdays Htruthy. unfold well_formed_itinerary in Hwf.
  assert (Hd : dict_get_default "days" (PList []) it = days)
    by (unfold dict_get_default; now rewrite Hdays).
  rewrite Hd in Hwf.
  assert (Htrav : match dict_get "travelers" it with
                  | None | Some (PDict _) => true
                  | Some _ => false
                  end
                  = is_mapping (dict_get_default "travelers" (PDict []) it)).
  { unfold dict_get_default.
    destruct (dict_get "travelers" it) as [[] | ]; reflexivity. }
  rewrite Htrav in Hwf. clear Htrav.
  unfold _convert_itinerary_to_trip_data. cbn [py_get mbind result_bind].
  destruct (dict_get_default "travelers" (PDict []) it);
    try (cbn [py_get mbind result_bind]; eauto; fail).
  cbn [py_get mbind result_bind is_mapping andb] in *. rewrite Hd, Htruthy.
  destruct (py_iter days) as [ds | e] eqn:Hiter; cbn [mbind result_bind].
  - now apply scan_days_raises.
  - apply py_iter_raises in Hiter. eauto.
Qed.

(** No entry that [first_seen] keeps is [in] what was seen before it. *)
Lemma first_seen_fresh (values : list pyval) :
  forall (seen : list pyval) (i : nat) (y : pyval),
    first_seen seen values !! i = Some y ->
    py_elem y (seen ++ take i (first_seen seen values)) = false.
Proof.
  induction values as [ | v rest IH]; intros seen i y; cbn [first_seen].
  - intros Hy. discriminate Hy.
  - destruct (py_elem v seen) eqn:He; [apply IH | ].
    destruct i as [ | i].
    + intros [= <-]. cbn [take]. now rewrite app_nil_r.
    + intros Hy. cbn [take].
      change (py_elem y (seen ++ v :: take i (first_seen (seen ++ [v]) rest))
              = false).
      replace (seen ++ v :: take i (first_seen (seen ++ [v]) rest))
        with ((seen ++ [v]) ++ take i (first_seen (seen ++ [v]) rest))
        by now rewrite <- app_assoc.
      now apply IH.
Qed.

Lemma first_seen_no_repeats (values : list pyval) :
  no_repeats (first_seen [] values).
Proof. intros i y Hy. exact (first_seen_fresh values [] i y Hy). Qed.

(** C6 (as amended): for a registered session, extraction returns
    nothing, without raising, when the state has no itinerary, when the
    itinerary is falsy, and when its [days] entry is missing or falsy (an
    empty day list included).  When [days] is truthy and the itinerary has
    the shape the code reads, it returns a trip whose [stay_preference],
    [extra_activities] and [transportation_preference] are the truthy
    [room_selection] values of the hotel events, [description] values of
    the visit events and [type] values of the transportation events, each
    kept at its first occurrence: no entry is [in] the entries before it,
    and when the values are strings no list repeats an element.  On every
    other itinerary with a truthy [days] entry, and on a truthy itinerary
    that is not a mapping, extraction raises [AttributeError] or
    [TypeError]. *)
Theorem extract_itinerary_preferences (self : service)
    (user_id session_id : string) (session : Session) :
  sessions self !! session_id = Some session ->
  let itinerary := default (PDict []) (session_state session !! "itinerary") in
  (truthy itinerary = false ->
   extract_itinerary_from_session self user_id session_id = Ok None)
  /\ (truthy itinerary = true ->
      is_mapping itinerary = false ->
      exists e,
        extract_itinerary_from_session self user_id session_id = Raise e
        /\ exn_kind e = "AttributeError")
  /\ (forall it : pydict,
      itinerary = PDict it ->
      let days := dict_get_default "days" PNone it in
      (truthy days = false ->
       extract_itinerary_from_session self user_id session_id = Ok None)
      /\ (truthy days = true ->
          well_formed_itinerary it = true ->
          exists trip : trip_data,
            extract_itinerary_from_session self user_id session_id
            = Ok (Some trip)
            /\ stay_preference trip
               = first_seen [] (field_values "hotel" "room_selection"
                                  (itinerary_events (iterated days)))
            /\ extra_activities trip
               = first_seen [] (field_values "visit" "description"
                                  (itinerary_events (iterated days)))
            /\ transportation_preference trip
               = first_seen [] (field_values "transportation" "type"
                                  (itinerary_events (iterated days)))
            /\ no_repeats (stay_preference trip)
            /\ no_repeats (extra_activities trip)
            /\ no_repeats (transportation_preference trip)
            /\ (forallb string_valued (itinerary_events (iterated days)) = true ->
                NoDup (stay_preference trip)
                /\ NoDup (extra_activities trip)
                /\ NoDup (transportation_preference trip)))
      /\ (truthy days = true ->
          well_formed_itinerary it = false ->
          exists e,
            extract_itinerary_from_session self user_id session_id = Raise e
            /\ (exn_kind e = "AttributeError" \/ exn_kind e = "TypeError"))).
Proof.
  intros Hs. cbv zeta.
  unfold extract_itinerary_from_session, get_session_state.
  rewrite Hs. cbn [mbind result_bind snap_state].
  remember (default (PDict []) (session_state session !! "itinerary"))
    as itinerary eqn:Hit. clear Hit.
  split; [ | split].
  - intros ->. reflexivity.
  - intros -> Hm.
    destruct itinerary; try discriminate Hm;
      cbn [py_get mbind result_bind]; eauto.
  - intros it ->.
    assert (Hdays : forall days,
               truthy (dict_get_default "days" PNone it) = true ->
               dict_get_default "days" PNone it = days ->
               dict_get "days" it = Some days).
    { unfold dict_get_default. intros days Ht <-.
      destruct (dict_get "days" it); [reflexivity | discriminate Ht]. }
    split; [ | split].
    + intros Hd. destruct (truthy (PDict it)); [ | reflexivity].
      cbn [py_get mbind result_bind]. now rewrite Hd.
    + intros Hd Hwf.
      assert (Htruthy : truthy (PDict it) = true).
      { destruct it; [discriminate Hd | reflexivity]. }
      rewrite Htruthy. cbn [py_get mbind result_bind]. rewrite Hd.
      destruct (convert_itinerary_iterated it _ Hwf (Hdays _ Hd eq_refl) Hd)
        as (trip & -> & Ha & Hb & Hc).
      exists trip. split; [reflexivity | ].
      rewrite Ha, Hb, Hc.
      repeat apply conj; try reflexivity; try apply first_seen_no_repeats.
      intros Hstr.
      assert (Hmaps : forallb is_mapping
                        (itinerary_events
                           (iterated (dict_get_default "days" PNone it)))
                      = true).
      { unfold well_formed_itinerary in Hwf.
        apply andb_true_iff in Hwf as [_ Hwf].
        replace (dict_get_default "days" (PList []) it)
          with (dict_get_default "days" PNone it) in Hwf
          by (unfold dict_get_default; now rewrite (Hdays _ Hd eq_refl)).
        unfold iterated.
        destruct (py_iter (dict_get_default "days" PNone it));
          [now apply well_formed_days_events | reflexivity]. }
      repeat apply conj.
      * apply first_seen_strings; [constructor | ].
        apply field_values_strings, string_valued_field; auto.
      * apply first_seen_strings; [constructor | ].
        apply field_values_strings, string_valued_field; auto.
      * apply first_seen_strings; [constructor | ].
        apply field_values_strings, string_valued_field; auto.
    + intros Hd Hwf.
      assert (Htruthy : truthy (PDict it) = true).
      { destruct it; [discriminate Hd | reflexivity]. }
      rewrite Htruthy. cbn [py_get mbind result_bind]. rewrite Hd.
      destruct (convert_itinerary_raises it _ Hwf (Hdays _ Hd eq_refl) Hd)
        as (e & -> & Hk).
      exists e. split; [reflexivity | exact Hk].
Qed.

End ExtractionTheorem.

Lemma extract_itinerary_preferences_witness :
  exists trip : trip_data,
    @extract_itinerary_from_session Sample.builtins Sample.runtime
      (Examples.service_with Itinerary.planned_session) "u1" "s1"
    = Ok (Some trip)
    /\ stay_preference trip = [PStr "Suite"]
    /\ extra_activities trip = [PStr "Museum"]
    /\ transportation_preference trip = [PStr "train"].
Proof.
  destruct (@extract_itinerary_preferences Sample.builtins Sample.runtime
              (Examples.service_with Itinerary.planned_session) "u1" "s1"
              Itinerary.planned_session eq_refl) as (_ & _ & Hplan).
  destruct (Hplan Itinerary.two_days eq_refl) as (_ & Hshape & _).
  destruct (Hshape eq_refl eq_refl) as (trip & Hrun & Ha & Hb & Hc & _).
  exists trip. split; [exact Hrun | ].
  split; [exact Ha | ]. split; [exact Hb | exact Hc].
Defined.

(** C6 (as stated) fails: a session whose itinerary has a non-empty day
    list with a day that is not a mapping makes extraction raise
    [AttributeError]; it returns neither a trip nor nothing. *)
Lemma day_that_is_no_mapping_raises :
  exists e : exn,
    @extract_itinerary_from_session Sample.builtins Sample.runtime
      (Examples.service_with Itinerary.free_day_session) "u1" "s1"
    = Raise e
    /\ exn_kind e = "AttributeError".
Proof. eexists. split; reflexivity. Qed.

(** * Further properties of the service *)

(** ** The registry: cleanup, creation and initialization *)

Section RegistryLifecycle.
Context `{Builtins} `{Runtime}.

(** X1: after [cleanup_session] the key is unregistered, so sending,
    reading the state, extracting and initializing all fail with the
    session-not-found error; the other sessions keep their handles, and a
    second cleanup changes nothing. *)
Theorem cleanup_session_unregisters (self : service)
    (user_id session_id message : string) (structured_only : bool)
    (r : run) (clock : nat -> string) (user_profile : pydict)
    (existing_trips : option (list pyval)) (now_iso : string) :
  let self' := cleanup_session self session_id in
  send_message self' user_id session_id message structured_only r clock
  = Raise (session_not_found session_id)
  /\ get_session_state self' user_id session_id
     = Raise (session_not_found session_id)
  /\ extract_itinerary_from_session self' user_id session_id
     = Raise (session_not_found session_id)
  /\ initialize_session_with_user_data self' user_id session_id user_profile
       existing_trips now_iso
     = (Raise (session_not_found session_id), self')
  /\ (forall other : string,
        other <> session_id -> sessions self' !! other = sessions self !! other)
  /\ cleanup_session self' session_id = self'.
Proof.
  cbv zeta.
  assert (Hgone : sessions (cleanup_session self session_id) !! session_id = None)
    by apply lookup_delete_eq.
  repeat apply conj.
  - unfold send_message. now rewrite Hgone.
  - unfold get_session_state. now rewrite Hgone.
  - unfold extract_itinerary_from_session, get_session_state.
    now rewrite Hgone.
  - unfold initialize_session_with_user_data. now rewrite Hgone.
  - intros other Hne. cbn [cleanup_session sessions].
    now apply lookup_delete_ne.
  - unfold cleanup_session. cbn [sessions runners session_service runtime_calls].
    rewrite !(delete_id (delete session_id _)) by apply lookup_delete_eq.
    reflexivity.
Qed.

(** X2: cleanup does not reach the runtime: creating the same explicit id
    again after a cleanup makes a new [create_session] request on the
    runtime state as it was, and when the runtime refuses it the id stays
    unregistered. *)
Theorem create_after_cleanup_asks_runtime (self : service)
    (user_id session_id : string) (now_ts : Z) (now_iso : string) :
  session_id <> "" ->
  let again :=
    create_or_get_session (cleanup_session self session_id) user_id
      (Some session_id) now_ts now_iso in
  runtime_calls (snd again) = S (runtime_calls self)
  /\ session_service (snd again)
     = snd (create_session (session_service self) "travel_planner_agent"
              user_id session_id)
  /\ (forall e, fst (create_session (session_service self)
                       "travel_planner_agent" user_id session_id) = Raise e ->
                fst again = Raise e
                /\ sessions (snd again) !! session_id = None)
  /\ (forall session,
        fst (create_session (session_service self)
               "travel_planner_agent" user_id session_id) = Ok session ->
        sessions (snd again) !! session_id = Some session).
Proof.
  intros Hne. cbv zeta. unfold create_or_get_session.
  assert (Hid : String.eqb session_id "" = false) by now apply String.eqb_neq.
  rewrite Hid. cbn [cleanup_session sessions session_service runtime_calls].
  rewrite lookup_delete_eq.
  destruct (create_session (session_service self) "travel_planner_agent"
              user_id session_id) as [[session | e] rt];
    cbn [fst snd sessions session_service runtime_calls].
  - repeat apply conj; try reflexivity.
    + intros e He. discriminate He.
    + intros s [= <-]. apply lookup_insert_eq.
  - repeat apply conj; try reflexivity.
    + intros e' [= <-]. split; [reflexivity | apply lookup_delete_eq].
    + intros s Hs. discriminate Hs.
Qed.

(** X3: create-or-get never removes or replaces a registered handle,
    whatever id it is called with and whether or not the runtime raises. *)
Theorem create_or_get_session_keeps_handles (self : service)
    (user_id : string) (session_id : option string) (now_ts : Z)
    (now_iso : string) (key : string) (session : Session) :
  sessions self !! key = Some session ->
  sessions (snd (create_or_get_session self user_id session_id now_ts now_iso))
    !! key = Some session.
Proof.
  intros Hkey. unfold create_or_get_session.
  match goal with
  | |- context [sessions self !! ?id] =>
      destruct (sessions self !! id) as [known | ] eqn:Hid
  end; [exact Hkey | ].
  match goal with
  | |- context [create_session ?rt ?app ?u ?id] =>
      destruct (create_session rt app u id) as [[created | e] rt'];
        cbn [snd sessions]; [ | exact Hkey];
        rewrite lookup_insert_ne; [exact Hkey | congruence]
  end.
Qed.

(** X4: the id that a successful create-or-get returns is registered: the
    state of that session can be read at once, with status [active] and as
    many messages as the handle has recorded events; and when no id (or an
    empty one) is given the id is [session_<user>_<seconds>]. *)
Theorem created_session_is_registered (self self' : service)
    (user_id reader : string) (session_id : option string) (now_ts : Z)
    (now_iso : string) (info : session_info) :
  create_or_get_session self user_id session_id now_ts now_iso
  = (Ok info, self') ->
  info_status info = "active"
  /\ (exists session,
        sessions self' !! info_id info = Some session
        /\ get_session_state self' reader (info_id info)
           = Ok {| snap_session_id := info_id info;
                   snap_user_id := reader;
                   snap_state := session_state session;
                   snap_status := "active";
                   snap_message_count := length (session_events session) |})
  /\ (session_id = None \/ session_id = Some "" ->
      info_id info = "session_" +:+ user_id +:+ "_" +:+ str_of_Z now_ts).
Proof.
  unfold create_or_get_session.
  set (id := match session_id with
             | Some s => if String.eqb s "" then _ else s
             | None => _
             end).
  intros Hrun.
  assert (Hinfo : info_id info = id /\ info_status info = "active"
                  /\ exists session, sessions self' !! id = Some session).
  { destruct (sessions self !! id) as [known | ] eqn:Hid.
    - injection Hrun as <- <-. cbn. eauto.
    - destruct (create_session (session_service self) "travel_planner_agent"
                  user_id id) as [[created | e] rt]; [ | discriminate].
      injection Hrun as <- <-. cbn. rewrite lookup_insert_eq. eauto. }
  destruct Hinfo as (Hid & Hstatus & session & Hs).
  repeat apply conj.
  - exact Hstatus.
  - exists session. rewrite Hid. split; [exact Hs | ].
    unfold get_session_state. now rewrite Hs.
  - intros [-> | ->]; rewrite Hid; reflexivity.
Qed.

(** X5: a later initialization replaces an earlier one.  Whatever the
    first call was given (profile, trips, time of the call), initializing
    the session again returns the same result and leaves the same service
    as the second call alone would have: the three context keys hold the
    values of the last call and nothing of the first remains. *)
Theorem later_initialization_replaces_earlier (self : service)
    (user_id1 user_id2 session_id : string) (profile1 profile2 : pydict)
    (trips1 trips2 : option (list pyval)) (now1 now2 : string) :
  initialize_session_with_user_data
    (snd (initialize_session_with_user_data self user_id1 session_id
            profile1 trips1 now1))
    user_id2 session_id profile2 trips2 now2
  = initialize_session_with_user_data self user_id2 session_id profile2
      trips2 now2.
Proof.
  unfold initialize_session_with_user_data.
  destruct (sessions self !! session_id) as [session | ] eqn:Hs.
  - cbn [snd sessions]. rewrite lookup_insert_eq.
    cbn [session_state session_events runners session_service runtime_calls].
    f_equal. f_equal. rewrite insert_insert_eq. f_equal. f_equal.
    cbn [user_context write_state].
    apply map_eq. intros k.
    rewrite !lookup_insert. repeat case_decide; reflexivity.
  - cbn [snd]. now rewrite Hs.
Qed.

(** X6: initialization touches nothing but the three context keys of the
    one session: its recorded events, every other key of its state, every
    other session and the runtime stay as they were. *)
Theorem initialize_is_local (self : service)
    (user_id session_id : string) (user_profile : pydict)
    (existing_trips : option (list pyval)) (now_iso : string)
    (session : Session) :
  sessions self !! session_id = Some session ->
  let self' :=
    snd (initialize_session_with_user_data self user_id session_id
           user_profile existing_trips now_iso) in
  (exists session',
     sessions self' !! session_id = Some session'
     /\ session_events session' = session_events session
     /\ forall key : string,
          key <> "user_profile" -> key <> "itinerary" ->
          key <> "system_time" ->
          session_state session' !! key = session_state session !! key)
  /\ (forall other : string,
        other <> session_id -> sessions self' !! other = sessions self !! other)
  /\ session_service self' = session_service self
  /\ runtime_calls self' = runtime_calls self.
Proof.
  intros Hs. cbv zeta. unfold initialize_session_with_user_data. rewrite Hs.
  cbn [snd sessions session_service runtime_calls].
  repeat apply conj; try reflexivity.
  - eexists. split; [apply lookup_insert_eq | ].
    cbn [session_events session_state user_context write_state].
    split; [reflexivity | ].
    intros key H1 H2 H3. now rewrite !lookup_insert_ne by congruence.
  - intros other Hne. now apply lookup_insert_ne.
Qed.

(** X7: initialization empties the itinerary: whatever plan the session
    state held before, extraction right after an initialization returns
    nothing. *)
Theorem initialize_discards_itinerary (self : service)
    (user_id reader session_id : string) (user_profile : pydict)
    (existing_trips : option (list pyval)) (now_iso : string)
    (session : Session) :
  sessions self !! session_id = Some session ->
  extract_itinerary_from_session
    (snd (initialize_session_with_user_data self user_id session_id
            user_profile existing_trips now_iso))
    reader session_id = Ok None.
Proof.
  intros Hs. unfold initialize_session_with_user_data. rewrite Hs.
  unfold extract_itinerary_from_session, get_session_state.
  cbn [snd sessions]. rewrite lookup_insert_eq.
  cbn [mbind result_bind snap_state session_state user_context write_state].
  rewrite lookup_insert_ne by discriminate.
  rewrite lookup_insert_eq. reflexivity.
Qed.

End RegistryLifecycle.

Lemma create_after_cleanup_asks_runtime_witness :
  runtime_calls
    (snd (@create_or_get_session Sample.runtime
            (cleanup_session (Examples.service_with Examples.fresh_session) "s1")
            "u1" (Some "s1") 100 "t1")) = 1
  /\ sessions
       (snd (@create_or_get_session Sample.runtime
               (cleanup_session (Examples.service_with Examples.fresh_session)
                  "s1")
               "u1" (Some "s1") 100 "t1")) !! "s1"
     = Some Examples.fresh_session.
Proof.
  destruct (@create_after_cleanup_asks_runtime Sample.runtime
              (Examples.service_with Examples.fresh_session) "u1" "s1" 100 "t1")
    as (Hcalls & _ & _ & Hok).
  - discriminate.
  - split; [exact Hcalls | ]. apply Hok. reflexivity.
Defined.

Lemma create_or_get_session_keeps_handles_witness :
  sessions
    (snd (@create_or_get_session Sample.runtime
            (Examples.service_with Examples.session_with_history)
            "u2" (Some "s2") 100 "t1")) !! "s1"
  = Some Examples.session_with_history.
Proof.
  apply (@create_or_get_session_keeps_handles Sample.runtime).
  reflexivity.
Defined.

Lemma created_session_is_registered_witness :
  info_id {| info_id := "session_u1_100"; info_status := "active";
             info_created_at := "t1" |}
  = "session_" +:+ "u1" +:+ "_" +:+ str_of_Z 100.
Proof.
  destruct (@created_session_is_registered Sample.runtime
              Examples.empty_service
              (snd (@create_or_get_session Sample.runtime Examples.empty_service
                      "u1" None 100 "t1"))
              "u1" "u9" None 100 "t1"
              {| info_id := "session_u1_100"; info_status := "active";
                 info_created_at := "t1" |})
    as (_ & _ & Hid).
  - reflexivity.
  - apply Hid. now left.
Defined.

Lemma initialize_is_local_witness :
  exists session',
    sessions
      (snd (@initialize_session_with_user_data Sample.runtime
              (Examples.service_with Examples.session_with_history)
              "u1" "s1" [] None "t1")) !! "s1" = Some session'
    /\ session_events session'
       = session_events Examples.session_with_history.
Proof.
  destruct (@initialize_is_local Sample.runtime
              (Examples.service_with Examples.session_with_history)
              "u1" "s1" [] None "t1" Examples.session_with_history eq_refl)
    as ((session' & Hs & Hevents & _) & _).
  exists session'. split; assumption.
Defined.

Lemma initialize_discards_itinerary_witness :
  @extract_itinerary_from_session Sample.builtins Sample.runtime
    (snd (@initialize_session_with_user_data Sample.runtime
            (Examples.service_with Itinerary.planned_session)
            "u1" "s1" [] None "t1"))
    "u1" "s1" = Ok None.
Proof.
  apply (@initialize_discards_itinerary Sample.builtins Sample.runtime
           (Examples.service_with Itinerary.planned_session)
           "u1" "u1" "s1" [] None "t1" Itinerary.planned_session).
  reflexivity.
Defined.

(** ** Chat turns in streaming mode and on an empty stream *)

Section TurnOrder.
Context `{Builtins} `{Runtime}.

(** X8: in streaming mode a turn of a registered session over a
    non-empty stream that ends normally yields exactly one event per
    native event, in arrival order: the k-th event yielded is the
    translation of the k-th native event. *)
Theorem streaming_yields_every_event_in_order (self : service)
    (user_id session_id message : string) (r : run) (clock : nat -> string)
    (session : Session) :
  sessions self !! session_id = Some session ->
  run_error r = None ->
  run_events r <> [] ->
  exists out : list pyval,
    send_message self user_id session_id message false r clock = Ok out
    /\ length out = length (run_events r)
    /\ forall (k : nat) (event : native_event),
         run_events r !! k = Some event ->
         out !! k = Some (translate (clock k) event).
Proof.
  intros Hs He Hne.
  rewrite (send_message_registered _ _ _ _ _ _ _ _ Hs). cbv zeta. rewrite He.
  assert (Hnth : forall stream i k event,
             stream !! k = Some event ->
             translate_stream clock i stream !! k
             = Some (translate (clock (i + k)) event)).
  { induction stream as [ | e rest IH]; intros i k event; [discriminate | ].
    destruct k as [ | k]; cbn [translate_stream].
    - intros [= <-]. now rewrite Nat.add_0_r.
    - intros Hk.
      change (translate_stream clock (S i) rest !! k
              = Some (translate (clock (i + S k)) event)).
      rewrite (IH (S i) k event Hk). now rewrite Nat.add_succ_r. }
  exists (translate_stream clock 0 (run_events r)).
  split; [ | split].
  - destruct (translate_stream clock 0 (run_events r)) as [ | x rest] eqn:Htr.
    + apply (f_equal (@length pyval)) in Htr.
      rewrite translate_stream_length in Htr.
      now destruct (run_events r).
    + now destruct (last_structured None (x :: rest)).
  - apply translate_stream_length.
  - intros k event Hk. now rewrite (Hnth _ 0 k event Hk).
Qed.


End TurnOrder.

Lemma streaming_yields_every_event_in_order_witness :
  exists out : list pyval,
    @send_message Sample.builtins Sample.runtime
      (Examples.service_with Examples.fresh_session) "u1" "s1" "find flights"
      false Examples.example_run Examples.clock = Ok out
    /\ length out = 3.
Proof.
  destruct (@streaming_yields_every_event_in_order Sample.builtins
              Sample.runtime (Examples.service_with Examples.fresh_session)
              "u1" "s1" "find flights" Examples.example_run Examples.clock
              Examples.fresh_session)
    as (out & Hrun & Hlen & _).
  - reflexivity.
  - reflexivity.
  - discriminate.
  - exists out. split; assumption.
Defined.


Lemma structured_only_output_witness :
  @send_message Sample.builtins Sample.runtime
    (Examples.service_with Examples.fresh_session) "u1" "s1" "find flights"
    true Examples.example_run Examples.clock
  = Ok (List.filter is_structured_response
          (@translate_stream Sample.builtins Examples.clock 0
             (run_events Examples.example_run))
        ++ match last (List.filter is_structured_response
                         (@translate_stream Sample.builtins Examples.clock 0
                            (run_events Examples.example_run))) with
           | Some found => [found]
           | None => []
           end).
Proof.
  apply (@structured_only_output Sample.builtins Sample.runtime
           (Examples.service_with Examples.fresh_session) "u1" "s1"
           "find flights" Examples.example_run Examples.clock
           Examples.fresh_session).
  - reflexivity.
  - reflexivity.
  - discriminate.
Defined.

(** ** The translated event, field by field *)

(** A variant of [convert_steps_keeps] for invariants that depend on which
    keys are written and on what is attached as [structured_data]: the
    translator writes [type] with five constants only, the plain keys,
    and attaches only values in which [data] occurs. *)
Section StepInvariantOn.
Context `{Builtins}.
Variables Inv Att : pydict -> Prop.
Hypothesis Att_Inv : forall d, Att d -> Inv d.
Hypothesis attach :
  forall v, py_contains "data" v = Ok true ->
    hoare Inv (set_item "structured_data" v) Att.
Hypothesis retype :
  hoare Att (set_item "type" (PStr "structured_response")) Att.
Hypothesis tag :
  forall t, t = "flights" \/ t = "hotels" ->
    hoare Att (set_item "data_type" (PStr t)) Att.
Hypothesis plain :
  forall k v, In k plain_keys -> hoare Inv (set_item k v) Inv.
Hypothesis types :
  forall t,
    In t ["function_call"; "function_response"; "final_response"; "error"] ->
    hoare Inv (set_item "type" (PStr t)) Inv.

Lemma detect_on (data_items : pyval) :
  hoare Att (detect_data_type data_items) Att.
Proof.
  unfold detect_data_type.
  destruct data_items; try apply hoare_ret.
  destruct l as [ | first rest]; [apply hoare_ret | ].
  destruct first; try apply hoare_ret.
  destruct (has_key "flightNumber" kv); [apply tag; now left | ].
  destruct (has_key "pricePerNight" kv); [apply tag; now right | ].
  apply hoare_ret.
Qed.

Lemma attach_on (v data_items : pyval) :
  py_contains "data" v = Ok true ->
  hoare Inv
    (set_item "structured_data" v;;
     set_item "type" (PStr "structured_response");;
     detect_data_type data_items)
    Inv.
Proof.
  intros Hv.
  apply (hoare_bind _ Att); [now apply attach | | apply Att_Inv].
  intros _.
  apply (hoare_bind _ Att); [apply retype | | apply Att_Inv].
  intros _ d Hd. apply Att_Inv. now apply detect_on.
Qed.

Lemma check_part_on (part : pyval) : hoare Inv (check_part part) Inv.
Proof.
  unfold check_part.
  destruct part; try apply hoare_ret.
  destruct (dict_get "text" kv) as [text | ]; [ | apply hoare_ret].
  destruct text; try apply hoare_ret.
  destruct (json_loads s) as [structured_data | ]; [ | apply hoare_ret].
  apply hoare_lift_bind; [ | auto].
  intros [ | ] Hfound; [ | apply hoare_ret].
  apply (hoare_bind _ Att); [now apply attach | | apply Att_Inv].
  intros _.
  apply (hoare_bind _ Att); [apply retype | | apply Att_Inv].
  intros _.
  apply (hoare_bind _ Att); [apply hoare_lift | | apply Att_Inv].
  intros data_items d Hd. apply Att_Inv. now apply detect_on.
Qed.

Lemma check_for_structured_data_on (content : pyval) :
  hoare Inv (_check_for_structured_data content) Inv.
Proof.
  unfold _check_for_structured_data.
  destruct content; try apply hoare_ret.
  destruct (has_key "data" kv) eqn:Hdata.
  - apply attach_on. cbn. now rewrite Hdata.
  - destruct (has_key "parts" kv); [ | apply hoare_ret].
    apply hoare_seq; [apply hoare_lift | ].
    intros parts. apply hoare_for_each. apply check_part_on.
Qed.

Lemma check_response_on (response : pyval) :
  hoare Inv (check_response response) Inv.
Proof.
  unfold check_response.
  destruct response; try apply hoare_ret.
  destruct (dict_get "response" kv) as [r | ]; [ | apply hoare_ret].
  destruct r; try apply hoare_ret.
  destruct (has_key "data" kv0) eqn:Hdata; [ | apply hoare_ret].
  apply attach_on. cbn. now rewrite Hdata.
Qed.

Ltac written :=
  first [ apply plain; cbn; tauto | apply types; cbn; tauto ].

Lemma convert_steps_on (event : native_event) :
  hoare Inv (convert_steps event) Inv.
Proof.
  unfold convert_steps.
  repeat (apply hoare_seq; [apply hoare_guarded | intros _]);
    try apply hoare_guarded.
  - unfold basic_properties.
    apply hoare_seq; [apply hoare_lift | intros author].
    apply hoare_seq; [apply hoare_when_some; intros; written | intros _].
    apply hoare_seq; [apply hoare_lift | intros timestamp].
    apply hoare_seq; [apply hoare_when_some; intros; written | intros _].
    apply hoare_seq; [apply hoare_lift | intros raw].
    apply hoare_when_some. intros c.
    apply hoare_seq; [written | intros _].
    apply check_for_structured_data_on.
  - unfold function_calls_step.
    apply hoare_seq; [apply hoare_lift | intros calls].
    destruct (truthy calls); [ | apply hoare_ret].
    apply hoare_seq; [written | intros _; written].
  - unfold function_responses_step.
    apply hoare_seq; [apply hoare_lift | intros responses].
    destruct (truthy responses); [ | apply hoare_ret].
    apply hoare_seq; [written | intros _].
    apply hoare_seq; [written | intros _].
    apply hoare_seq; [apply hoare_lift | intros serialized].
    apply hoare_for_each. apply check_response_on.
  - unfold final_step.
    apply hoare_seq; [apply hoare_lift | intros final].
    destruct (truthy final); [ | apply hoare_ret].
    apply hoare_seq; [written | intros _; written].
  - unfold error_step.
    apply hoare_seq; [apply hoare_lift | intros message].
    apply hoare_when_some. intros m.
    apply hoare_seq; [written | intros _].
    apply hoare_seq; [written | intros _; written].
  - unfold metadata_step.
    apply hoare_seq; [apply hoare_lift | intros partial].
    apply hoare_seq; [apply hoare_when_some; intros; written | intros _].
    apply hoare_seq; [apply hoare_lift | intros turn_complete].
    apply hoare_when_some; intros; written.
Qed.

End StepInvariantOn.

Lemma has_key_set_any (k k' : string) (v : pyval) (d : pydict) :
  has_key k' d = true -> has_key k' (dict_set k v d) = true.
Proof.
  intros Hd. destruct (String.eqb_spec k k') as [-> | Hne].
  - apply has_key_set_same.
  - now rewrite has_key_set_other.
Qed.

Lemma framed_set_other (k : string) (v : pyval) :
  k <> "type" -> hoare framed (set_item k v) framed.
Proof.
  intros Hk d (Hts & Ha & t & Ht & Hin). unfold set_item, framed. cbn [snd].
  rewrite dict_get_set_other by assumption.
  repeat split; try now apply has_key_set_any. eauto.
Qed.

Lemma framed_set_type (t : string) :
  In t event_types -> hoare framed (set_item "type" (PStr t)) framed.
Proof.
  intros Ht d (Hts & Ha & _). unfold set_item, framed. cbn [snd].
  rewrite dict_get_set_same.
  repeat split; try now apply has_key_set_any. eauto.
Qed.

Lemma contains_data_truthy (v : pyval) :
  py_contains "data" v = Ok true -> truthy (_make_json_serializable v) = true.
Proof.
  destruct v; cbn; try discriminate.
  - intros [= Hc]. destruct s; [discriminate | reflexivity].
  - intros [= Hc]. destruct l; [discriminate | reflexivity].
  - intros [= Hc]. destruct l; [discriminate | reflexivity].
  - intros [= Hc]. destruct kv; [discriminate | reflexivity].
Qed.

Section FieldFacts.
Context `{Builtins}.

Lemma convert_steps_framed (event : native_event) :
  hoare framed (convert_steps event) framed.
Proof.
  apply (convert_steps_on framed framed); auto.
  - intros v _. apply framed_set_other. discriminate.
  - apply framed_set_type. cbn. tauto.
  - intros t _. apply framed_set_other. discriminate.
  - intros k v Hk. apply framed_set_other. cbn in Hk.
    intros ->. repeat destruct Hk as [Hk | Hk]; discriminate || exact Hk.
  - intros t Ht. apply framed_set_type. cbn in *. tauto.
Qed.

Lemma convert_steps_structured_data_truthy (event : native_event) :
  hoare structured_data_truthy (convert_steps event) structured_data_truthy.
Proof.
  apply (convert_steps_on structured_data_truthy structured_data_truthy);
    auto.
  - intros v Hv d _. unfold set_item, structured_data_truthy. cbn [snd].
    rewrite dict_get_set_same. now apply contains_data_truthy.
  - intros d Hd. unfold set_item, structured_data_truthy in *. cbn [snd].
    now rewrite dict_get_set_other by discriminate.
  - intros t _ d Hd. unfold set_item, structured_data_truthy in *. cbn [snd].
    now rewrite dict_get_set_other by discriminate.
  - intros k v Hk d Hd. unfold set_item, structured_data_truthy in *.
    cbn [snd]. rewrite dict_get_set_other; [exact Hd | ].
    cbn in Hk. intros ->.
    repeat destruct Hk as [Hk | Hk]; discriminate || exact Hk.
  - intros t _ d Hd. unfold set_item, structured_data_truthy in *. cbn [snd].
    now rewrite dict_get_set_other by discriminate.
Qed.

(** The [structured_data] of a translated event is truthy. *)
Lemma translated_structured_data_truthy (now : string) (event : native_event)
    (v : pyval) :
  event_get "structured_data" (translate now event) = Some v ->
  truthy v = true.
Proof.
  unfold translate, _convert_adk_event_to_dict.
  pose proof (convert_steps_structured_data_truthy event
                (initial_event_dict now) I) as Hinv.
  pose proof (convert_steps_ok event (initial_event_dict now)) as Hok.
  destruct (convert_steps event (initial_event_dict now)) as [r d].
  simpl in Hok, Hinv. subst r. cbn [event_get _make_json_serializable].
  rewrite mjs_dict_get. unfold structured_data_truthy in Hinv.
  destruct (dict_get "structured_data" d); [ | discriminate].
  now intros [= <-].
Qed.

(** X11: every translated event carries [type], [author] and
    [timestamp], and its [type] is one of [agent_message],
    [structured_response], [function_call], [function_response],
    [final_response] and [error]. *)
Theorem translated_event_is_framed (now : string) (event : native_event) :
  exists (d : pydict) (t : string),
    _convert_adk_event_to_dict now event = Ok (PDict d)
    /\ dict_get "type" d = Some (PStr t)
    /\ In t event_types
    /\ is_Some (dict_get "author" d)
    /\ is_Some (dict_get "timestamp" d).
Proof.
  unfold _convert_adk_event_to_dict.
  assert (Hstart : framed (initial_event_dict now)).
  { repeat split. exists "agent_message". split; [reflexivity | now left]. }
  pose proof (convert_steps_framed event (initial_event_dict now) Hstart)
    as (Hts & Ha & t & Ht & Hin).
  pose proof (convert_steps_ok event (initial_event_dict now)) as Hok.
  destruct (convert_steps event (initial_event_dict now)) as [r d].
  simpl in Hok, Hts, Ha, Ht. subst r. cbn [_make_json_serializable].
  eexists _, t. split; [reflexivity | ].
  rewrite !mjs_dict_get, Ht. unfold has_key in Hts, Ha.
  split; [reflexivity | ]. split; [exact Hin | ].
  destruct (dict_get "author" d); [ | discriminate].
  destruct (dict_get "timestamp" d); [ | discriminate].
  cbn. eauto.
Qed.

End FieldFacts.

Lemma set_item_keeps (k k' : string) (v : pyval) (x : option pyval) :
  k' <> k ->
  hoare (fun d => dict_get k d = x) (set_item k' v) (fun d => dict_get k d = x).
Proof.
  intros Hne d Hd. unfold set_item. cbn [snd].
  now rewrite dict_get_set_other.
Qed.

Section PrecedenceFacts.
Context `{Builtins}.

Lemma convert_steps_snd (event : native_event) (d : pydict) :
  snd (convert_steps event d)
  = snd (metadata_step event
      (snd (error_step event
        (snd (final_step event
          (snd (function_responses_step event
            (snd (function_calls_step event
              (snd (basic_properties event d))))))))))).
Proof. reflexivity. Qed.

Lemma convert_translated (now : string) (event : native_event) :
  translate now event
  = _make_json_serializable
      (PDict (snd (convert_steps event (initial_event_dict now)))).
Proof.
  unfold translate, _convert_adk_event_to_dict.
  pose proof (convert_steps_ok event (initial_event_dict now)) as Hok.
  destruct (convert_steps event (initial_event_dict now)) as [r d].
  simpl in Hok. now subst r.
Qed.

Lemma metadata_step_keeps (event : native_event) (k : string) (d : pydict) :
  k <> "partial" -> k <> "turn_complete" ->
  dict_get k (snd (metadata_step event d)) = dict_get k d.
Proof.
  intros H1 H2.
  enough (Hh : hoare (fun d' => dict_get k d' = dict_get k d)
                 (metadata_step event)
                 (fun d' => dict_get k d' = dict_get k d))
    by exact (Hh d eq_refl).
  unfold metadata_step.
  apply hoare_seq; [apply hoare_lift | intros partial].
  apply hoare_seq;
    [apply hoare_when_some; intros; now apply set_item_keeps | intros _].
  apply hoare_seq; [apply hoare_lift | intros turn_complete].
  apply hoare_when_some; intros; now apply set_item_keeps.
Qed.

Lemma error_step_sets (event : native_event) (m : pyval) (d : pydict) :
  ev_error_message event = Has m -> truthy m = true ->
  snd (error_step event d)
  = dict_set "type" (PStr "error")
      (dict_set "message" m (dict_set "error" (PBool true) d)).
Proof.
  intros Hm Ht. unfold error_step. rewrite Hm.
  unfold mbind, M_bind, lift, attr_truthy. now rewrite Ht.
Qed.

Lemma error_step_idle (event : native_event) (d : pydict) :
  (forall m, attr_truthy (ev_error_message event) <> Ok (Some m)) ->
  snd (error_step event d) = d.
Proof.
  intros Hm. unfold error_step.
  destruct (attr_truthy (ev_error_message event)) as [[m | ] | e];
    [now elim (Hm m) | reflexivity | reflexivity].
Qed.

Lemma final_step_sets (event : native_event) (final : pyval) (d : pydict) :
  ev_is_final_response event = Ok final -> truthy final = true ->
  snd (final_step event d)
  = dict_set "final" (PBool true) (dict_set "type" (PStr "final_response") d).
Proof.
  intros Hf Ht. unfold final_step. rewrite Hf.
  unfold mbind, M_bind, lift. now rewrite Ht.
Qed.

(** X12: an error message on the native event decides the type whatever
    else the event holds: the translated event has type [error], [error]
    true and the (converted) message as [message]. *)
Theorem error_message_decides_type (now : string) (event : native_event)
    (m : pyval) :
  ev_error_message event = Has m ->
  truthy m = true ->
  event_get "type" (translate now event) = Some (PStr "error")
  /\ event_get "error" (translate now event) = Some (PBool true)
  /\ event_get "message" (translate now event)
     = Some (_make_json_serializable m).
Proof.
  intros Hm Ht. rewrite convert_translated, convert_steps_snd.
  cbn [event_get _make_json_serializable]. rewrite !mjs_dict_get.
  rewrite !metadata_step_keeps by discriminate.
  rewrite (error_step_sets _ _ _ Hm Ht).
  rewrite dict_get_set_same.
  rewrite (dict_get_set_other "type" "error") by discriminate.
  rewrite (dict_get_set_other "message" "error") by discriminate.
  rewrite (dict_get_set_other "type" "message") by discriminate.
  rewrite !dict_get_set_same. auto.
Qed.

(** X13: without an error message, finality decides the type: a final
    event translates to type [final_response] with [final] true, even when
    its content was classified as structured. *)
Theorem final_response_decides_type (now : string) (event : native_event)
    (final : pyval) :
  ev_is_final_response event = Ok final ->
  truthy final = true ->
  (forall m, attr_truthy (ev_error_message event) <> Ok (Some m)) ->
  event_get "type" (translate now event) = Some (PStr "final_response")
  /\ event_get "final" (translate now event) = Some (PBool true).
Proof.
  intros Hf Ht Hm. rewrite convert_translated, convert_steps_snd.
  cbn [event_get _make_json_serializable]. rewrite !mjs_dict_get.
  rewrite !metadata_step_keeps by discriminate.
  rewrite (error_step_idle _ _ Hm).
  rewrite (final_step_sets _ _ _ Hf Ht).
  rewrite dict_get_set_same.
  rewrite (dict_get_set_other "final" "type") by discriminate.
  rewrite dict_get_set_same. auto.
Qed.

(** X14: a method that raises is treated as one that has nothing to say:
    the event translates as if [get_function_calls] or
    [get_function_responses] had returned an empty list, as if
    [is_final_response] had returned false, and as if a raising
    [error_message] were missing; the other steps are carried out all the
    same. *)
Theorem raising_accessor_is_empty_answer (now : string)
    (event : native_event) (e : exn) :
  _convert_adk_event_to_dict now (with_get_function_calls (Raise e) event)
  = _convert_adk_event_to_dict now
      (with_get_function_calls (Ok (PList [])) event)
  /\ _convert_adk_event_to_dict now
       (with_get_function_responses (Raise e) event)
     = _convert_adk_event_to_dict now
         (with_get_function_responses (Ok (PList [])) event)
  /\ _convert_adk_event_to_dict now (with_is_final_response (Raise e) event)
     = _convert_adk_event_to_dict now
         (with_is_final_response (Ok (PBool false)) event)
  /\ _convert_adk_event_to_dict now (with_error_message (Raises e) event)
     = _convert_adk_event_to_dict now (with_error_message Absent event).
Proof.
  repeat apply conj; try reflexivity.
  assert (Hstep : forall d,
             snd (error_step (with_error_message (Raises e) event) d)
             = snd (error_step (with_error_message Absent event) d)).
  { intros d. unfold error_step, mbind, M_bind, lift, attr_truthy.
    cbn [ev_error_message with_error_message].
    now destruct (is_attribute_error e). }
  unfold _convert_adk_event_to_dict, convert_steps, guarded, mbind, M_bind.
  cbn [fst snd]. now rewrite Hstep.
Qed.



End PrecedenceFacts.

Lemma error_message_decides_type_witness :
  event_get "type"
    (@translate Sample.builtins "t0"
       (with_error_message (Has (PStr "quota exceeded"))
          (with_is_final_response (Ok (PBool true)) Examples.plain_event)))
  = Some (PStr "error").
Proof.
  destruct (@error_message_decides_type Sample.builtins "t0"
              (with_error_message (Has (PStr "quota exceeded"))
                 (with_is_final_response (Ok (PBool true))
                    Examples.plain_event))
              (PStr "quota exceeded") eq_refl eq_refl) as (Htype & _).
  exact Htype.
Defined.

Lemma final_response_decides_type_witness :
  event_get "type"
    (@translate Sample.builtins "t0"
       (with_is_final_response (Ok (PBool true))
          (Examples.with_content Examples.flights_payload)))
  = Some (PStr "final_response").
Proof.
  destruct (@final_response_decides_type Sample.builtins "t0"
              (with_is_final_response (Ok (PBool true))
                 (Examples.with_content Examples.flights_payload))
              (PBool true) eq_refl eq_refl) as (Htype & _).
  - intros m. discriminate.
  - exact Htype.
Defined.


(** ** The JSON-safety conversion applied twice *)

(** X16: [_make_json_serializable] is idempotent: what it returns has no
    bytes, tuple or object left for a second pass to change. *)
Theorem make_json_serializable_idempotent (v : pyval) :
  _make_json_serializable (_make_json_serializable v)
  = _make_json_serializable v.
Proof.
  induction v using pyval_nested_ind; simpl; try reflexivity.
  - f_equal. rewrite map_map. apply map_ext_in. intros x Hx.
    rewrite Forall_forall in H. apply H. now apply list_elem_of_In.
  - f_equal. rewrite map_map. apply map_ext_in. intros x Hx.
    rewrite Forall_forall in H. apply H. now apply list_elem_of_In.
  - f_equal. rewrite map_map. apply map_ext_in. intros [k x] Hx.
    f_equal. rewrite Forall_forall in H.
    apply (H (k, x)). now apply list_elem_of_In.
  - destruct md as [ | e | x]; simpl in *; auto.
    destruct dm as [ | e | x]; simpl in *; auto.
    destruct dd as [x | ]; simpl in *; auto.
Qed.

(** ** The top-level entries of an extracted trip *)

Section TripBasics.
Context `{Builtins} `{Runtime}.

Lemma same_basics_refl (t : trip_data) : same_basics t t.
Proof. repeat split. Qed.

Lemma same_basics_trans (t1 t2 t3 : trip_data) :
  same_basics t1 t2 -> same_basics t2 t3 -> same_basics t1 t3.
Proof.
  unfold same_basics. intros H12 H23.
  destruct H12 as (A1 & A2 & A3 & A4 & A5 & A6 & A7 & A8 & A9 & A10).
  destruct H23 as (B1 & B2 & B3 & B4 & B5 & B6 & B7 & B8 & B9 & B10).
  repeat apply conj; congruence.
Qed.

Lemma scan_event_basics (event : pyval) (t t' : trip_data) :
  scan_event event t = Ok t' -> same_basics t t'.
Proof.
  unfold scan_event.
  destruct (py_get "event_type" (PStr "") event) as [ty | e];
    cbn [mbind result_bind]; [ | discriminate].
  destruct (is_str "hotel" (Some ty)).
  { destruct (py_get "room_selection" (PStr "") event);
      cbn [mbind result_bind]; [ | discriminate].
    intros [= <-]. repeat split. }
  destruct (is_str "visit" (Some ty)).
  { destruct (py_get "description" (PStr "") event);
      cbn [mbind result_bind]; [ | discriminate].
    intros [= <-]. repeat split. }
  destruct (is_str "transportation" (Some ty)).
  { destruct (py_get "type" (PStr "") event);
      cbn [mbind result_bind]; [ | discriminate].
    intros [= <-]. repeat split. }
  intros [= <-]. apply same_basics_refl.
Qed.

Lemma scan_events_basics (evs : list pyval) :
  forall t t', scan_events evs t = Ok t' -> same_basics t t'.
Proof.
  induction evs as [ | event rest IH]; intros t t'; cbn [scan_events].
  - intros [= <-]. apply same_basics_refl.
  - destruct (scan_event event t) as [t1 | e] eqn:He;
      cbn [mbind result_bind]; [ | discriminate].
    intros Hrest. apply (same_basics_trans t t1 t').
    + now apply (scan_event_basics event).
    + now apply IH.
Qed.

Lemma scan_days_basics (days : list pyval) :
  forall t t', scan_days days t = Ok t' -> same_basics t t'.
Proof.
  induction days as [ | day rest IH]; intros t t'; cbn [scan_days].
  - intros [= <-]. apply same_basics_refl.
  - destruct (scan_day day t) as [t1 | e] eqn:Hd;
      cbn [mbind result_bind]; [ | discriminate].
    intros Hrest. apply (same_basics_trans t t1 t'); [ | now apply IH].
    unfold scan_day in Hd.
    destruct (py_get "events" (PList []) day) as [evs | e];
      cbn [mbind result_bind] in Hd; [ | discriminate].
    destruct (py_iter evs) as [l | e];
      cbn [mbind result_bind] in Hd; [ | discriminate].
    now apply (scan_events_basics l).
Qed.

(** X17: the events of the days fill the three preference lists and
    nothing else.  For an itinerary of the expected shape the extracted
    trip takes its destination, departure city, dates and notes from the
    itinerary's top level (an absent one is the empty string), its budget
    and adult count as text (absent: [str(0)] and [str(1)]), children 0
    and pets false when absent, and its currency is always [USD]. *)
Theorem trip_basics_come_from_top_level (it : pydict) (day : pyval)
    (days : list pyval) :
  well_formed_itinerary it = true ->
  dict_get "days" it = Some (PList (day :: days)) ->
  let travelers :=
    match dict_get "travelers" it with
    | Some (PDict tr) => tr
    | _ => []
    end in
  exists trip,
    _convert_itinerary_to_trip_data (PDict it) = Ok trip
    /\ destination trip = dict_get_default "destination" (PStr "") it
    /\ departure_city trip = dict_get_default "origin" (PStr "") it
    /\ start_date trip = dict_get_default "start_date" (PStr "") it
    /\ end_date trip = dict_get_default "end_date" (PStr "") it
    /\ total_budget trip
       = py_str (dict_get_default "estimated_budget" (PInt 0) it)
    /\ currency trip = "USD"
    /\ total_adult_travellers trip
       = py_str (dict_get_default "adults" (PInt 1) travelers)
    /\ total_child_travellers trip
       = dict_get_default "children" (PInt 0) travelers
    /\ travelling_with_pets trip
       = dict_get_default "pets" (PBool false) travelers
    /\ special_requirements trip = dict_get_default "notes" (PStr "") it.
Proof.
  intros Hwf Hdays. cbv zeta.
  destruct (convert_itinerary_ok it day days Hwf Hdays) as (trip & Hrun & _).
  exists trip. split; [exact Hrun | ].
  unfold well_formed_itinerary in Hwf.
  apply andb_true_iff in Hwf as [Htravelers _].
  unfold _convert_itinerary_to_trip_data in Hrun.
  cbn [py_get mbind result_bind] in Hrun.
  assert (Htr : dict_get_default "travelers" (PDict []) it
                = PDict match dict_get "travelers" it with
                        | Some (PDict tr) => tr
                        | _ => []
                        end).
  { unfold dict_get_default.
    destruct (dict_get "travelers" it) as [v | ]; [ | reflexivity].
    destruct v; try discriminate. reflexivity. }
  rewrite Htr in Hrun. cbn [py_get mbind result_bind] in Hrun.
  assert (Hd : dict_get_default "days" (PList []) it = PList (day :: days))
    by (unfold dict_get_default; now rewrite Hdays).
  rewrite Hd in Hrun. cbn [truthy py_iter mbind result_bind] in Hrun.
  apply scan_days_basics in Hrun.
  destruct Hrun as (B1 & B2 & B3 & B4 & B5 & B6 & B7 & B8 & B9 & B10).
  repeat apply conj; assumption.
Qed.

(** X18: an itinerary with days whose [travelers] entry is not a mapping
    (a number, a string, [None]) makes extraction raise [AttributeError]
    instead of returning a trip or nothing. *)
Theorem non_mapping_travelers_raise (self : service)
    (user_id session_id : string) (session : Session) (it : pydict)
    (days v : pyval) :
  sessions self !! session_id = Some session ->
  session_state session !! "itinerary" = Some (PDict it) ->
  dict_get "days" it = Some days ->
  truthy days = true ->
  dict_get "travelers" it = Some v ->
  is_mapping v = false ->
  exists e,
    extract_itinerary_from_session self user_id session_id = Raise e
    /\ exn_kind e = "AttributeError".
Proof.
  intros Hs Hit Hdays Htruthy Htr Hv.
  unfold extract_itinerary_from_session, get_session_state. rewrite Hs.
  cbn [mbind result_bind snap_state]. rewrite Hit. cbn [from_option id].
  assert (Hne : truthy (PDict it) = true)
    by (destruct it; [discriminate Hdays | reflexivity]).
  rewrite Hne. cbn [py_get mbind result_bind].
  unfold dict_get_default at 1. rewrite Hdays, Htruthy.
  unfold _convert_itinerary_to_trip_data. cbn [py_get mbind result_bind].
  assert (Ht : dict_get_default "travelers" (PDict []) it = v)
    by (unfold dict_get_default; now rewrite Htr).
  rewrite Ht.
  destruct v; try discriminate Hv; cbn [py_get mbind result_bind]; eauto.
Qed.

End TripBasics.

Lemma trip_basics_come_from_top_level_witness :
  exists trip,
    @_convert_itinerary_to_trip_data Sample.builtins (PDict Itinerary.two_days)
    = Ok trip
    /\ destination trip = PStr "Paris"
    /\ currency trip = "USD"
    /\ total_adult_travellers trip = "1".
Proof.
  destruct (@trip_basics_come_from_top_level Sample.builtins
              Itinerary.two_days
              (PDict [ (PStr "day_number", PInt 1);
                       (PStr "events",
                        PList [ PDict [ (PStr "event_type", PStr "hotel");
                                        (PStr "room_selection", PStr "Suite") ];
                                PDict [ (PStr "event_type", PStr "visit");
                                        (PStr "description", PStr "Museum") ] ]) ])
              [ PDict [ (PStr "day_number", PInt 2);
                        (PStr "events",
                         PList [ PDict [ (PStr "event_type", PStr "hotel");
                                         (PStr "room_selection", PStr "Suite") ];
                                 PDict [ (PStr "event_type", PStr "transportation");
                                         (PStr "type", PStr "train") ] ]) ] ]
              eq_refl eq_refl)
    as (trip & Hrun & Hdest & _ & _ & _ & _ & Hcur & Hadults & _).
  exists trip. repeat apply conj; assumption.
Defined.

Lemma non_mapping_travelers_raise_witness :
  exists e,
    @extract_itinerary_from_session Sample.builtins Sample.runtime
      (Examples.service_with
         {| session_state :=
              {["itinerary" :=
                  PDict [ (PStr "travelers", PInt 2);
                          (PStr "days", PList [PDict []]) ]]};
            session_events := [] |})
      "u1" "s1" = Raise e
    /\ exn_kind e = "AttributeError".
Proof.
  apply (@non_mapping_travelers_raise Sample.builtins Sample.runtime
           (Examples.service_with
              {| session_state :=
                   {["itinerary" :=
                       PDict [ (PStr "travelers", PInt 2);
                               (PStr "days", PList [PDict []]) ]]};
                 session_events := [] |})
           "u1" "s1"
           {| session_state :=
                {["itinerary" :=
                    PDict [ (PStr "travelers", PInt 2);
                            (PStr "days", PList [PDict []]) ]]};
              session_events := [] |}
           [ (PStr "travelers", PInt 2); (PStr "days", PList [PDict []]) ]
           (PList [PDict []]) (PInt 2)); reflexivity.
Defined.

(** ** Intent classification and letter case *)

(** X19: the classification ignores letter case: lower-casing the message
    and the agent name beforehand changes nothing, whichever of the
    keyword sets or of the agent hints decides. *)
Theorem classification_ignores_case `{Builtins} (message : string)
    (agent_name : option string) :
  Parser.should_return_structured_data (lower message)
    (option_map lower agent_name)
  = Parser.should_return_structured_data message agent_name.
Proof.
  unfold Parser.should_return_structured_data. cbv zeta.
  rewrite lower_idempotent.
  destruct agent_name as [name | ]; [ | reflexivity].
  unfold Parser.agent_hint. cbn [option_map].
  now rewrite lower_empty, lower_idempotent.
Qed.

(** ** Parsing agent content *)

Section ContentFacts.
Context `{Builtins}.

(** X20: whatever the parser returns is its answer on a non-empty
    mapping: the content itself, or what the content decodes to after one
    or more rounds of [json.loads] (JSON text, JSON text of JSON text,
    ...), fewer rounds than the depth allows.  The answer wraps that
    mapping unchanged, under one of the three result types and with the
    time of the call.  A list of records, also as JSON text, is never
    wrapped. *)
Theorem parsed_content_wraps_a_mapping (depth : nat) (content : pyval)
    (expected_type : option string) (now : string) (response : pydict) :
  ParserContent.parse_adk_content_for_structured_data depth content
    expected_type now = Ok (Some response) ->
  exists (layers : nat) (d : pydict) (type : string),
    (layers < depth)%nat
    /\ ParserContent.unwrap layers content = Some (PDict d)
    /\ d <> []
    /\ ParserContent.parse_adk_content_for_structured_data 1 (PDict d)
         expected_type now = Ok (Some response)
    /\ response = ParserContent.format_response type (PDict d) now
    /\ In type [ "flight_search_results"; "hotel_search_results";
                 "itinerary_results" ].
Proof.
  revert content. induction depth as [ | depth IH]; intros content;
    cbn [ParserContent.parse_adk_content_for_structured_data];
    [discriminate | ].
  destruct (truthy content) eqn:Ht; cbn [negb]; [ | discriminate].
  destruct content; try discriminate.
  - destruct (json_loads s) as [parsed | ] eqn:Hloads; [ | discriminate].
    intros Hrun.
    destruct (IH parsed Hrun) as (layers & d & type & Hlt & Hu & Hrest).
    exists (S layers), d, type. split; [lia | ]. split; [ | exact Hrest].
    cbn [ParserContent.unwrap]. cbn [truthy] in Ht.
    apply negb_true_iff in Ht. now rewrite Ht, Hloads.
  - assert (Hkv : kv <> []) by (intros ->; discriminate Ht).
    intros Hrun. exists 0%nat, kv.
    assert (Hone : ParserContent.parse_adk_content_for_structured_data 1
                     (PDict kv) expected_type now = Ok (Some response)).
    { cbn [ParserContent.parse_adk_content_for_structured_data].
      rewrite Ht. exact Hrun. }
    assert (Htype : exists type,
               response = ParserContent.format_response type (PDict kv) now
               /\ In type [ "flight_search_results"; "hotel_search_results";
                            "itinerary_results" ]).
    { revert Hrun.
      destruct (_ || _);
        [intros [= <-]; exists "flight_search_results"; cbn; auto | ].
      destruct (_ || _);
        [intros [= <-]; exists "hotel_search_results"; cbn; auto | ].
      destruct (_ || _); [ | discriminate].
      intros [= <-]. exists "itinerary_results". cbn. auto. }
    destruct Htype as (type & Hr & Hin). exists type.
    split; [lia | ]. split; [reflexivity | ]. split; [exact Hkv | ].
    split; [exact Hone | ]. split; assumption.
Qed.

(** X21: the flight reading comes first.  A non-empty mapping whose
    printed form mentions a flight indicator anywhere, in a key or in a
    value, is returned as flight results whatever type the caller
    expected, and so is the JSON text of such a mapping. *)
Theorem flight_indicator_wins (depth : nat) (c : pyval * pyval) (cs : pydict)
    (expected_type : option string) (now text : string) :
  ParserContent._contains_flight_data (PDict (c :: cs)) = true ->
  ParserContent.parse_adk_content_for_structured_data (S depth)
    (PDict (c :: cs)) expected_type now
  = Ok (Some (ParserContent._format_flight_response (PDict (c :: cs)) now))
  /\ (text <> "" ->
      json_loads text = Some (PDict (c :: cs)) ->
      ParserContent.parse_adk_content_for_structured_data (S (S depth))
        (PStr text) expected_type now
      = Ok (Some (ParserContent._format_flight_response (PDict (c :: cs))
                    now))).
Proof.
  intros Hflight.
  assert (Hmap : forall k,
             ParserContent.parse_adk_content_for_structured_data (S k)
               (PDict (c :: cs)) expected_type now
             = Ok (Some (ParserContent._format_flight_response
                           (PDict (c :: cs)) now))).
  { intros k. cbn [ParserContent.parse_adk_content_for_structured_data
                     truthy negb].
    now rewrite Hflight, orb_true_r. }
  split; [apply Hmap | ].
  intros Htext Hloads.
  change (ParserContent.parse_adk_content_for_structured_data (S (S depth))
            (PStr text) expected_type now)
    with (if negb (truthy (PStr text)) then Ok None
          else match json_loads text with
               | Some parsed_content =>
                   ParserContent.parse_adk_content_for_structured_data
                     (S depth) parsed_content expected_type now
               | None => Ok None
               end).
  assert (Ht : truthy (PStr text) = true).
  { cbn [truthy]. apply negb_true_iff. now apply String.eqb_neq. }
  rewrite Ht, Hloads. cbn [negb]. apply Hmap.
Qed.

End ContentFacts.

Lemma parsed_content_wraps_a_mapping_witness :
  exists (layers : nat) (d : pydict),
    @ParserContent.unwrap Printer.builtins layers (PStr Sample.flights_json)
    = Some (PDict d)
    /\ [ (PStr "type", PStr "flight_search_results");
         (PStr "data", Examples.flights_payload);
         (PStr "timestamp", PStr "t0") ]
       = ParserContent.format_response "flight_search_results" (PDict d) "t0".
Proof.
  destruct (@parsed_content_wraps_a_mapping Printer.builtins 2
              (PStr Sample.flights_json) (Some "flight") "t0"
              [ (PStr "type", PStr "flight_search_results");
                (PStr "data", Examples.flights_payload);
                (PStr "timestamp", PStr "t0") ]
              ltac:(vm_compute; reflexivity))
    as (layers & d & type & _ & Hu & _ & _ & Hr & _).
  exists layers, d. split; [exact Hu | ].
  rewrite Hr. injection Hr as Htype _. now rewrite <- Htype.
Defined.

Lemma flight_indicator_wins_witness :
  @ParserContent.parse_adk_content_for_structured_data Printer.builtins 1
    (PDict [ (PStr "hotels",
              PList [PDict [ (PStr "name", PStr "Sea View");
                             (PStr "shuttle", PStr "Departure at 8") ]]) ])
    (Some "hotel") "t0"
  = Ok (Some
          [ (PStr "type", PStr "flight_search_results");
            (PStr "data",
             PDict [ (PStr "hotels",
                      PList [PDict [ (PStr "name", PStr "Sea View");
                                     (PStr "shuttle",
                                      PStr "Departure at 8") ]]) ]);
            (PStr "timestamp", PStr "t0") ]).
Proof.
  destruct (@flight_indicator_wins Printer.builtins 0
              (PStr "hotels",
               PList [PDict [ (PStr "name", PStr "Sea View");
                              (PStr "shuttle", PStr "Departure at 8") ]])
              [] (Some "hotel") "t0" "" eq_refl) as (Hmap & _).
  exact Hmap.
Defined.

(** ** The flight service *)

Lemma customize_mapping (origin destination departure_date flight_class : pyval)
    (f : pydict) :
  FlightService.customize origin destination departure_date flight_class
    (PDict f)
  = Ok (PDict
      (let f1 := if truthy origin
                 then dict_set "departureAirport" origin f else f in
       let f2 := if truthy destination
                 then dict_set "arrivalAirport" destination f1 else f1 in
       let f3 := if truthy departure_date
                 then dict_set "arrivalDate" departure_date
                        (dict_set "departureDate" departure_date f2)
                 else f2 in
       if truthy flight_class then dict_set "class" flight_class f3 else f3)).
Proof.
  unfold FlightService.customize. cbn.
  destruct (truthy origin), (truthy destination), (truthy departure_date),
    (truthy flight_class); reflexivity.
Qed.

Lemma customize_all_mappings
    (origin destination departure_date flight_class : pyval)
    (items : list pyval) :
  forallb is_mapping items = true ->
  exists flights,
    FlightService.customize_all origin destination departure_date flight_class
      items = Ok flights
    /\ length flights = length items
    /\ forall (k : nat) (item : pyval),
         items !! k = Some item ->
         exists flight,
           flights !! k = Some flight
           /\ FlightService.customize origin destination departure_date
                flight_class item = Ok flight.
Proof.
  induction items as [ | item rest IH]; intros Hmaps.
  - exists []. repeat split. intros k item Hk. discriminate Hk.
  - cbn [forallb] in Hmaps. apply andb_true_iff in Hmaps as [Hitem Hrest].
    destruct (IH Hrest) as (flights & Hrun & Hlen & Hnth).
    destruct item as [ | | | | | | | | f | ]; try discriminate Hitem.
    cbn [FlightService.customize_all].
    rewrite customize_mapping, Hrun. cbn [mbind result_bind].
    eexists. split; [reflexivity | ]. split; [cbn; now rewrite Hlen | ].
    intros [ | k] it Hk.
    + injection Hk as <-. eexists. split; [reflexivity | ].
      apply customize_mapping.
    + apply (Hnth k it Hk).
Qed.

(** The five keys that a search may write. *)
Lemma customized_entry (origin destination departure_date flight_class : pyval)
    (f f' : pydict) :
  FlightService.customize origin destination departure_date flight_class
    (PDict f) = Ok (PDict f') ->
  dict_get "departureAirport" f'
  = (if truthy origin then Some origin else dict_get "departureAirport" f)
  /\ dict_get "arrivalAirport" f'
     = (if truthy destination then Some destination
        else dict_get "arrivalAirport" f)
  /\ dict_get "departureDate" f'
     = (if truthy departure_date then Some departure_date
        else dict_get "departureDate" f)
  /\ dict_get "arrivalDate" f'
     = (if truthy departure_date then Some departure_date
        else dict_get "arrivalDate" f)
  /\ dict_get "class" f'
     = (if truthy flight_class then Some flight_class else dict_get "class" f)
  /\ forall key : string,
       ~ In key [ "departureAirport"; "arrivalAirport"; "departureDate";
                  "arrivalDate"; "class" ] ->
       dict_get key f' = dict_get key f.
Proof.
  rewrite customize_mapping. cbv zeta. intros [= <-].
  repeat apply conj.
  - destruct (truthy origin), (truthy destination), (truthy departure_date),
      (truthy flight_class);
      repeat first [ rewrite dict_get_set_same
                   | rewrite dict_get_set_other by discriminate ];
      reflexivity.
  - destruct (truthy origin), (truthy destination), (truthy departure_date),
      (truthy flight_class);
      repeat first [ rewrite dict_get_set_same
                   | rewrite dict_get_set_other by discriminate ];
      reflexivity.
  - destruct (truthy origin), (truthy destination), (truthy departure_date),
      (truthy flight_class);
      repeat first [ rewrite dict_get_set_same
                   | rewrite dict_get_set_other by discriminate ];
      reflexivity.
  - destruct (truthy origin), (truthy destination), (truthy departure_date),
      (truthy flight_class);
      repeat first [ rewrite dict_get_set_same
                   | rewrite dict_get_set_other by discriminate ];
      reflexivity.
  - destruct (truthy origin), (truthy destination), (truthy departure_date),
      (truthy flight_class);
      repeat first [ rewrite dict_get_set_same
                   | rewrite dict_get_set_other by discriminate ];
      reflexivity.
  - intros key Hkey. cbn [In] in Hkey.
    assert (N1 : "departureAirport" <> key) by tauto.
    assert (N2 : "arrivalAirport" <> key) by tauto.
    assert (N3 : "departureDate" <> key) by tauto.
    assert (N4 : "arrivalDate" <> key) by tauto.
    assert (N5 : "class" <> key) by tauto.
    destruct (truthy origin), (truthy destination), (truthy departure_date),
      (truthy flight_class);
      repeat rewrite dict_get_set_other by assumption; reflexivity.
Qed.

(** X22: a search never filters.  Over stored data that is a list of
    mappings it returns one flight per stored flight, in the stored order,
    whatever the criteria; each is the stored flight with the airports,
    both dates and the class replaced by the criteria that are given, and
    every other entry as stored. *)
Theorem search_flights_customizes_every_flight (fd : pydict)
    (items : list pyval)
    (origin destination departure_date passenger_count flight_class : pyval)
    (now : string) :
  dict_get "data" fd = Some (PList items) ->
  forallb is_mapping items = true ->
  exists flights : list pyval,
    FlightService.search_flights (PDict fd) origin destination departure_date
      passenger_count flight_class now
    = Ok [ (PStr "type", PStr "flight_search_results");
           (PStr "data", PList flights);
           (PStr "search_criteria", PDict
              [ (PStr "origin", origin);
                (PStr "destination", destination);
                (PStr "departure_date", departure_date);
                (PStr "passenger_count", passenger_count);
                (PStr "class", flight_class) ]);
           (PStr "timestamp", PStr now) ]
    /\ length flights = length items
    /\ forall (k : nat) (f : pydict),
         items !! k = Some (PDict f) ->
         exists f' : pydict,
           flights !! k = Some (PDict f')
           /\ dict_get "departureAirport" f'
              = (if truthy origin then Some origin
                 else dict_get "departureAirport" f)
           /\ dict_get "arrivalAirport" f'
              = (if truthy destination then Some destination
                 else dict_get "arrivalAirport" f)
           /\ dict_get "departureDate" f'
              = (if truthy departure_date then Some departure_date
                 else dict_get "departureDate" f)
           /\ dict_get "arrivalDate" f'
              = (if truthy departure_date then Some departure_date
                 else dict_get "arrivalDate" f)
           /\ dict_get "class" f'
              = (if truthy flight_class then Some flight_class
                 else dict_get "class" f)
           /\ forall key : string,
                ~ In key [ "departureAirport"; "arrivalAirport";
                           "departureDate"; "arrivalDate"; "class" ] ->
                dict_get key f' = dict_get key f.
Proof.
  intros Hdata Hmaps.
  destruct (customize_all_mappings origin destination departure_date
              flight_class items Hmaps) as (flights & Hrun & Hlen & Hnth).
  exists flights. split; [ | split; [exact Hlen | ]].
  - unfold FlightService.search_flights. cbn [py_get mbind result_bind].
    unfold dict_get_default. rewrite Hdata. cbn [py_iter mbind result_bind].
    now rewrite Hrun.
  - intros k f Hk. destruct (Hnth k (PDict f) Hk) as (flight & Hf & Hc).
    pose proof Hc as Hshape. rewrite customize_mapping in Hshape.
    injection Hshape as <-.
    eexists. split; [exact Hf | ].
    now apply customized_entry.
Qed.

Lemma find_flight_first (flight_id : string) (items : list pyval) :
  forallb is_mapping items = true ->
  match FlightService.find_flight flight_id items with
  | Ok (Some flight) =>
      exists before after : list pyval,
        items = before ++ flight :: after
        /\ event_get "id" flight = Some (PStr flight_id)
        /\ Forall (fun other => event_get "id" other <> Some (PStr flight_id))
             before
  | Ok None =>
      Forall (fun other => event_get "id" other <> Some (PStr flight_id)) items
  | Raise _ => False
  end.
Proof.
  induction items as [ | item rest IH]; intros Hmaps;
    cbn [FlightService.find_flight].
  - constructor.
  - cbn [forallb] in Hmaps. apply andb_true_iff in Hmaps as [Hitem Hrest].
    specialize (IH Hrest).
    destruct item as [ | | | | | | | | f | ]; try discriminate Hitem.
    cbn [py_get mbind result_bind]. unfold dict_get_default.
    destruct (is_str flight_id
                (Some match dict_get "id" f with
                      | Some v => v
                      | None => PNone
                      end)) eqn:Hid.
    + exists [], rest. repeat apply conj; [reflexivity | | constructor].
      cbn [event_get]. destruct (dict_get "id" f) as [v | ];
        [ | discriminate Hid].
      destruct v; try discriminate Hid. cbn [is_str] in Hid.
      apply String.eqb_eq in Hid. now subst.
    + assert (Hne : event_get "id" (PDict f) <> Some (PStr flight_id)).
      { cbn [event_get]. intros Heq. rewrite Heq in Hid. cbn [is_str] in Hid.
        now rewrite String.eqb_refl in Hid. }
      destruct (FlightService.find_flight flight_id rest) as [[flight | ] | e].
      * destruct IH as (before & after & -> & Hf & Hb).
        exists (PDict f :: before), after.
        repeat apply conj; [reflexivity | exact Hf | now constructor].
      * now constructor.
      * exact IH.
Qed.

(** X23: a lookup by id returns the first stored flight whose [id] is that
    string: it is one of the stored flights, as stored, no flight before it
    has the id, and the answer is nothing exactly when no stored flight has
    the id. *)
Theorem get_flight_by_id_returns_first_match (fd : pydict)
    (items : list pyval) (flight_id : string) :
  dict_get "data" fd = Some (PList items) ->
  forallb is_mapping items = true ->
  match FlightService.get_flight_by_id (PDict fd) flight_id with
  | Ok (Some flight) =>
      exists before after : list pyval,
        items = before ++ flight :: after
        /\ event_get "id" flight = Some (PStr flight_id)
        /\ Forall (fun other => event_get "id" other <> Some (PStr flight_id))
             before
  | Ok None =>
      Forall (fun other => event_get "id" other <> Some (PStr flight_id)) items
  | Raise _ => False
  end.
Proof.
  intros Hdata Hmaps. unfold FlightService.get_flight_by_id.
  cbn [py_get mbind result_bind]. unfold dict_get_default. rewrite Hdata.
  cbn [py_iter mbind result_bind]. now apply find_flight_first.
Qed.

(** X24: a mock response asked without criteria (none, or an empty
    mapping) searches with no origin, destination or date, one passenger
    and class [economy]: every stored flight comes back with its class set
    to [economy], a business flight too, and otherwise as stored. *)
Theorem mock_response_defaults_to_economy `{Builtins} (fd : pydict)
    (items : list pyval) (search_criteria : option pydict) (now : string) :
  dict_get "data" fd = Some (PList items) ->
  forallb is_mapping items = true ->
  search_criteria = None \/ search_criteria = Some [] ->
  exists flights : list pyval,
    ParserContent.generate_mock_flight_response (PDict fd) search_criteria now
    = Ok [ (PStr "type", PStr "flight_search_results");
           (PStr "data", PList flights);
           (PStr "search_criteria", PDict
              [ (PStr "origin", PNone);
                (PStr "destination", PNone);
                (PStr "departure_date", PNone);
                (PStr "passenger_count", PInt 1);
                (PStr "class", PStr "economy") ]);
           (PStr "timestamp", PStr now) ]
    /\ length flights = length items
    /\ forall (k : nat) (f : pydict),
         items !! k = Some (PDict f) ->
         flights !! k = Some (PDict (dict_set "class" (PStr "economy") f)).
Proof.
  intros Hdata Hmaps Hnone.
  destruct (customize_all_mappings PNone PNone PNone (PStr "economy") items
              Hmaps) as (flights & Hrun & Hlen & Hnth).
  exists flights. split; [ | split; [exact Hlen | ]].
  - assert (Hcall :
      ParserContent.generate_mock_flight_response (PDict fd) search_criteria now
      = FlightService.search_flights (PDict fd) PNone PNone PNone (PInt 1)
          (PStr "economy") now)
      by (destruct Hnone as [-> | ->]; reflexivity).
    rewrite Hcall. unfold FlightService.search_flights.
    cbn [py_get mbind result_bind].
    unfold dict_get_default. rewrite Hdata. cbn [py_iter mbind result_bind].
    now rewrite Hrun.
  - intros k f Hk. destruct (Hnth k (PDict f) Hk) as (flight & Hf & Hc).
    rewrite customize_mapping in Hc. cbn in Hc. injection Hc as <-.
    exact Hf.
Qed.

Lemma search_flights_customizes_every_flight_witness :
  exists (flights : list pyval) (f' : pydict),
    FlightService.search_flights FlightService.default_flights_data
      (PStr "BOM") PNone PNone (PInt 2) (PStr "business") "t0"
    = Ok [ (PStr "type", PStr "flight_search_results");
           (PStr "data", PList flights);
           (PStr "search_criteria", PDict
              [ (PStr "origin", PStr "BOM");
                (PStr "destination", PNone);
                (PStr "departure_date", PNone);
                (PStr "passenger_count", PInt 2);
                (PStr "class", PStr "business") ]);
           (PStr "timestamp", PStr "t0") ]
    /\ flights !! 0%nat = Some (PDict f')
    /\ dict_get "departureAirport" f' = Some (PStr "BOM")
    /\ dict_get "arrivalAirport" f' = Some (PStr "GOI")
    /\ dict_get "class" f' = Some (PStr "business").
Proof.
  destruct (search_flights_customizes_every_flight
              [(PStr "data", PList [PDict FlightService.default_flight])]
              [PDict FlightService.default_flight]
              (PStr "BOM") PNone PNone (PInt 2) (PStr "business") "t0"
              eq_refl eq_refl) as (flights & Hrun & _ & Hnth).
  destruct (Hnth 0%nat FlightService.default_flight eq_refl)
    as (f' & Hf & Hdep & Harr & _ & _ & Hclass & _).
  exists flights, f'. repeat apply conj; assumption.
Defined.

Lemma get_flight_by_id_returns_first_match_witness :
  exists before after : list pyval,
    [PDict FlightService.default_flight]
    = before ++ PDict FlightService.default_flight :: after
    /\ event_get "id" (PDict FlightService.default_flight)
       = Some (PStr "economy1")
    /\ Forall (fun other => event_get "id" other <> Some (PStr "economy1"))
         before.
Proof.
  exact (get_flight_by_id_returns_first_match
           [(PStr "data", PList [PDict FlightService.default_flight])]
           [PDict FlightService.default_flight] "economy1" eq_refl eq_refl).
Defined.

Lemma mock_response_defaults_to_economy_witness :
  exists flights : list pyval,
    @ParserContent.generate_mock_flight_response
      (PDict [(PStr "data",
               PList [PDict [ (PStr "id", PStr "b1");
                              (PStr "class", PStr "business") ]])])
      None "t0"
    = Ok [ (PStr "type", PStr "flight_search_results");
           (PStr "data", PList flights);
           (PStr "search_criteria", PDict
              [ (PStr "origin", PNone);
                (PStr "destination", PNone);
                (PStr "departure_date", PNone);
                (PStr "passenger_count", PInt 1);
                (PStr "class", PStr "economy") ]);
           (PStr "timestamp", PStr "t0") ]
    /\ flights !! 0%nat
       = Some (PDict [ (PStr "id", PStr "b1");
                       (PStr "class", PStr "economy") ]).
Proof.
  destruct (@mock_response_defaults_to_economy Sample.builtins
              [(PStr "data",
                PList [PDict [ (PStr "id", PStr "b1");
                               (PStr "class", PStr "business") ]])]
              [PDict [ (PStr "id", PStr "b1");
                       (PStr "class", PStr "business") ]]
              None "t0" eq_refl eq_refl (or_introl eq_refl))
    as (flights & Hrun & _ & Hnth).
  exists flights. split; [exact Hrun | ].
  exact (Hnth 0%nat _ eq_refl).
Defined.

(** ** The routes *)

Lemma created_registered `{Runtime} (self self' : service) (user_id : string)
    (session_id : option string) (now_ts : Z) (now_iso : string)
    (info : session_info) :
  create_or_get_session self user_id session_id now_ts now_iso
  = (Ok info, self') ->
  exists session, sessions self' !! info_id info = Some session.
Proof.
  unfold create_or_get_session.
  set (id := match session_id with
             | Some s => if String.eqb s "" then _ else s
             | None => _
             end).
  intros Hrun.
  destruct (sessions self !! id) as [known | ] eqn:Hid.
  - injection Hrun as <- <-. cbn. eauto.
  - destruct (create_session (session_service self) "travel_planner_agent"
                user_id id) as [[created | e] rt]; [ | discriminate].
    injection Hrun as <- <-. cbn. rewrite lookup_insert_eq. eauto.
Qed.

Section RouteFacts.
Context `{Builtins} `{Runtime} `{Json}.

Lemma translated_structured_has_truthy_data (clock : nat -> string)
    (stream : list native_event) (i : nat) :
  Forall (fun x => is_structured_response x = true ->
                   exists v, event_get "structured_data" x = Some v
                             /\ truthy v = true)
    (translate_stream clock i stream).
Proof.
  apply translate_stream_forall. intros now event Hsr.
  destruct (structured_response_has_data now event Hsr) as (d & v & Hd & Hv).
  exists v.
  assert (Hget : event_get "structured_data" (translate now event) = Some v)
    by (rewrite Hd; exact Hv).
  split; [exact Hget | ].
  exact (translated_structured_data_truthy now event v Hget).
Qed.

Lemma structured_reply_head (session_id : string) (first v : pyval)
    (rest : list pyval) :
  is_structured_response first = true ->
  event_get "structured_data" first = Some v ->
  truthy v = true ->
  Routes.structured_reply session_id (first :: rest)
  = [ (PStr "success", PBool true);
      (PStr "session_id", PStr session_id);
      (PStr "data_type",
         default (PStr "unknown") (event_get "data_type" first));
      (PStr "data", v) ].
Proof.
  intros Hsr Hv Ht. unfold Routes.structured_reply, Routes.first_structured.
  cbn [List.find]. rewrite Hsr.
  rewrite bool_decide_eq_true_2 by (rewrite Hv; eauto).
  cbn [andb]. rewrite Hv. cbn [from_option id]. now rewrite Ht.
Qed.

Lemma structured_reply_none (session_id : string) (events : list pyval) :
  Routes.first_structured events = None ->
  Routes.structured_reply session_id events
  = [ (PStr "success", PBool false);
      (PStr "message", PStr "No structured data found");
      (PStr "session_id", PStr session_id);
      (PStr "data", PNone) ].
Proof. intros Hnone. unfold Routes.structured_reply. now rewrite Hnone. Qed.

Lemma fallback_not_structured (session : Session) (now : string)
    (more : list pyval) :
  fallback session now = Ok more -> Routes.first_structured more = None.
Proof.
  unfold fallback.
  destruct (last (session_events session)) as [latest | ];
    [ | now intros [= <-]].
  destruct (ev_content latest) as [ | e | content];
    [ now intros [= <-]
    | destruct (is_attribute_error e); [now intros [= <-] | discriminate]
    | ].
  destruct (fallback_content content) as [content' | e];
    cbn [mbind result_bind]; [ | discriminate].
  now intros [= <-].
Qed.

(** X25: the structured route answers from the first structured event of
    the turn.  For a registered session it never raises; when the stream
    holds a structured event, the body carries the [structured_data] of
    the first one, which is truthy, and its [data_type] ([unknown] when it
    has none), also when the runtime fails later in the turn; when the
    stream holds none, the body says [success] false, whether the turn
    ended normally, fell back on the history or failed. *)
Theorem structured_route_answers_from_first_event (self : service)
    (uid session_id message : string) (r : run) (clock : nat -> string)
    (session : Session) :
  session_id <> "" ->
  sessions self !! session_id = Some session ->
  match List.filter is_structured_response
          (translate_stream clock 0 (run_events r)) with
  | first :: _ =>
      exists v : pyval,
        event_get "structured_data" first = Some v
        /\ truthy v = true
        /\ Routes.chat_with_travel_planner_structured self uid
             (Some session_id) message r clock
           = Respond
               [ (PStr "success", PBool true);
                 (PStr "session_id", PStr session_id);
                 (PStr "data_type",
                    default (PStr "unknown") (event_get "data_type" first));
                 (PStr "data", v) ]
  | [] =>
      Routes.chat_with_travel_planner_structured self uid (Some session_id)
        message r clock
      = Respond
          [ (PStr "success", PBool false);
            (PStr "message", PStr "No structured data found");
            (PStr "session_id", PStr session_id);
            (PStr "data", PNone) ]
  end.
Proof.
  intros Hne Hs. unfold Routes.chat_with_travel_planner_structured.
  assert (Hid : String.eqb session_id "" = false) by now apply String.eqb_neq.
  rewrite Hid, (send_message_registered _ _ _ _ _ _ _ _ Hs). cbv zeta.
  cbn [andb].
  pose proof (translated_structured_has_truthy_data clock (run_events r) 0)
    as Hall.
  remember (translate_stream clock 0 (run_events r)) as tr eqn:Htr.
  clear Htr.
  destruct (List.filter is_structured_response tr) as [ | first rest] eqn:Hf.
  - assert (Hlast : last_structured None tr = None).
    { destruct (last_structured None tr) as [found | ] eqn:Hl;
        [ | reflexivity].
      apply last_structured_from in Hl as [Hl | [Hin Hsr]]; [discriminate | ].
      assert (Hin' : In found (List.filter is_structured_response tr))
        by (apply filter_In; auto).
      rewrite Hf in Hin'. destruct Hin'. }
    rewrite Hlast. cbn [app].
    destruct (run_error r) as [e | ]; [reflexivity | ].
    destruct tr as [ | x tr']; [ | reflexivity].
    destruct (fallback session (clock (length (@nil pyval))))
      as [more | e] eqn:Hfb; [ | reflexivity].
    now rewrite (structured_reply_none _ _ (fallback_not_structured _ _ _ Hfb)).
  - assert (Hin : In first (List.filter is_structured_response tr))
      by (rewrite Hf; now left).
    apply filter_In in Hin as [Hin Hsr].
    rewrite Forall_forall in Hall.
    destruct (Hall first (proj2 (list_elem_of_In _ _) Hin) Hsr)
      as (v & Hv & Ht).
    exists v. split; [exact Hv | ]. split; [exact Ht | ].
    assert (Hne' : tr <> []) by (intros ->; discriminate Hf).
    assert (Hreply : forall tail,
               Routes.structured_reply session_id ((first :: rest) ++ tail)
               = [ (PStr "success", PBool true);
                   (PStr "session_id", PStr session_id);
                   (PStr "data_type",
                      default (PStr "unknown")
                        (event_get "data_type" first));
                   (PStr "data", v) ]).
    { intros tail. cbn [app]. now apply structured_reply_head. }
    destruct (run_error r) as [e | ]; [now rewrite Hreply | ].
    destruct (last_structured None tr) as [found | ].
    + destruct (truthy found); [now rewrite Hreply | ].
      destruct tr as [ | x tr']; [now elim Hne' | ].
      now rewrite <- (app_nil_r (first :: rest)), Hreply.
    + destruct tr as [ | x tr']; [now elim Hne' | ].
      now rewrite <- (app_nil_r (first :: rest)), Hreply.
Qed.

Lemma forward_all (events : list pyval) :
  forallb json_serializable events = true ->
  exists texts : list string,
    Forall2 (fun event text => json_dumps event = Ok text) events texts
    /\ Routes.forward events = (map Routes.sse texts, None).
Proof.
  induction events as [ | event rest IH]; intros Hall.
  - exists []. split; [constructor | reflexivity].
  - cbn [forallb] in Hall. apply andb_true_iff in Hall as [He Hrest].
    destruct (IH Hrest) as (texts & Htexts & Hrun).
    destruct (json_dumps_returns event He) as (text & Htext).
    exists (text :: texts). split; [now constructor | ].
    cbn [Routes.forward]. now rewrite Htext, Hrun.
Qed.

Lemma forward_stops (before after : list pyval) (bad : pyval) :
  forallb json_serializable before = true ->
  json_serializable bad = false ->
  exists (texts : list string) (e : exn),
    Forall2 (fun event text => json_dumps event = Ok text) before texts
    /\ json_dumps bad = Raise e
    /\ exn_kind e = "TypeError"
    /\ Routes.forward (before ++ bad :: after) = (map Routes.sse texts, Some e).
Proof.
  intros Hall Hbad. destruct (json_dumps_raises bad Hbad) as (e & He & Hk).
  induction before as [ | event rest IH].
  - exists [], e. repeat apply conj; [constructor | assumption.. | ].
    cbn [app Routes.forward]. now rewrite He.
  - cbn [forallb] in Hall. apply andb_true_iff in Hall as [Hev Hrest].
    destruct (IH Hrest) as (texts & e' & Htexts & He' & Hk' & Hrun).
    destruct (json_dumps_returns event Hev) as (text & Htext).
    exists (text :: texts), e'.
    repeat apply conj; [now constructor | assumption.. | ].
    cbn [app Routes.forward]. now rewrite Htext, Hrun.
Qed.

(** X26: the frames of a chat turn.  When every event the service yields
    is JSON-serializable, the stream is the [connection_established]
    frame, one frame per event in the order yielded, and the
    [stream_complete] frame, and the generator ends without raising. *)
Theorem stream_frames_every_event (self : service)
    (uid session_id message : string) (r : run) (clock : nat -> string)
    (events : list pyval) :
  send_message self uid session_id message false r clock = Ok events ->
  forallb json_serializable events = true ->
  exists (connected completed : string) (texts : list string),
    json_dumps (Routes.initial_event session_id) = Ok connected
    /\ json_dumps Routes.completion_event = Ok completed
    /\ Forall2 (fun event text => json_dumps event = Ok text) events texts
    /\ Routes.generate_events self uid session_id message r clock
       = (Routes.sse connected :: map Routes.sse texts
            ++ [Routes.sse completed], None).
Proof.
  intros Hrun Hall.
  destruct (json_dumps_returns (Routes.initial_event session_id) eq_refl)
    as (connected & Hc).
  destruct (json_dumps_returns Routes.completion_event eq_refl)
    as (completed & Hd).
  destruct (forward_all events Hall) as (texts & Htexts & Hf).
  exists connected, completed, texts.
  repeat apply conj; [assumption.. | ].
  unfold Routes.generate_events, Routes.stream_body.
  now rewrite Hc, Hrun, Hf, Hd.
Qed.

(** X27: an event that [json.dumps] rejects ends the stream.  The events
    before it are forwarded, then the handler's [error] frame with the
    text of the [TypeError] is sent; the events after it are not
    forwarded and no [stream_complete] frame follows. *)
Theorem unserializable_event_ends_stream (self : service)
    (uid session_id message : string) (r : run) (clock : nat -> string)
    (before after : list pyval) (bad : pyval) :
  send_message self uid session_id message false r clock
  = Ok (before ++ bad :: after) ->
  forallb json_serializable before = true ->
  json_serializable bad = false ->
  exists (connected failed : string) (texts : list string) (e : exn),
    json_dumps (Routes.initial_event session_id) = Ok connected
    /\ Forall2 (fun event text => json_dumps event = Ok text) before texts
    /\ json_dumps bad = Raise e
    /\ exn_kind e = "TypeError"
    /\ json_dumps (Routes.stream_error_event e) = Ok failed
    /\ Routes.generate_events self uid session_id message r clock
       = (Routes.sse connected :: map Routes.sse texts
            ++ [Routes.sse failed], None).
Proof.
  intros Hrun Hall Hbad.
  destruct (json_dumps_returns (Routes.initial_event session_id) eq_refl)
    as (connected & Hc).
  destruct (forward_stops before after bad Hall Hbad)
    as (texts & e & Htexts & He & Hk & Hf).
  destruct (json_dumps_returns (Routes.stream_error_event e) eq_refl)
    as (failed & Hd).
  exists connected, failed, texts, e.
  repeat apply conj; [assumption.. | ].
  unfold Routes.generate_events, Routes.stream_body.
  now rewrite Hc, Hrun, Hf, Hd.
Qed.

(** X28: a session id that is not registered is treated differently by
    the routes.  The structured route and the save route raise HTTP 500;
    the chat route returns its stream all the same, and the stream is the
    [connection_established] frame followed by an [error] frame that
    says the session was not found, without a [stream_complete] frame. *)
Theorem unregistered_session_per_route (self : service)
    (uid session_id message : string) (r : run) (clock : nat -> string)
    (save_trip : string -> trip_data -> option string) :
  session_id <> "" ->
  sessions self !! session_id = None ->
  Routes.chat_with_travel_planner_structured self uid (Some session_id)
    message r clock
  = HTTPException 500 "Failed to get structured data from travel planner"
  /\ Routes.save_itinerary_to_trip self uid session_id save_trip
     = HTTPException 500 "Failed to save itinerary"
  /\ exists connected failed : string,
       json_dumps (Routes.initial_event session_id) = Ok connected
       /\ json_dumps
            (PDict [ (PStr "error", PBool true);
                     (PStr "type", PStr "error");
                     (PStr "message",
                        PStr ("Session " +:+ session_id +:+ " not found"));
                     (PStr "author", PStr "system") ]) = Ok failed
       /\ Routes.chat_with_travel_planner self uid (Some session_id) message
            r clock
          = Respond ([Routes.sse connected; Routes.sse failed], None).
Proof.
  intros Hne Hs.
  assert (Hid : String.eqb session_id "" = false) by now apply String.eqb_neq.
  repeat apply conj.
  - unfold Routes.chat_with_travel_planner_structured, send_message.
    now rewrite Hid, Hs.
  - unfold Routes.save_itinerary_to_trip, extract_itinerary_from_session,
      get_session_state.
    now rewrite Hs.
  - destruct (json_dumps_returns (Routes.initial_event session_id) eq_refl)
      as (connected & Hc).
    destruct (json_dumps_returns
                (Routes.stream_error_event (session_not_found session_id))
                eq_refl) as (failed & Hd).
    exists connected, failed. split; [exact Hc | ]. split; [exact Hd | ].
    unfold Routes.chat_with_travel_planner, Routes.generate_events,
      Routes.stream_body, send_message.
    rewrite Hid, Hc, Hs. now rewrite Hd.
Qed.

(** X29: the session route starts the plan over.  Whenever it answers,
    the session it names is registered, its state holds the e-mail of the
    token (not the one of the stored profile) and an empty itinerary, so
    that the save route called next answers HTTP 400; it raises HTTP 500
    exactly when the runtime refuses to create the session. *)
Theorem session_route_starts_over (self : service) (uid : string)
    (email : pyval) (session_id : option string)
    (stored_profile : option pydict) (recent_trips : list pyval)
    (now_ts : Z) (now_iso init_iso : string)
    (save_trip : string -> trip_data -> option string) :
  match create_or_get_session self uid session_id now_ts now_iso with
  | (Raise _, self') =>
      Routes.create_travel_planner_session self uid email session_id
        stored_profile recent_trips now_ts now_iso init_iso
      = (HTTPException 500 "Failed to create travel planner session", self')
  | (Ok session_data, _) =>
      exists (self' : service) (session' : Session) (profile : pydict),
        Routes.create_travel_planner_session self uid email session_id
          stored_profile recent_trips now_ts now_iso init_iso
        = (Respond
             {| success := true;
                message := "Travel planner session created and initialized";
                response_session_id := info_id session_data;
                data := Some [ (PStr "user_trips_count",
                                PInt (Z.of_nat (length recent_trips))) ] |},
           self')
        /\ sessions self' !! info_id session_data = Some session'
        /\ session_state session' !! "user_profile" = Some (PDict profile)
        /\ dict_get "email" profile = Some email
        /\ session_state session' !! "itinerary" = Some (PDict [])
        /\ Routes.save_itinerary_to_trip self' uid (info_id session_data)
             save_trip
           = HTTPException 400 "No completed itinerary found in session"
  end.
Proof.
  unfold Routes.create_travel_planner_session.
  destruct (create_or_get_session self uid session_id now_ts now_iso)
    as [[session_data | e] self1] eqn:Hcreate; [ | reflexivity].
  destruct (created_registered self self1 uid session_id now_ts now_iso
              session_data Hcreate) as (session & Hs).
  unfold initialize_session_with_user_data. rewrite Hs.
  eexists _, _, _. split; [reflexivity | ].
  cbn [sessions]. rewrite lookup_insert_eq.
  split; [reflexivity | ].
  cbn [session_state user_context write_state].
  split; [ | split; [ | split]].
  - rewrite lookup_insert_ne by discriminate.
    rewrite lookup_insert_ne by discriminate.
    rewrite lookup_insert_eq. reflexivity.
  - cbn [dict_get is_key String.eqb Ascii.eqb Bool.eqb].
    unfold dict_get_default.
    rewrite (dict_get_set_other "uid" "email") by discriminate.
    now rewrite dict_get_set_same.
  - rewrite lookup_insert_ne by discriminate.
    rewrite lookup_insert_eq. reflexivity.
  - unfold Routes.save_itinerary_to_trip, extract_itinerary_from_session,
      get_session_state.
    cbn [sessions]. rewrite lookup_insert_eq.
    cbn [mbind result_bind snap_state session_state].
    rewrite lookup_insert_ne by discriminate.
    rewrite lookup_insert_eq. reflexivity.
Qed.

End RouteFacts.

Lemma structured_route_answers_from_first_event_witness :
  exists v : pyval,
    @Routes.chat_with_travel_planner_structured Sample.builtins Sample.runtime
      (Examples.service_with Examples.fresh_session) "u1" (Some "s1")
      "find flights" Examples.example_run Examples.clock
    = Respond [ (PStr "success", PBool true);
                (PStr "session_id", PStr "s1");
                (PStr "data_type", PStr "flights");
                (PStr "data", v) ]
    /\ truthy v = true.
Proof.
  pose proof (@structured_route_answers_from_first_event Sample.builtins
                Sample.runtime (Examples.service_with Examples.fresh_session)
                "u1" "s1" "find flights" Examples.example_run Examples.clock
                Examples.fresh_session ltac:(discriminate) eq_refl) as Hm.
  cbn in Hm. destruct Hm as (v & _ & Ht & Hroute).
  exists v. split; [exact Hroute | exact Ht].
Defined.

Lemma stream_frames_every_event_witness :
  exists (connected completed : string) (texts : list string),
    @Routes.generate_events Sample.builtins Sample.runtime Printer.json
      (Examples.service_with Examples.fresh_session) "u1" "s1" "find flights"
      Examples.example_run Examples.clock
    = (Routes.sse connected :: map Routes.sse texts
         ++ [Routes.sse completed], None)
    /\ length texts = 3%nat.
Proof.
  destruct (@stream_frames_every_event Sample.builtins Sample.runtime
              Printer.json (Examples.service_with Examples.fresh_session)
              "u1" "s1" "find flights" Examples.example_run Examples.clock
              (@translate_stream Sample.builtins Examples.clock 0
                 Examples.example_stream)
              eq_refl eq_refl)
    as (connected & completed & texts & _ & _ & Htexts & Hrun).
  exists connected, completed, texts. split; [exact Hrun | ].
  apply Forall2_length in Htexts. now rewrite <- Htexts.
Defined.

Lemma unserializable_event_ends_stream_witness :
  exists (connected failed : string) (e : exn),
    @Routes.generate_events Sample.builtins Sample.runtime Printer.json
      (Examples.service_with Examples.fresh_session) "u1" "s1" "search"
      {| run_events := [Examples.bytes_key_event; Examples.plain_event];
         run_error := None |}
      Examples.clock
    = ([Routes.sse connected; Routes.sse failed], None)
    /\ @json_dumps Printer.json (Routes.stream_error_event e) = Ok failed
    /\ exn_kind e = "TypeError".
Proof.
  destruct (@unserializable_event_ends_stream Sample.builtins Sample.runtime
              Printer.json (Examples.service_with Examples.fresh_session)
              "u1" "s1" "search"
              {| run_events := [Examples.bytes_key_event; Examples.plain_event];
                 run_error := None |}
              Examples.clock []
              [@translate Sample.builtins (Examples.clock 1)
                 Examples.plain_event]
              (@translate Sample.builtins (Examples.clock 0)
                 Examples.bytes_key_event)
              eq_refl eq_refl eq_refl)
    as (connected & failed & texts & e & _ & Htexts & _ & Hk & Hd & Hrun).
  inversion Htexts; subst.
  exists connected, failed, e. repeat apply conj; assumption.
Defined.

Lemma unregistered_session_per_route_witness :
  @Routes.chat_with_travel_planner_structured Sample.builtins Sample.runtime
    Examples.empty_service "u1" (Some "s9") "find flights"
    Examples.example_run Examples.clock
  = HTTPException 500 "Failed to get structured data from travel planner"
  /\ exists connected failed : string,
       @Routes.chat_with_travel_planner Sample.builtins Sample.runtime
         Printer.json Examples.empty_service "u1" (Some "s9") "find flights"
         Examples.example_run Examples.clock
       = Respond ([Routes.sse connected; Routes.sse failed], None).
Proof.
  destruct (@unregistered_session_per_route Sample.builtins Sample.runtime
              Printer.json Examples.empty_service "u1" "s9" "find flights"
              Examples.example_run Examples.clock (fun _ _ => None)
              ltac:(discriminate) eq_refl)
    as (Hstructured & _ & connected & failed & _ & _ & Hchat).
  split; [exact Hstructured | ]. exists connected, failed. exact Hchat.
Defined.

(** ** A flight service without its data file *)

(** X30: a data file that cannot be read is not an error for the callers:
    whatever the exception, the service then holds no flight, so every
    search succeeds with an empty list (and echoes its criteria), a mock
    response is empty as well, and no id is found. *)
Theorem unreadable_file_means_no_flights `{Builtins} (e : exn)
    (origin destination departure_date passenger_count flight_class : pyval)
    (search_criteria : option pydict) (flight_id now : string) :
  let flights_data := FlightService._load_flight_data (Some (Raise e)) in
  FlightService.search_flights flights_data origin destination departure_date
    passenger_count flight_class now
  = Ok [ (PStr "type", PStr "flight_search_results");
         (PStr "data", PList []);
         (PStr "search_criteria", PDict
            [ (PStr "origin", origin);
              (PStr "destination", destination);
              (PStr "departure_date", departure_date);
              (PStr "passenger_count", passenger_count);
              (PStr "class", flight_class) ]);
         (PStr "timestamp", PStr now) ]
  /\ (exists response,
        ParserContent.generate_mock_flight_response flights_data
          search_criteria now = Ok response
        /\ dict_get "data" response = Some (PList []))
  /\ FlightService.get_flight_by_id flights_data flight_id = Ok None.
Proof.
  cbv zeta. repeat apply conj; try reflexivity.
  eexists. split; reflexivity.
Qed.
